(** * simple-aitodo: trigger-time computation and task scheduling

    A shallow embedding of the reminder service's core:
    - [app/models.py]: task status and calendar-day records;
    - [app/schemas.py]: the scheduling part of the task configuration;
    - [app/utils/date_calculator.py]: countdown parsing, first trigger time,
      next cron run time;
    - [app/services/task_scheduler.py]: the live timer map;
    - [app/services/task_executor.py]: what happens when a timer fires.

    Python values are embedded as follows.  A naive local [datetime] is the
    number of microseconds since 0001-01-01T00:00:00, a [timedelta] a number
    of microseconds, both in [Z]; the interpreter's range checks are written
    out and raise [OverflowError].  [str] is [string]; the embedding covers
    ASCII text (the regular expression class [\d] and [str.lower]/[str.upper]
    are modelled on ASCII, [Str.is_ascii] says which texts these are).
    [int] of a string has CPython's limit of 4300 digits.  A Python call that
    can raise returns an [outcome].  The third-party libraries the code calls (croniter, lunardate,
    APScheduler) are interfaces here: type classes for the first two, a finite
    map of jobs for the third. *)

From Stdlib Require Import ZArith List String Ascii Bool Lia.
From stdpp Require Import base option gmap strings.
Import ListNotations.

Local Open Scope Z_scope.

(** ** Python runtime: exceptions *)

Inductive exn : Type :=
| ValueError
| OverflowError.

Inductive outcome (A : Type) : Type :=
| Returned (a : A)
| Raised (e : exn).

Arguments Returned {A} a.
Arguments Raised {A} e.

#[global] Instance outcome_ret : MRet outcome := fun A a => Returned a.

#[global] Instance outcome_bind : MBind outcome := fun A B f m =>
  match m with
  | Returned a => f a
  | Raised e => Raised e
  end.

(** [try: body except ValueError: handler] *)
Definition try_except_ValueError {A : Type} (body handler : outcome A) : outcome A :=
  match body with
  | Raised ValueError => handler
  | other => other
  end.

(** ** Python runtime: [str] helpers *)

Module Str.

(** a character of the class [\d], among ASCII characters *)
Definition is_digit (c : ascii) : bool :=
  let n := Z.of_nat (nat_of_ascii c) in (48 <=? n) && (n <=? 57).

Definition digit_value (c : ascii) : Z := Z.of_nat (nat_of_ascii c) - 48.

Definition lower_char (c : ascii) : ascii :=
  let n := nat_of_ascii c in
  if ((65 <=? n) && (n <=? 90))%nat then ascii_of_nat (n + 32) else c.

Definition upper_char (c : ascii) : ascii :=
  let n := nat_of_ascii c in
  if ((97 <=? n) && (n <=? 122))%nat then ascii_of_nat (n - 32) else c.

Fixpoint map_chars (f : ascii -> ascii) (s : string) : string :=
  match s with
  | EmptyString => EmptyString
  | String c rest => String (f c) (map_chars f rest)
  end.

(** [s.lower()] and [s.upper()] of ASCII text *)
Definition lower : string -> string := map_chars lower_char.
Definition upper : string -> string := map_chars upper_char.

(** the number a run of decimal digits spells (most significant first) *)
Fixpoint int_acc (acc : Z) (s : string) : Z :=
  match s with
  | EmptyString => acc
  | String c rest => int_acc (10 * acc + digit_value c) rest
  end.

Definition int_value (s : string) : Z := int_acc 0 s.

(** [sys.get_int_max_str_digits()]: CPython's default limit on the number of
    digits of a decimal string given to [int] (leading zeros count) *)
Definition int_max_str_digits : nat := 4300.

(** [int(s)] on a non-empty run of decimal digits: ValueError when the run
    has more digits than the limit *)
Definition int (s : string) : outcome Z :=
  if (int_max_str_digits <? String.length s)%nat
  then Raised ValueError
  else Returned (int_value s).

(** ASCII text: the characters on which [is_digit], [lower] and [upper] are
    Python's [\d], [str.lower] and [str.upper] *)
Definition is_ascii_char (c : ascii) : bool := (nat_of_ascii c <? 128)%nat.

Fixpoint is_ascii (s : string) : bool :=
  match s with
  | EmptyString => true
  | String c rest => is_ascii_char c && is_ascii rest
  end.

(** the longest prefix of decimal digits, and what follows it *)
Fixpoint span_digits (s : string) : string * string :=
  match s with
  | EmptyString => (EmptyString, EmptyString)
  | String c rest =>
      if is_digit c
      then let '(ds, tl) := span_digits rest in (String c ds, tl)
      else (EmptyString, s)
  end.

(** [str(n).zfill(width)] for [0 <= n], written most significant digit first *)
Fixpoint zfill (width : nat) (n : Z) : string :=
  match width with
  | O => EmptyString
  | S w => append (zfill w (n / 10)) (String (ascii_of_nat (Z.to_nat (48 + n mod 10))) EmptyString)
  end.

End Str.

(** ** Python runtime: naive [datetime] and [timedelta] *)

Module datetime.

(** microseconds since 0001-01-01T00:00:00 *)
Definition datetime : Type := Z.
(** microseconds *)
Definition timedelta : Type := Z.

Definition US_PER_SECOND : Z := 1000000.
Definition US_PER_DAY : Z := 86400 * US_PER_SECOND.

(** [date.max.toordinal()], the ordinal of 9999-12-31 *)
Definition MAXORDINAL : Z := 3652059.

(** first instant after [datetime.max] *)
Definition END_OF_TIME : Z := MAXORDINAL * US_PER_DAY.

Definition in_range (t : Z) : bool := (0 <=? t) && (t <? END_OF_TIME).

(** [timedelta(days=d, hours=h, minutes=m, seconds=s)]: the constructor
    normalises and rejects more than 999999999 days. *)
Definition make_timedelta (d h m s : Z) : outcome timedelta :=
  let us := (((d * 24 + h) * 60 + m) * 60 + s) * US_PER_SECOND in
  if Z.abs (us / US_PER_DAY) >? 999999999 then Raised OverflowError else Returned us.

Definition seconds (s : Z) : timedelta := s * US_PER_SECOND.

(** [t + delta]: "date value out of range" outside years 1..9999 *)
Definition add (t : datetime) (delta : timedelta) : outcome datetime :=
  let r := t + delta in
  if in_range r then Returned r else Raised OverflowError.

(** [t - delta] *)
Definition sub (t : datetime) (delta : timedelta) : outcome datetime :=
  add t (- delta).

(** [t.toordinal()]: 0001-01-01 is day 1 *)
Definition toordinal (t : datetime) : Z := t / US_PER_DAY + 1.

Definition DI400Y : Z := 146097.
Definition DI100Y : Z := 36524.
Definition DI4Y : Z := 1461.

Definition DAYS_IN_MONTH (month : Z) : Z :=
  nth (Z.to_nat month) [-1; 31; 28; 31; 30; 31; 30; 31; 31; 30; 31; 30; 31] 0.

Definition DAYS_BEFORE_MONTH (month : Z) : Z :=
  nth (Z.to_nat month) [-1; 0; 31; 59; 90; 120; 151; 181; 212; 243; 273; 304; 334] 0.

Definition b2z (b : bool) : Z := if b then 1 else 0.

(** [_ord2ymd(n)] of the standard library: ordinal to (year, month, day) *)
Definition ord2ymd (ordinal : Z) : Z * Z * Z :=
  let n := ordinal - 1 in
  let n400 := n / DI400Y in
  let n := n mod DI400Y in
  let year := n400 * 400 + 1 in
  let n100 := n / DI100Y in
  let n := n mod DI100Y in
  let n4 := n / DI4Y in
  let n := n mod DI4Y in
  let n1 := n / 365 in
  let n := n mod 365 in
  let year := year + n100 * 100 + n4 * 4 + n1 in
  if (n1 =? 4) || (n100 =? 4) then (year - 1, 12, 31)
  else
    let leapyear := (n1 =? 3) && (negb (n4 =? 24) || (n100 =? 3)) in
    let month := Z.shiftr (n + 50) 5 in
    let preceding := DAYS_BEFORE_MONTH month + b2z ((month >? 2) && leapyear) in
    if preceding >? n
    then
      let month := month - 1 in
      let preceding := preceding - (DAYS_IN_MONTH month + b2z ((month =? 2) && leapyear)) in
      (year, month, n - preceding + 1)
    else (year, month, n - preceding + 1).

Definition year (t : datetime) : Z := fst (fst (ord2ymd (toordinal t))).
Definition month (t : datetime) : Z := snd (fst (ord2ymd (toordinal t))).
Definition day (t : datetime) : Z := snd (ord2ymd (toordinal t)).

(** [t.isoweekday()]: [self.toordinal() % 7 or 7], Monday is 1 *)
Definition isoweekday (t : datetime) : Z :=
  let w := toordinal t mod 7 in if w =? 0 then 7 else w.

(** [t.strftime("%Y-%m-%d")] (four-digit years) *)
Definition strftime_Ymd (t : datetime) : string :=
  append (Str.zfill 4 (year t))
    (append "-" (append (Str.zfill 2 (month t)) (append "-" (Str.zfill 2 (day t))))).

(** [datetime(y, m, d, hh, mm, ss)] for a valid civil date, by the standard
    library's [_ymd2ord] *)
Definition is_leap (y : Z) : bool :=
  (y mod 4 =? 0) && (negb (y mod 100 =? 0) || (y mod 400 =? 0)).

Definition ymd2ord (y m d : Z) : Z :=
  let y1 := y - 1 in
  y1 * 365 + y1 / 4 - y1 / 100 + y1 / 400
  + (DAYS_BEFORE_MONTH m + b2z ((m >? 2) && is_leap y)) + d.

Definition make (y m d hh mm ss : Z) : datetime :=
  (ymd2ord y m d - 1) * US_PER_DAY + ((hh * 60 + mm) * 60 + ss) * US_PER_SECOND.

End datetime.

Import datetime(datetime, timedelta).


(** ** app/models.py *)

Inductive TaskStatusEnum : Type :=
| PENDING
| PENDING_CALCULATION
| RUNNING
| COMPLETED
| FAILED.

#[global] Instance TaskStatusEnum_eq_dec : EqDecision TaskStatusEnum.
Proof. solve_decision. Defined.

(** One row of [holiday_dates].  The columns the scheduling code never reads
    ([id], [type_des], [lunar_calendar], [raw_data]) are left out.
    [day_type] is nullable: 0 workday, 1 rest day, 2 legal holiday.
    [week_day] is 1 (Monday) .. 7 (Sunday) as the calendar provider gives it. *)
Record HolidayDateDB : Type := {
  date : string;
  year : Z;
  month : Z;
  day : Z;
  week_day : Z;
  day_type : option Z
}.

Definition is_workday (self : HolidayDateDB) : bool :=
  match day_type self with
  | None => false
  | Some t => t =? 0
  end.

Definition is_holiday (self : HolidayDateDB) : bool :=
  match day_type self with
  | None => false
  | Some t => (t =? 1) || (t =? 2)
  end.

Definition is_legal_holiday (self : HolidayDateDB) : bool :=
  match day_type self with
  | None => false
  | Some t => t =? 2
  end.

Definition is_weekend (self : HolidayDateDB) : bool :=
  match day_type self with
  | None => false
  | Some t => ((week_day self =? 6) || (week_day self =? 7)) && (t =? 1)
  end.

(** ** app/schemas.py *)

Module schemas.

Record WebhookChannelConfig : Type := {
  url : string;
  method : string
}.

Record EmailChannelConfig : Type := {
  subject : string;
  recipient_email : string
}.

Record CronConfig : Type := {
  cron_expression : string;
  start_time : option datetime;
  end_time : option datetime;
  limit_days : option (list string);
  is_lunar : bool;
  lunar_month : option Z;
  lunar_day : option Z
}.

Record CountdownConfig : Type := {
  countdown_duration : string
}.

Record OneTimeSpecificConfig : Type := {
  trigger_at : datetime
}.

(** [TaskInfoBase].  [TaskInfoCreate] adds nothing to it and [TaskInfo] adds
    [task_creation_time], which the scheduling code never reads, so both are
    this record. *)
Record TaskInfoBase : Type := {
  task_name : string;
  description : option string;
  triggering_user_id : option string;
  target_chat_id : option string;
  mention_user_nickname : option string;
  webhook_channel : option WebhookChannelConfig;
  email_channel : option EmailChannelConfig;
  reminder_content : string;
  is_dify_generated : bool;
  is_recurring : bool;
  cron_config : option CronConfig;
  countdown_config : option CountdownConfig;
  one_time_specific_config : option OneTimeSpecificConfig
}.

Definition TaskInfoCreate : Type := TaskInfoBase.
Definition TaskInfo : Type := TaskInfoBase.

End schemas.

Import schemas.

(** ** Third-party interfaces used by app/utils/date_calculator.py *)

(** croniter.  [croniter(expr, start)] raises [ValueError] on an expression it
    cannot parse ([croniter_accepts expr = false]); otherwise it is an
    iterator whose only state is its current instant, initially [start].
    [iter.get_next(datetime)] at current instant [cur] either raises
    ([None]) or returns the next scheduled instant, which also becomes the
    iterator's current instant. *)
Class Croniter : Type := {
  croniter_accepts : string -> bool;
  croniter_get_next : string -> datetime -> option datetime
}.

(** lunardate.  The result of [LunarDate.fromSolarDate(y, m, d)]: a lunar
    date, of which the code reads [month] and [day], or an exception, which
    the code distinguishes into [ValueError] and any other. *)
Inductive lunar_conversion : Type :=
| LunarDate (lunar_m lunar_d : Z)
| LunarValueError
| LunarOtherError.

Class LunarCalendar : Type := {
  fromSolarDate : Z -> Z -> Z -> lunar_conversion
}.

(** ** app/utils/date_calculator.py *)

(** One optional group [((?P<name>\d+)unit)?] of the duration pattern at the
    head of [s]: the digits captured and the rest of the input, or no capture
    and [s] itself.  A run of digits can only be followed by its unit, so the
    longest run is the only candidate. *)
Definition match_unit (unit : ascii) (s : string) : option string * string :=
  let '(ds, rest) := Str.span_digits s in
  match ds, rest with
  | String _ _, String c tl =>
      if Ascii.eqb c unit then (Some ds, tl) else (None, s)
  | _, _ => (None, s)
  end.

(** [re.match(r'^((?P<days>\d+)d)?((?P<hours>\d+)h)?((?P<minutes>\d+)m)?((?P<seconds>\d+)s)?$', s)]:
    the four captures, or [None] when the pattern does not match.  Without
    [re.MULTILINE], [$] also matches just before a final newline. *)
Definition match_duration (s : string)
  : option (option string * option string * option string * option string) :=
  let '(days, s1) := match_unit "d" s in
  let '(hours, s2) := match_unit "h" s1 in
  let '(minutes, s3) := match_unit "m" s2 in
  let '(secs, s4) := match_unit "s" s3 in
  if String.eqb s4 "" || String.eqb s4 (String (ascii_of_nat 10) EmptyString)
  then Some (days, hours, minutes, secs)
  else None.

(** the number a capture spells; a group that took no part counts as 0, the
    default of [timedelta]'s arguments *)
Definition group_int (g : option string) : Z :=
  match g with
  | Some ds => Str.int_value ds
  | None => 0
  end.

(** one entry of [{name: int(param) for name, param in parts.items() if param}]:
    the number captured, or no entry for a group that took no part *)
Definition time_param (param : option string) : outcome (option Z) :=
  match param with
  | Some (String _ _ as digits) => n ← Str.int digits; Returned (Some n)
  | _ => Returned None
  end.

Definition parse_countdown_duration (duration_str : string) : outcome timedelta :=
  match match_duration (Str.lower duration_str) with
  | None => Raised ValueError
  | Some (days, hours, minutes, secs) =>
      days ← time_param days;
      hours ← time_param hours;
      minutes ← time_param minutes;
      seconds ← time_param secs;
      match days, hours, minutes, seconds with
      | None, None, None, None => Raised ValueError
      | _, _, _, _ =>
          datetime.make_timedelta (default 0 days) (default 0 hours)
                                  (default 0 minutes) (default 0 seconds)
      end
  end.

(** What one pass through the body of the [for attempt in range(max_attempts)]
    loop does once a candidate is drawn: [continue], or [return]. *)
Inductive iteration : Type :=
| Continue
| Return (result : option datetime * TaskStatusEnum).

Definition is_continue (i : iteration) : bool :=
  match i with
  | Continue => true
  | Return _ => false
  end.

(** [366 * 2], the default of [max_attempts] *)
Definition max_attempts_default : nat := 366 * 2.

Section DateCalculator.

Context {cron : Croniter} {lunar : LunarCalendar}.

(** The first [day_obj] of [year_data_local] with
    [day_obj.date == target_date_str_local]. *)
Definition find_day (year_data_local : list HolidayDateDB) (target_date_str_local : string)
  : option HolidayDateDB :=
  List.find (fun day_obj => String.eqb (date day_obj) target_date_str_local) year_data_local.

(** Python truthiness of [cron_config.limit_days] *)
Definition has_limit_days (cron_config : CronConfig) : bool :=
  match limit_days cron_config with
  | None | Some [] => false
  | Some (_ :: _) => true
  end.

Definition limit_days_list (cron_config : CronConfig) : list string :=
  match limit_days cron_config with
  | None => []
  | Some l => l
  end.

(** One turn of [for limit_type_str in cron_config.limit_days]: does this
    entry set [day_matched_limit]? *)
Definition limit_matches (current_day_holiday_info : HolidayDateDB)
    (next_run_local : datetime) (limit_type_str : string) : bool :=
  let limit_type := Str.upper limit_type_str in
  (String.eqb limit_type "WORKDAY" && is_workday current_day_holiday_info)
  || (String.eqb limit_type "HOLIDAY" && is_holiday current_day_holiday_info)
  || (String.eqb limit_type "WEEKEND" && is_weekend current_day_holiday_info)
  || (String.eqb limit_type "WEEKDAY_ONLY"
      && (1 <=? datetime.isoweekday next_run_local)
      && (datetime.isoweekday next_run_local <=? 5)).

(** the loop with [break] that computes [day_matched_limit] *)
Definition day_matched_limit (cron_config : CronConfig)
    (current_day_holiday_info : HolidayDateDB) (next_run_local : datetime) : bool :=
  existsb (limit_matches current_day_holiday_info next_run_local)
          (limit_days_list cron_config).

(** Lines 93-105: fetch the candidate's calendar record when [limit_days]
    asks for it.  [inl] is the early return, [inr] the value of
    [current_day_holiday_info] the rest of the body sees. *)
Definition calendar_stage (cron_config : CronConfig)
    (holiday_dates_getter : Z -> list HolidayDateDB) (next_run_local : datetime)
  : (option datetime * TaskStatusEnum) + option HolidayDateDB :=
  if has_limit_days cron_config then
    match holiday_dates_getter (datetime.year next_run_local) with
    | [] => inl (Some next_run_local, PENDING_CALCULATION)
    | year_data_local =>
        match find_day year_data_local (datetime.strftime_Ymd next_run_local) with
        | None => inl (Some next_run_local, PENDING_CALCULATION)
        | Some day_obj => inr (Some day_obj)
        end
    end
  else inr None.

(** Lines 108-135: the lunar check.  [None] lets the candidate through. *)
Definition lunar_stage (cron_config : CronConfig) (next_run_local : datetime)
  : option iteration :=
  if is_lunar cron_config then
    match lunar_month cron_config, lunar_day cron_config with
    | Some target_lunar_month, Some target_lunar_day =>
        match fromSolarDate (datetime.year next_run_local)
                            (datetime.month next_run_local)
                            (datetime.day next_run_local) with
        | LunarDate m d =>
            if negb ((m =? target_lunar_month) && (d =? target_lunar_day))
            then Some Continue
            else None
        | LunarValueError => Some (Return (None, FAILED))
        | LunarOtherError => Some Continue
        end
    | _, _ => Some (Return (None, FAILED))
    end
  else None.

(** Lines 137-153: the day-type filter and the final [return]. *)
Definition limit_stage (cron_config : CronConfig)
    (current_day_holiday_info : option HolidayDateDB) (next_run_local : datetime)
  : iteration :=
  if has_limit_days cron_config then
    match current_day_holiday_info with
    | None => Return (Some next_run_local, PENDING_CALCULATION)
    | Some info =>
        if negb (day_matched_limit cron_config info next_run_local)
        then Continue
        else Return (Some next_run_local, PENDING)
    end
  else Return (Some next_run_local, PENDING).

(** The loop body from line 83 on, for the candidate [next_run_local]. *)
Definition examine (cron_config : CronConfig)
    (holiday_dates_getter : Z -> list HolidayDateDB) (next_run_local : datetime)
  : iteration :=
  if match end_time cron_config with
     | Some end_dt_local => next_run_local >? end_dt_local
     | None => false
     end
  then Return (None, COMPLETED)
  else if match start_time cron_config with
          | Some start_dt_local => next_run_local <? start_dt_local
          | None => false
          end
  then Continue
  else
    match calendar_stage cron_config holiday_dates_getter next_run_local with
    | inl result => Return result
    | inr current_day_holiday_info =>
        match lunar_stage cron_config next_run_local with
        | Some outcome_of_lunar => outcome_of_lunar
        | None => limit_stage cron_config current_day_holiday_info next_run_local
        end
    end.

(** The [for] loop, [attempts_left] turns from the iterator position [cur].
    Besides the value returned it lists the candidates drawn from the
    iterator, in order, so that the length of the search can be stated. *)
Fixpoint search (cron_config : CronConfig)
    (holiday_dates_getter : Z -> list HolidayDateDB)
    (attempts_left : nat) (cur : datetime)
  : (option datetime * TaskStatusEnum) * list datetime :=
  match attempts_left with
  | O => ((None, FAILED), [])
  | S attempts_left' =>
      match croniter_get_next (cron_expression cron_config) cur with
      | None => ((None, FAILED), [])
      | Some next_run_local =>
          match examine cron_config holiday_dates_getter next_run_local with
          | Return result => (result, [next_run_local])
          | Continue =>
              let '(result, drawn) :=
                search cron_config holiday_dates_getter attempts_left' next_run_local in
              (result, next_run_local :: drawn)
          end
      end
  end.

(** Lines 62-64: the base instant after the [start_time] clamp. *)
Definition clamp_base (cron_config : CronConfig) (base_local_time : datetime)
  : outcome datetime :=
  match start_time cron_config with
  | Some start_dt_local =>
      if base_local_time <? start_dt_local
      then datetime.sub start_dt_local (datetime.seconds 1)
      else Returned base_local_time
  | None => Returned base_local_time
  end.

Definition get_next_cron_run_time (cron_config : CronConfig)
    (base_local_time : datetime)
    (holiday_dates_getter : Z -> list HolidayDateDB)
    (max_attempts : nat)
  : outcome (option datetime * TaskStatusEnum) :=
  base_local_time ← clamp_base cron_config base_local_time;
  if croniter_accepts (cron_expression cron_config)
  then Returned (fst (search cron_config holiday_dates_getter max_attempts base_local_time))
  else Returned (None, FAILED).

(** The candidates one call draws from croniter, in order. *)
Definition candidates_drawn (cron_config : CronConfig)
    (base_local_time : datetime)
    (holiday_dates_getter : Z -> list HolidayDateDB)
    (max_attempts : nat) : list datetime :=
  match clamp_base cron_config base_local_time with
  | Returned base =>
      if croniter_accepts (cron_expression cron_config)
      then snd (search cron_config holiday_dates_getter max_attempts base)
      else []
  | Raised _ => []
  end.

(** [current_local_time] is the reading of [datetime.datetime.now()] the
    function starts with. *)
Definition calculate_initial_trigger_time (task_info : TaskInfoCreate)
    (holiday_dates_getter : Z -> list HolidayDateDB)
    (current_local_time : datetime)
  : outcome (option datetime * TaskStatusEnum) :=
  if is_recurring task_info then
    match cron_config task_info with
    | None => Raised ValueError
    | Some cfg =>
        get_next_cron_run_time cfg current_local_time holiday_dates_getter
                               max_attempts_default
    end
  else
    match one_time_specific_config task_info with
    | Some one_time =>
        let trigger_at_local := trigger_at one_time in
        if trigger_at_local <=? current_local_time
        then
          t ← datetime.add current_local_time (datetime.seconds 1);
          Returned (Some t, PENDING)
        else Returned (Some trigger_at_local, PENDING)
    | None =>
        match countdown_config task_info with
        | Some countdown =>
            try_except_ValueError
              (delta ← parse_countdown_duration (countdown_duration countdown);
               t ← datetime.add current_local_time delta;
               Returned (Some t, PENDING))
              (Returned (None, FAILED))
        | None => Raised ValueError
        end
    end.

End DateCalculator.

(** ** app/models.py: a row of [reminder_tasks] *)

Module tasks.

(** [task_info] is the JSON column as pydantic sees it:
    [schemas.TaskInfo( **task.task_info)] returns [info] when the column is
    [Some info] and raises when it is [None]. *)
Record ReminderTaskDB : Type := {
  id : string;
  task_info : option schemas.TaskInfo;
  task_name : string;
  status : TaskStatusEnum;
  next_trigger_time : option datetime;
  is_recurring : bool
}.

Definition set_status (s : TaskStatusEnum) (task : ReminderTaskDB) : ReminderTaskDB :=
  {| id := id task; task_info := task_info task; task_name := task_name task;
     status := s; next_trigger_time := next_trigger_time task;
     is_recurring := is_recurring task |}.

Definition set_next_trigger_time (t : option datetime) (task : ReminderTaskDB)
  : ReminderTaskDB :=
  {| id := id task; task_info := task_info task; task_name := task_name task;
     status := status task; next_trigger_time := t;
     is_recurring := is_recurring task |}.

End tasks.

(** ** app/services/task_scheduler.py *)

(** A job of the APScheduler instance: a [DateTrigger] at [run_date] that
    calls [task_executor.execute_task_by_id] on [job_task_id]. *)
Record Job : Type := {
  run_date : datetime;
  job_task_id : string;
  job_name : string;
  misfire_grace_time : Z
}.

(** The live timers: APScheduler's job store, keyed by job id.
    [add_job(..., id=job_id, replace_existing=True)] stores the job under
    [job_id], over a job already there. *)
Abbreviation scheduler_jobs := (gmap string Job).

Definition add_or_update_job_in_scheduler (task : tasks.ReminderTaskDB)
    (jobs : scheduler_jobs) : scheduler_jobs :=
  match tasks.next_trigger_time task with
  | None => jobs
  | Some trigger_local_time =>
      let job_id := tasks.id task in
      <[ job_id := {| run_date := trigger_local_time;
                      job_task_id := job_id;
                      job_name := tasks.task_name task;
                      misfire_grace_time := if tasks.is_recurring task then 3600 else 600 |} ]>
        jobs
  end.

(** [if self._scheduler.get_job(job_id): self._scheduler.remove_job(job_id)] *)
Definition remove_job_from_scheduler (task_id : string) (jobs : scheduler_jobs)
  : scheduler_jobs :=
  match jobs !! task_id with
  | Some _ => delete task_id jobs
  | None => jobs
  end.

(** The job [add_or_update_job_in_scheduler] stores for [task] at
    [trigger_local_time]. *)
Definition job_of (task : tasks.ReminderTaskDB) (trigger_local_time : datetime) : Job :=
  {| run_date := trigger_local_time;
     job_task_id := tasks.id task;
     job_name := tasks.task_name task;
     misfire_grace_time := if tasks.is_recurring task then 3600 else 600 |}.

(** The live timers of one task: the jobs stored under its identifier. *)
Definition timers_of (task_id : string) (timers : scheduler_jobs) : list Job :=
  (filter (fun kv => kv.1 = task_id) (map_to_list timers)).*2.

(** ** app/services/task_executor.py *)

(** The text handed to a sender.  The wording of the f-strings is kept
    symbolic; what varies is recorded. *)
Inductive reminder_text : Type :=
| Text (s : string)
| DifyGenerationFailed (generated prompt : string)
| DifyNotConfigured (prompt : string)
| FromGroupByNickname (chat nickname : string) (body : reminder_text)
| FromGroupByUser (chat user : string) (body : reminder_text).

(** The arguments of one [send_webhook_notification] call *)
Record WebhookCall : Type := {
  wh_config : schemas.WebhookChannelConfig;
  wh_base_content : reminder_text;
  wh_final_recipient_id : string;
  wh_triggering_user_id : option string;
  wh_mention_nickname_if_group : option string;
  wh_at_target_user_id_if_group : option string;
  wh_task_name : string;
  wh_task_description : option string
}.

Inductive notification : Type :=
| ViaWebhook (call : WebhookCall)
| ViaEmail (config : schemas.EmailChannelConfig) (content : reminder_text).

(** What lies outside the process when a timer fires: configuration, the Dify
    service, the two senders (both catch their own errors and answer with a
    boolean), and the clock read before the next occurrence is computed. *)
Record Collaborators : Type := {
  dify_configured : bool;
  mail_configured : bool;
  generate_content_with_dify : string -> string -> string;
  send_webhook_notification : WebhookCall -> bool;
  send_email_notification : schemas.EmailChannelConfig -> reminder_text -> bool;
  now_for_next_calc : datetime
}.

(** The state a firing acts on: the committed rows, the calendar table as
    [crud.get_holiday_dates_for_year] reads it, the job store; and, to state
    what a firing did, the log of commits of the task (status and next
    trigger written) and the notifications handed to a sender. *)
Record World : Type := {
  rows : gmap string tasks.ReminderTaskDB;
  holiday_dates_for_year : Z -> list HolidayDateDB;
  jobs : scheduler_jobs;
  commits : list (string * TaskStatusEnum * option datetime);
  outbox : list notification
}.

Definition with_jobs (f : scheduler_jobs -> scheduler_jobs) (w : World) : World :=
  {| rows := rows w; holiday_dates_for_year := holiday_dates_for_year w;
     jobs := f (jobs w); commits := commits w; outbox := outbox w |}.

(** [db.commit()] with the attributes of [task] pending *)
Definition commit (task : tasks.ReminderTaskDB) (w : World) : World :=
  {| rows := <[ tasks.id task := task ]> (rows w);
     holiday_dates_for_year := holiday_dates_for_year w;
     jobs := jobs w;
     commits := commits w ++ [(tasks.id task, tasks.status task, tasks.next_trigger_time task)];
     outbox := outbox w |}.

Definition post (handed : list notification) (w : World) : World :=
  {| rows := rows w; holiday_dates_for_year := holiday_dates_for_year w;
     jobs := jobs w; commits := commits w; outbox := outbox w ++ handed |}.

(** Python truthiness of an [Optional[str]] *)
Definition truthy (s : option string) : bool :=
  match s with
  | None | Some EmptyString => false
  | Some (String _ _) => true
  end.

(** [needle in haystack] *)
Definition contains (needle haystack : string) : bool :=
  match String.index 0 needle haystack with
  | Some _ => true
  | None => false
  end.

Definition fireable (s : TaskStatusEnum) : bool :=
  match s with
  | PENDING | RUNNING => true
  | _ => false
  end.

Section TaskExecutor.

Context {cron : Croniter} {lunar : LunarCalendar}.
Variable ext : Collaborators.

(** Lines 37-52 *)
Definition base_reminder_content (task_id : string) (info : schemas.TaskInfo)
  : reminder_text :=
  if is_dify_generated info then
    if dify_configured ext then
      let dify_user_id_for_generation :=
        match triggering_user_id info with
        | Some (String c u) => String c u
        | _ => append "task_executor_" task_id
        end in
      let generated_content :=
        generate_content_with_dify ext (reminder_content info) dify_user_id_for_generation in
      if negb (String.eqb generated_content "") && negb (String.prefix "Dify" generated_content)
      then Text generated_content
      else DifyGenerationFailed generated_content (reminder_content info)
    else DifyNotConfigured (reminder_content info)
  else Text (reminder_content info).

(** The [except Exception] handler of lines 149-155, entered with the task
    object as it is when the exception is raised. *)
Definition on_exception (task_id : string) (task : tasks.ReminderTaskDB) (w : World)
  : World :=
  with_jobs (remove_job_from_scheduler task_id)
            (commit (tasks.set_status FAILED task) w).

(** Lines 115-145, entered with the outcome of the send. *)
Definition after_send (task_id : string) (task : tasks.ReminderTaskDB)
    (info : schemas.TaskInfo) (notification_sent_successfully : bool) (w : World)
  : World :=
  let task := tasks.set_status (if notification_sent_successfully then COMPLETED else FAILED) task in
  let w := commit task w in
  match tasks.is_recurring task, cron_config info with
  | true, Some cfg =>
      match get_next_cron_run_time cfg (now_for_next_calc ext)
              (holiday_dates_for_year w) max_attempts_default with
      | Raised _ => on_exception task_id task w
      | Returned (next_trigger_local, next_status) =>
          let task := tasks.set_status next_status
                        (tasks.set_next_trigger_time next_trigger_local task) in
          let w := commit task w in
          match tasks.status task, tasks.next_trigger_time task with
          | PENDING, Some _ => with_jobs (add_or_update_job_in_scheduler task) w
          | PENDING_CALCULATION, Some _ =>
              with_jobs (remove_job_from_scheduler (tasks.id task)) w
          | _, _ => with_jobs (remove_job_from_scheduler task_id) w
          end
      end
  | _, _ =>
      let task := tasks.set_next_trigger_time None task in
      let w := commit task w in
      with_jobs (remove_job_from_scheduler task_id) w
  end.

(** Lines 109-113 and 67-70: give up on this firing without a send. *)
Definition fail_without_send (task_id : string) (task : tasks.ReminderTaskDB) (w : World)
  : World :=
  let task := tasks.set_status FAILED task in
  let w := commit task w in
  if negb (tasks.is_recurring task)
  then with_jobs (remove_job_from_scheduler task_id) w
  else w.

(** Lines 54-113: choose the recipient and the channel, and send.  [None]
    when no send is attempted for want of a recipient or of a channel;
    otherwise the value of [notification_sent_successfully] and what was
    handed to a sender. *)
Definition send_notification (task_id : string) (info : schemas.TaskInfo)
  : option (bool * list notification) :=
  let content := base_reminder_content task_id info in
  let task_triggering_user_id := triggering_user_id info in
  let task_target_chat_id := target_chat_id info in
  let task_mention_nickname := mention_user_nickname info in
  let final_recipient_id :=
    if truthy task_target_chat_id then task_target_chat_id else task_triggering_user_id in
  match final_recipient_id with
  | Some (String c r) =>
      let final_recipient_id := String c r in
      let is_group_message_context :=
        match task_target_chat_id with
        | Some chat => truthy task_target_chat_id && contains "@chatroom" chat
        | None => false
        end in
      let at_user_id_for_payload :=
        if is_group_message_context then task_triggering_user_id else None in
      match webhook_channel info, email_channel info with
      | Some webhook, _ =>
          let call :=
            {| wh_config := webhook;
               wh_base_content := content;
               wh_final_recipient_id := final_recipient_id;
               wh_triggering_user_id := task_triggering_user_id;
               wh_mention_nickname_if_group :=
                 if is_group_message_context then task_mention_nickname else None;
               wh_at_target_user_id_if_group :=
                 if is_group_message_context then at_user_id_for_payload else None;
               wh_task_name := schemas.task_name info;
               wh_task_description := description info |} in
          Some (send_webhook_notification ext call, [ViaWebhook call])
      | None, Some email =>
          if mail_configured ext then
            let email_content_to_send :=
              match task_target_chat_id, task_mention_nickname, task_triggering_user_id with
              | Some chat, Some (String c n), _ =>
                  if is_group_message_context
                  then FromGroupByNickname chat (String c n) content
                  else content
              | Some chat, _, Some (String c u) =>
                  if is_group_message_context
                  then FromGroupByUser chat (String c u) content
                  else content
              | _, _, _ => content
              end in
            Some (send_email_notification ext email email_content_to_send,
                  [ViaEmail email email_content_to_send])
          else Some (false, [])
      | None, None => None
      end
  | _ => None
  end.

(** From line 34 to the end of the [try] block. *)
Definition notify_and_reschedule (task_id : string) (task : tasks.ReminderTaskDB)
    (info : schemas.TaskInfo) (w : World) : World :=
  match send_notification task_id info with
  | None => fail_without_send task_id task w
  | Some (notification_sent_successfully, handed) =>
      after_send task_id task info notification_sent_successfully (post handed w)
  end.

Definition execute_task_by_id (task_id : string) (w : World) : World :=
  match rows w !! task_id with
  | None => with_jobs (remove_job_from_scheduler task_id) w
  | Some task =>
      if negb (fireable (tasks.status task)) then
        match tasks.next_trigger_time task with
        | None => with_jobs (remove_job_from_scheduler task_id) w
        | Some _ => w
        end
      else
        let task := tasks.set_status RUNNING task in
        let w := commit task w in
        match tasks.task_info task with
        | None => on_exception task_id task w
        | Some task_info_model => notify_and_reschedule task_id task task_info_model w
        end
  end.

End TaskExecutor.

(** ** app/schemas.py: validators *)

(** pydantic's [ValidationError] is a [ValueError]. *)

Definition allowed_limit_days : list string :=
  ["WORKDAY"; "HOLIDAY"; "WEEKEND"; "WEEKDAY_ONLY"]%string.

(** [CronConfig.check_limit_days] *)
Definition check_limit_days (v : option (list string)) : outcome (option (list string)) :=
  match v with
  | None => Returned None
  | Some items =>
      if forallb (fun item => existsb (String.eqb (Str.upper item)) allowed_limit_days) items
      then Returned (Some (List.map Str.upper items))
      else Raised ValueError
  end.

(** [CronConfig.check_lunar_fields_consistency] *)
Definition check_lunar_fields_consistency (self : CronConfig) : outcome CronConfig :=
  if is_lunar self then
    match lunar_month self, lunar_day self with
    | Some _, Some _ => Returned self
    | _, _ => Raised ValueError
    end
  else
    match lunar_month self, lunar_day self with
    | None, None => Returned self
    | _, _ => Raised ValueError
    end.

(** [CountdownConfig.check_countdown_duration_format] *)
Definition check_countdown_duration_format (v : string) : outcome string :=
  match match_duration (Str.lower v) with
  | None => Raised ValueError
  | Some _ => if String.eqb v "" then Raised ValueError else Returned v
  end.

(** [TaskInfoBase.check_notification_channel_config] *)
Definition check_notification_channel_config (self : schemas.TaskInfoBase)
  : outcome schemas.TaskInfoBase :=
  match webhook_channel self, email_channel self with
  | Some _, None | None, Some _ => Returned self
  | _, _ => Raised ValueError
  end.

(** [TaskInfoBase.check_task_type_and_schedule_config] *)
Definition check_task_type_and_schedule_config (self : schemas.TaskInfoBase)
  : outcome schemas.TaskInfoBase :=
  if schemas.is_recurring self then
    match cron_config self with
    | None => Raised ValueError
    | Some _ =>
        match countdown_config self, one_time_specific_config self with
        | None, None => Returned self
        | _, _ => Raised ValueError
        end
    end
  else
    match cron_config self with
    | Some _ => Raised ValueError
    | None =>
        match countdown_config self, one_time_specific_config self with
        | Some _, None | None, Some _ => Returned self
        | _, _ => Raised ValueError
        end
    end.

(** ** app/services/task_scheduler.py: the daily maintenance job *)

Definition with_calendar (calendar : Z -> list HolidayDateDB) (w : World) : World :=
  {| rows := rows w; holiday_dates_for_year := calendar;
     jobs := jobs w; commits := commits w; outbox := outbox w |}.

(** [crud.get_tasks_for_recalculation]: the rows with status
    PENDING_CALCULATION, in the order the table yields them. *)
Definition get_tasks_for_recalculation (w : World) : list tasks.ReminderTaskDB :=
  filter (fun task => tasks.status task = PENDING_CALCULATION) (map_to_list (rows w)).*2.

Section DailyMaintenance.

Context {cron : Croniter} {lunar : LunarCalendar}.

(** the reading of [datetime.datetime.now()] while the task with the given
    identifier is recalculated *)
Variable now_for : string -> datetime.

(** The [except Exception as e_recalc] handler of lines 138-141. *)
Definition recalc_failed (task_db : tasks.ReminderTaskDB) (w : World) : World :=
  with_jobs (remove_job_from_scheduler (tasks.id task_db))
            (commit (tasks.set_status FAILED task_db) w).

(** Lines 104-141: one turn of the loop over the tasks to recalculate. *)
Definition recalculate_task (task_db : tasks.ReminderTaskDB) (w : World) : World :=
  match tasks.task_info task_db with
  | None => recalc_failed task_db w
  | Some task_info_model =>
      match schemas.is_recurring task_info_model, cron_config task_info_model with
      | true, Some cfg =>
          let base_for_recalc_local :=
            match tasks.next_trigger_time task_db with
            | Some t => t
            | None => now_for (tasks.id task_db)
            end in
          match datetime.sub base_for_recalc_local (datetime.seconds 60) with
          | Raised _ => recalc_failed task_db w
          | Returned base =>
              match get_next_cron_run_time cfg base (holiday_dates_for_year w)
                      max_attempts_default with
              | Raised _ => recalc_failed task_db w
              | Returned (Some next_trigger_local, PENDING) =>
                  let task_db :=
                    tasks.set_status PENDING
                      (tasks.set_next_trigger_time (Some next_trigger_local) task_db) in
                  with_jobs (add_or_update_job_in_scheduler task_db) (commit task_db w)
              | Returned (Some next_trigger_local, PENDING_CALCULATION) =>
                  commit (tasks.set_next_trigger_time (Some next_trigger_local) task_db) w
              | Returned (_, next_status) =>
                  let task_db :=
                    tasks.set_next_trigger_time None (tasks.set_status next_status task_db) in
                  with_jobs (remove_job_from_scheduler (tasks.id task_db)) (commit task_db w)
              end
          end
      | _, _ =>
          let task_db :=
            tasks.set_next_trigger_time None (tasks.set_status FAILED task_db) in
          with_jobs (remove_job_from_scheduler (tasks.id task_db)) (commit task_db w)
      end
  end.

(** [daily_maintenance_job], with the calendar table as
    [holiday_service.ensure_calendar_data_exists] leaves it. *)
Definition daily_maintenance_job (calendar_after_refresh : Z -> list HolidayDateDB)
    (w : World) : World :=
  let w := with_calendar calendar_after_refresh w in
  fold_left (fun w task_db => recalculate_task task_db w)
            (get_tasks_for_recalculation w) w.

End DailyMaintenance.

(** ** app/main.py: creating and deleting a task *)

(** How a request handler ends: its response, an [HTTPException] with its
    status code, or an exception it does not catch. *)
Inductive response (A : Type) : Type :=
| Responded (a : A)
| HTTPException (status_code : Z)
| Uncaught (e : exn).

Arguments Responded {A} a.
Arguments HTTPException {A} status_code.
Arguments Uncaught {A} e.

(** [crud.create_task]; [new_id] is the [uuid4] drawn for the row. *)
Definition create_task (new_id : string) (task_data : schemas.TaskInfoCreate)
    (initial_next_trigger_time : option datetime) (initial_status : TaskStatusEnum)
    (w : World) : tasks.ReminderTaskDB * World :=
  let db_task :=
    {| tasks.id := new_id;
       tasks.task_info := Some task_data;
       tasks.task_name := schemas.task_name task_data;
       tasks.status := initial_status;
       tasks.next_trigger_time := initial_next_trigger_time;
       tasks.is_recurring := schemas.is_recurring task_data |} in
  (db_task, commit db_task w).

Section Handlers.

Context {cron : Croniter} {lunar : LunarCalendar}.

(** [create_new_task_structured]; [now] is the clock's reading in
    [calculate_initial_trigger_time]. *)
Definition create_new_task_structured (new_id : string)
    (task_info_create : schemas.TaskInfoCreate) (now : datetime) (w : World)
  : response (tasks.ReminderTaskDB * World) :=
  match calculate_initial_trigger_time task_info_create (holiday_dates_for_year w) now with
  | Raised ValueError => HTTPException 400
  | Raised e => Uncaught e
  | Returned (None, FAILED) => HTTPException 400
  | Returned (initial_trigger_local_time, initial_status) =>
      let '(db_task, w) :=
        create_task new_id task_info_create initial_trigger_local_time initial_status w in
      match tasks.status db_task, tasks.next_trigger_time db_task with
      | PENDING, Some _ =>
          Responded (db_task, with_jobs (add_or_update_job_in_scheduler db_task) w)
      | _, _ => Responded (db_task, w)
      end
  end.

(** [crud.delete_task] after [crud.get_task] found the row *)
Definition delete_task (task_id : string) (w : World) : World :=
  {| rows := delete task_id (rows w);
     holiday_dates_for_year := holiday_dates_for_year w;
     jobs := jobs w; commits := commits w; outbox := outbox w |}.

(** [delete_existing_task] *)
Definition delete_existing_task (task_id : string) (w : World) : response World :=
  match rows w !! task_id with
  | None => HTTPException 404
  | Some _ =>
      Responded (with_jobs (remove_job_from_scheduler task_id) (delete_task task_id w))
  end.

End Handlers.

(** ** Properties stated in the specification's own terms *)

(** What every returned pair must satisfy: a trigger instant is present
    exactly with [PENDING] and [PENDING_CALCULATION], and absent with
    [FAILED] and [COMPLETED].  A call that raises returns nothing. *)
Definition trigger_matches_status (r : outcome (option datetime * TaskStatusEnum)) : Prop :=
  match r with
  | Returned (trigger, st) =>
      (is_Some trigger <-> (st = PENDING \/ st = PENDING_CALCULATION))
      /\ ((st = FAILED \/ st = COMPLETED) -> trigger = None)
  | Raised _ => True
  end.

(** A one-shot task with a countdown of [duration_str] *)
Definition countdown_task (task_info : TaskInfoCreate) (duration_str : string) : Prop :=
  is_recurring task_info = false
  /\ one_time_specific_config task_info = None
  /\ countdown_config task_info = Some {| countdown_duration := duration_str |}.

(** The candidate lies in the rule's validity window: the loop neither stops
    on [end_time] nor skips on [start_time]. *)
Definition in_validity_window (cron_config : CronConfig) (candidate : datetime) : bool :=
  match end_time cron_config with
  | Some end_dt_local => negb (candidate >? end_dt_local)
  | None => true
  end
  && match start_time cron_config with
     | Some start_dt_local => negb (candidate <? start_dt_local)
     | None => true
     end.

(** The day-type filters as the specification words them, for the calendar
    record [info] of the candidate's date. *)
Definition satisfies_filter (filter : string) (info : HolidayDateDB) (candidate : datetime)
  : Prop :=
  (filter = "WORKDAY"%string /\ day_type info = Some 0)
  \/ (filter = "HOLIDAY"%string /\ (day_type info = Some 1 \/ day_type info = Some 2))
  \/ (filter = "WEEKEND"%string /\ day_type info = Some 1
      /\ (week_day info = 6 \/ week_day info = 7))
  \/ (filter = "WEEKDAY_ONLY"%string /\ 1 <= datetime.isoweekday candidate <= 5).

(** A rule with only a cron expression: no lunar matching, no day-type
    filter, no validity window. *)
Definition plain_cron_rule (cron_config : CronConfig) : Prop :=
  is_lunar cron_config = false
  /\ (limit_days cron_config = None \/ limit_days cron_config = Some [])
  /\ start_time cron_config = None
  /\ end_time cron_config = None.

(** What the code relies on from croniter, for [fits expr t] read as "the
    fields of [t] satisfy [expr]": [get_next] answers with the first instant
    after the iterator's position that fits. *)
Record croniter_contract (cron : Croniter) (fits : string -> datetime -> Prop) : Prop := {
  next_is_later : forall expr cur t,
      croniter_get_next expr cur = Some t -> cur < t;
  next_fits : forall expr cur t,
      croniter_get_next expr cur = Some t -> fits expr t;
  next_is_first : forall expr cur t u,
      croniter_get_next expr cur = Some t -> cur < u -> fits expr u -> t <= u
}.

(** [t] is the earliest instant at or after [base] that fits: the reading of
    "earliest such instant >= baseInstant". *)
Definition earliest_from (fits : datetime -> Prop) (base t : datetime) : Prop :=
  base <= t /\ fits t /\ forall u, base <= u -> fits u -> t <= u.

(** [t] is the earliest instant strictly after [base] that fits. *)
Definition earliest_after (fits : datetime -> Prop) (base t : datetime) : Prop :=
  base < t /\ fits t /\ forall u, base < u -> fits u -> t <= u.

(** ** Concrete collaborators and tasks, for running the definitions *)

Module Samples.

(** croniter on ["0 12 * * *"]: every day at 12:00:00. *)
Definition NOON : Z := 12 * 3600 * datetime.US_PER_SECOND.

Definition at_noon (t : datetime) : bool := t mod datetime.US_PER_DAY =? NOON.

Definition next_noon (cur : datetime) : datetime :=
  ((cur - NOON) / datetime.US_PER_DAY + 1) * datetime.US_PER_DAY + NOON.

Definition daily_noon : Croniter := {|
  croniter_accepts expr := String.eqb expr "0 12 * * *";
  croniter_get_next _ cur :=
    if datetime.in_range (next_noon cur) then Some (next_noon cur) else None
|}.

(** lunardate on the days around the lunar new year of 2025
    (2025-01-29 is the first day of the first lunar month); the library
    raises [ValueError] outside the years it tabulates. *)
Definition lunar_new_year_2025 : LunarCalendar := {|
  fromSolarDate y m d :=
    if (y =? 2025) && (m =? 1) && (d =? 28) then LunarDate 12 29
    else if (y =? 2025) && (m =? 1) && (d =? 29) then LunarDate 1 1
    else if (y =? 2025) && (m =? 1) && (d =? 30) then LunarDate 1 2
    else LunarValueError
|}.

(** a calendar table with no year ingested *)
Definition no_calendar : Z -> list HolidayDateDB := fun _ => [].

(** the calendar record of the day with the given ordinal *)
Definition calendar_day (classify : datetime -> option Z) (ordinal : Z) : HolidayDateDB :=
  let t := (ordinal - 1) * datetime.US_PER_DAY in
  {| date := datetime.strftime_Ymd t;
     year := datetime.year t;
     month := datetime.month t;
     day := datetime.day t;
     week_day := datetime.isoweekday t;
     day_type := classify t |}.

(** a full year of records, in date order *)
Definition calendar_year (classify : datetime -> option Z) (y : Z) : list HolidayDateDB :=
  List.map (fun k => calendar_day classify (datetime.ymd2ord y 1 1 + Z.of_nat k))
           (List.seq 0 (if datetime.is_leap y then 366 else 365)).

(** every day a workday *)
Definition only_workdays : Z -> list HolidayDateDB :=
  calendar_year (fun _ => Some 0).

(** New Year's Day a legal holiday, Saturdays and Sundays rest days, the
    other days workdays *)
Definition usual_week : Z -> list HolidayDateDB :=
  calendar_year (fun t =>
    if (datetime.month t =? 1) && (datetime.day t =? 1) then Some 2
    else if datetime.isoweekday t >=? 6 then Some 1
    else Some 0).

Definition rule (limits : option (list string)) (lunar_on : bool) (lm ld : option Z)
  : CronConfig :=
  {| cron_expression := "0 12 * * *";
     start_time := None;
     end_time := None;
     limit_days := limits;
     is_lunar := lunar_on;
     lunar_month := lm;
     lunar_day := ld |}.

Definition daily_rule : CronConfig := rule None false None None.
Definition workday_rule : CronConfig := rule (Some ["WORKDAY"%string]) false None None.
Definition holiday_rule : CronConfig := rule (Some ["HOLIDAY"%string]) false None None.
Definition lunar_new_year_rule : CronConfig := rule None true (Some 1) (Some 1).

Definition task_base (recurring : bool) (cfg : option CronConfig)
    (countdown : option CountdownConfig) (one_time : option OneTimeSpecificConfig)
  : schemas.TaskInfoBase :=
  {| schemas.task_name := "water the plants";
     description := None;
     triggering_user_id := Some "wxid_alice"%string;
     target_chat_id := None;
     mention_user_nickname := None;
     webhook_channel := Some {| url := "http://127.0.0.1/hook"; method := "POST" |};
     email_channel := None;
     reminder_content := "water the plants";
     is_dify_generated := false;
     schemas.is_recurring := recurring;
     cron_config := cfg;
     countdown_config := countdown;
     one_time_specific_config := one_time |}.

Definition one_shot_at (t : datetime) : schemas.TaskInfoCreate :=
  task_base false None None (Some {| trigger_at := t |}).

Definition countdown_of (duration_str : string) : schemas.TaskInfoCreate :=
  task_base false None (Some {| countdown_duration := duration_str |}) None.

Definition recurring_with (cfg : CronConfig) : schemas.TaskInfo :=
  task_base true (Some cfg) None None.

(** 2025-01-01 (a Wednesday), 09:30:00 *)
Definition new_year_morning : datetime := datetime.make 2025 1 1 9 30 0.

(** senders that never get through, no Dify, no mail server; the clock
    reads [now] when the next occurrence is computed *)
Definition unreachable_senders (now : datetime) : Collaborators :=
  {| dify_configured := false;
     mail_configured := false;
     generate_content_with_dify := fun _ _ => "Dify API error"%string;
     send_webhook_notification := fun _ => false;
     send_email_notification := fun _ _ => false;
     now_for_next_calc := now |}.

(** the row of a recurring daily reminder *)
Definition plants_row (st : TaskStatusEnum) (next : option datetime)
  : tasks.ReminderTaskDB :=
  {| tasks.id := "task-1";
     tasks.task_info := Some (recurring_with daily_rule);
     tasks.task_name := "water the plants";
     tasks.status := st;
     tasks.next_trigger_time := next;
     tasks.is_recurring := true |}.

Definition plants_job (t : datetime) : Job :=
  {| run_date := t;
     job_task_id := "task-1";
     job_name := "water the plants";
     misfire_grace_time := 3600 |}.

Definition world_of (row : tasks.ReminderTaskDB) (timers : gmap string Job) : World :=
  {| rows := {[ tasks.id row := row ]};
     holiday_dates_for_year := no_calendar;
     jobs := timers;
     commits := [];
     outbox := [] |}.

End Samples.

(** ** Shapes of duration strings *)

Fixpoint all_digits (s : string) : bool :=
  match s with
  | EmptyString => true
  | String c rest => Str.is_digit c && all_digits rest
  end.

(** a capture of [\d+]: absent, or a non-empty run of digits *)
Definition digit_run (g : option string) : Prop :=
  match g with
  | Some ds => ds <> EmptyString /\ all_digits ds = true
  | None => True
  end.

(** the text of one group: the digits and the unit letter, or nothing *)
Definition render_unit (g : option string) (unit : ascii) : string :=
  match g with
  | Some ds => append ds (String unit EmptyString)
  | None => EmptyString
  end.

(** the text of a duration with the given captures, units in the order
    days, hours, minutes, seconds *)
Definition render_duration (d h m s : option string) : string :=
  append (render_unit d "d")
    (append (render_unit h "h") (append (render_unit m "m") (render_unit s "s"))).

Definition newline : string := String (ascii_of_nat 10) EmptyString.

(** a capture with more digits than [int] takes *)
Definition too_long (g : option string) : bool :=
  match g with
  | Some ds => (Str.int_max_str_digits <? String.length ds)%nat
  | None => false
  end.

(** [c * n] *)
Fixpoint repeat_char (c : ascii) (n : nat) : string :=
  match n with
  | O => EmptyString
  | S k => String c (repeat_char c k)
  end.

(** ** app/main.py: the deep merge of [update_existing_task] *)

(** A Python value as [deep_update_internal] sees it: a [dict], its items in
    insertion order, or anything else. *)
Inductive pyvalue (A : Type) : Type :=
| Other (a : A)
| Dict (items : list (string * pyvalue A)).

Arguments Other {A} a.
Arguments Dict {A} items.

(** [d.get(key)] *)
Fixpoint dict_get {V : Type} (key : string) (d : list (string * V)) : option V :=
  match d with
  | [] => None
  | (k, v) :: rest => if String.eqb k key then Some v else dict_get key rest
  end.

(** [d[key] = value]: an existing key keeps its place, a new one goes last *)
Fixpoint dict_set {V : Type} (key : string) (value : V) (d : list (string * V))
  : list (string * V) :=
  match d with
  | [] => [(key, value)]
  | (k, v) :: rest =>
      if String.eqb k key then (k, value) :: rest else (k, v) :: dict_set key value rest
  end.

(** What [target[key]] holds after one turn of the loop, for [current] the
    value it held ([None]: no such key) and [value] the update: the merged
    dict when both are dicts, the update otherwise. *)
Fixpoint merged_value {A : Type} (current : option (pyvalue A)) (value : pyvalue A)
    {struct value} : pyvalue A :=
  match value, current with
  | Dict updates, Some (Dict target) =>
      Dict ((fix loop (updates target : list (string * pyvalue A)) {struct updates} :=
               match updates with
               | [] => target
               | (key, v) :: rest =>
                   loop rest (dict_set key (merged_value (dict_get key target) v) target)
               end) updates target)
  | _, _ => value
  end.

(** [deep_update_internal(target, updates)]: the dict [target] is afterwards *)
Fixpoint deep_update_internal {A : Type} (target updates : list (string * pyvalue A))
  : list (string * pyvalue A) :=
  match updates with
  | [] => target
  | (key, value) :: rest =>
      deep_update_internal
        (dict_set key (merged_value (dict_get key target) value) target) rest
  end.

(** a dict has each key once, and so have the dicts inside it *)
Inductive unique_keys {A : Type} : pyvalue A -> Prop :=
| unique_keys_other (a : A) : unique_keys (Other a)
| unique_keys_dict (items : list (string * pyvalue A)) :
    List.NoDup (List.map fst items) ->
    Forall (fun kv => unique_keys (snd kv)) items ->
    unique_keys (Dict items).

(** [key in d] *)
Definition dict_has {V : Type} (key : string) (d : list (string * V)) : bool :=
  match dict_get key d with Some _ => true | None => false end.

(** [v[k1][k2]...]: the value a path of keys leads to, if it leads anywhere *)
Fixpoint value_at {A : Type} (path : list string) (v : pyvalue A) : option (pyvalue A) :=
  match path with
  | [] => Some v
  | key :: rest =>
      match v with
      | Dict items =>
          match dict_get key items with
          | Some inner => value_at rest inner
          | None => None
          end
      | Other _ => None
      end
  end.

(** The update says nothing about a path: it leaves the path at some key it
    does not have, having only dicts on the way there. *)
Fixpoint not_mentioned {A : Type} (path : list string) (updates : list (string * pyvalue A))
  : bool :=
  match path with
  | [] => false
  | key :: rest =>
      match dict_get key updates with
      | None => true
      | Some (Dict inner) => not_mentioned rest inner
      | Some (Other _) => false
      end
  end.

(** ** app/services/notification_service.py: placeholders in a payload template *)

(** [s.replace(old, new)] for a non-empty [old]: the occurrences of [old]
    found from left to right, not overlapping; [skip] characters of an
    occurrence already replaced are still to be passed over. *)
Fixpoint replace_scan (old new : string) (skip : nat) (s : string) : string :=
  match s with
  | EmptyString => EmptyString
  | String c rest =>
      match skip with
      | S n => replace_scan old new n rest
      | O =>
          if String.prefix old (String c rest)
          then append new (replace_scan old new (Nat.pred (String.length old)) rest)
          else String c (replace_scan old new O rest)
      end
  end.

(** [s.replace("", new)]: [new] before every character and at the end *)
Fixpoint replace_empty (new s : string) : string :=
  match s with
  | EmptyString => new
  | String c rest => append new (String c (replace_empty new rest))
  end.

Definition str_replace (old new s : string) : string :=
  match old with
  | EmptyString => replace_empty new s
  | String _ _ => replace_scan old new O s
  end.

(** What [json.loads] gives: a dict, a list, a string, or a value that is
    none of them (a number, a boolean, None). *)
Inductive json (A : Type) : Type :=
| JDict (items : list (string * json A))
| JList (items : list (json A))
| JStr (s : string)
| JOther (a : A).

Arguments JDict {A} items.
Arguments JList {A} items.
Arguments JStr {A} s.
Arguments JOther {A} a.

(** [str(replacement_value) if replacement_value is not None else ""] *)
Definition value_to_replace_with (replacement_value : option string) : string :=
  match replacement_value with Some v => v | None => EmptyString end.

(** the [for] loop over [replacements.items()] on one string *)
Definition replace_placeholders_in_str (replacements : list (string * option string))
    (data_structure : string) : string :=
  fold_left
    (fun modified_string '(placeholder_key, replacement_value) =>
       let modified_string :=
         str_replace (append "{{" (append placeholder_key "}}"))
           (value_to_replace_with replacement_value) modified_string in
       str_replace (append "{" (append placeholder_key "}"))
         (value_to_replace_with replacement_value) modified_string)
    replacements data_structure.

Fixpoint replace_placeholders_in_data {A : Type} (data_structure : json A)
    (replacements : list (string * option string)) : json A :=
  match data_structure with
  | JDict items =>
      JDict (List.map (fun '(key, value) =>
                         (key, replace_placeholders_in_data value replacements)) items)
  | JList items =>
      JList (List.map (fun item => replace_placeholders_in_data item replacements) items)
  | JStr s => JStr (replace_placeholders_in_str replacements s)
  | JOther a => JOther a
  end.

(** a value with its strings blanked: the keys, the lengths of the lists and
    the values that are not strings *)
Fixpoint outline {A : Type} (v : json A) : json A :=
  match v with
  | JDict items => JDict (List.map (fun '(key, value) => (key, outline value)) items)
  | JList items => JList (List.map outline items)
  | JStr _ => JStr EmptyString
  | JOther a => JOther a
  end.

(** no opening brace in the text *)
Fixpoint brace_free (s : string) : bool :=
  match s with
  | EmptyString => true
  | String c rest => negb (Ascii.eqb c "{") && brace_free rest
  end.

(** no opening brace in any string of the value (keys of dicts apart) *)
Fixpoint without_placeholders {A : Type} (v : json A) : bool :=
  match v with
  | JDict items => forallb (fun '(_, value) => without_placeholders value) items
  | JList items => forallb without_placeholders items
  | JStr s => brace_free s
  | JOther _ => true
  end.

(** a placeholder key without braces of either kind *)
Fixpoint plain_key (s : string) : bool :=
  match s with
  | EmptyString => true
  | String c rest => negb (Ascii.eqb c "{") && negb (Ascii.eqb c "}") && plain_key rest
  end.

(** ** The task table *)

(** every row is stored under its own identifier *)
Definition rows_keyed_by_id (w : World) : Prop :=
  forall k row, rows w !! k = Some row -> tasks.id row = k.

(** ** More concrete scenes *)

Module Scenes.

(** senders that get through *)
Definition reachable_senders (now : datetime) : Collaborators :=
  {| dify_configured := false;
     mail_configured := false;
     generate_content_with_dify := fun _ _ => "Dify API error"%string;
     send_webhook_notification := fun _ => true;
     send_email_notification := fun _ _ => true;
     now_for_next_calc := now |}.

(** the row of a one-shot reminder *)
Definition call_row (st : TaskStatusEnum) (next : option datetime) : tasks.ReminderTaskDB :=
  {| tasks.id := "task-2";
     tasks.task_info := Some (Samples.one_shot_at (datetime.make 2025 1 1 12 0 0));
     tasks.task_name := "water the plants";
     tasks.status := st;
     tasks.next_trigger_time := next;
     tasks.is_recurring := false |}.

Definition call_job (t : datetime) : Job :=
  {| run_date := t;
     job_task_id := "task-2";
     job_name := "water the plants";
     misfire_grace_time := 600 |}.

(** the row of a recurring reminder restricted to workdays *)
Definition workday_row (st : TaskStatusEnum) (next : option datetime)
  : tasks.ReminderTaskDB :=
  {| tasks.id := "task-3";
     tasks.task_info := Some (Samples.recurring_with Samples.workday_rule);
     tasks.task_name := "water the plants";
     tasks.status := st;
     tasks.next_trigger_time := next;
     tasks.is_recurring := true |}.

(** a table with the daily reminder armed, the one-shot reminder armed, and
    the workday reminder waiting for calendar data *)
Definition three_tasks : World :=
  {| rows := {[ "task-1"%string :=
                  Samples.plants_row PENDING (Some (datetime.make 2025 1 1 12 0 0));
                "task-2"%string := call_row PENDING (Some (datetime.make 2025 1 1 12 0 0));
                "task-3"%string :=
                  workday_row PENDING_CALCULATION (Some (datetime.make 2025 1 1 12 0 0)) ]};
     holiday_dates_for_year := Samples.no_calendar;
     jobs := {[ "task-1"%string := Samples.plants_job (datetime.make 2025 1 1 12 0 0);
                "task-2"%string := call_job (datetime.make 2025 1 1 12 0 0) ]};
     commits := [];
     outbox := [] |}.

Definition clock (now : datetime) : string -> datetime := fun _ => now.

(** a countdown of 4301 digits and the unit letter [d] *)
Definition over_long_duration : string :=
  append (repeat_char "1" 4301) "d".

(** a stored [task_info] and a partial update of it, as dicts *)
Definition stored_info : list (string * pyvalue string) :=
  [ ("reminder_content"%string, Other "water the plants"%string);
    ("cron_config"%string,
     Dict [ ("cron_expression"%string, Other "0 9 * * *"%string);
            ("is_lunar"%string, Other "false"%string) ]) ].

Definition partial_update : list (string * pyvalue string) :=
  [ ("cron_config"%string,
     Dict [ ("cron_expression"%string, Other "0 8 * * *"%string);
            ("limit_days"%string, Other "WORKDAY"%string) ]);
    ("task_name"%string, Other "plants"%string) ].

(** the replacement table of a webhook payload *)
Definition payload_replacements : list (string * option string) :=
  [ ("content"%string, Some "water the plants"%string);
    ("user_id"%string, Some "wxid_1"%string);
    ("task_name"%string, None) ].

End Scenes.

(** * Verification *)

(** ** The loop of [get_next_cron_run_time] *)

Lemma calendar_stage_returns (cfg : CronConfig) (getter : Z -> list HolidayDateDB)
    (c : datetime) (r : option datetime * TaskStatusEnum) :
  calendar_stage cfg getter c = inl r -> r = (Some c, PENDING_CALCULATION).
Proof.
  unfold calendar_stage.
  destruct (has_limit_days cfg); [|discriminate].
  destruct (getter (datetime.year c)) as [|d l]; [intros [= <-]; reflexivity|].
  destruct (find_day (d :: l) _); [discriminate|intros [= <-]; reflexivity].
Qed.

Lemma lunar_stage_returns {lunar : LunarCalendar} (cfg : CronConfig) (c : datetime)
    (r : option datetime * TaskStatusEnum) :
  lunar_stage cfg c = Some (Return r) -> r = (None, FAILED).
Proof.
  unfold lunar_stage.
  destruct (is_lunar cfg); [|discriminate].
  destruct (lunar_month cfg) as [m|]; [|intros [= <-]; reflexivity].
  destruct (lunar_day cfg) as [d|]; [|intros [= <-]; reflexivity].
  destruct (fromSolarDate _ _ _) as [m' d'| |].
  - destruct (negb _); discriminate.
  - intros [= <-]; reflexivity.
  - discriminate.
Qed.

Lemma limit_stage_returns (cfg : CronConfig) (info : option HolidayDateDB) (c : datetime)
    (r : option datetime * TaskStatusEnum) :
  limit_stage cfg info c = Return r ->
  r = (Some c, PENDING_CALCULATION) \/ r = (Some c, PENDING).
Proof.
  unfold limit_stage.
  destruct (has_limit_days cfg); [|intros [= <-]; auto].
  destruct info as [i|]; [|intros [= <-]; auto].
  destruct (negb _); [discriminate|intros [= <-]; auto].
Qed.

Lemma examine_returns {cron : Croniter} {lunar : LunarCalendar}
    (cfg : CronConfig) (getter : Z -> list HolidayDateDB) (c : datetime)
    (r : option datetime * TaskStatusEnum) :
  examine cfg getter c = Return r ->
  r = (None, COMPLETED) \/ r = (None, FAILED)
  \/ r = (Some c, PENDING_CALCULATION) \/ r = (Some c, PENDING).
Proof.
  unfold examine.
  destruct (match end_time cfg with Some e => c >? e | None => false end);
    [intros [= <-]; auto|].
  destruct (match start_time cfg with Some s => c <? s | None => false end);
    [discriminate|].
  destruct (calendar_stage cfg getter c) as [r0|info] eqn:Ecal.
  - intros [= <-]. apply calendar_stage_returns in Ecal. auto.
  - destruct (lunar_stage cfg c) as [[|r1]|] eqn:Elun.
    + discriminate.
    + intros [= <-]. apply lunar_stage_returns in Elun. auto.
    + intros H. apply limit_stage_returns in H. tauto.
Qed.

Lemma search_unfold {cron : Croniter} {lunar : LunarCalendar}
    (cfg : CronConfig) (getter : Z -> list HolidayDateDB) (n : nat) (cur : datetime) :
  search cfg getter (S n) cur =
  match croniter_get_next (cron_expression cfg) cur with
  | None => ((None, FAILED), [])
  | Some c =>
      match examine cfg getter c with
      | Return r => (r, [c])
      | Continue => (fst (search cfg getter n c), c :: snd (search cfg getter n c))
      end
  end.
Proof.
  simpl. destruct (croniter_get_next _ cur); [|reflexivity].
  destruct (examine cfg getter d); [|reflexivity].
  destruct (search cfg getter n d). reflexivity.
Qed.

(** A search ends with [(None, FAILED)] or with the [return] of the body at
    one of the candidates drawn. *)
Lemma search_result {cron : Croniter} {lunar : LunarCalendar}
    (cfg : CronConfig) (getter : Z -> list HolidayDateDB) (n : nat) :
  forall cur,
    fst (search cfg getter n cur) = (None, FAILED)
    \/ exists c, In c (snd (search cfg getter n cur))
                 /\ examine cfg getter c = Return (fst (search cfg getter n cur)).
Proof.
  induction n as [|n IH]; intros cur.
  - left. reflexivity.
  - rewrite search_unfold.
    destruct (croniter_get_next _ cur) as [c|]; [|left; reflexivity].
    destruct (examine cfg getter c) as [|r] eqn:E.
    + destruct (IH c) as [F|[c' [Hin Hex]]]; [left; exact F|].
      right. exists c'. split; [right; exact Hin|exact Hex].
    + right. exists c. split; [left; reflexivity|exact E].
Qed.

(** A body that returns at a candidate drawn decides the search. *)
Lemma search_stops_at {cron : Croniter} {lunar : LunarCalendar}
    (cfg : CronConfig) (getter : Z -> list HolidayDateDB) (n : nat) :
  forall cur c r,
    In c (snd (search cfg getter n cur)) ->
    examine cfg getter c = Return r ->
    fst (search cfg getter n cur) = r.
Proof.
  induction n as [|n IH]; intros cur c r Hin Hex.
  - contradiction.
  - rewrite search_unfold in *.
    destruct (croniter_get_next _ cur) as [c0|]; [|contradiction].
    destruct (examine cfg getter c0) as [|r0] eqn:E; simpl in *.
    + destruct Hin as [->|Hin]; [congruence|]. eapply IH; eassumption.
    + destruct Hin as [->|[]]. congruence.
Qed.

Lemma search_length {cron : Croniter} {lunar : LunarCalendar}
    (cfg : CronConfig) (getter : Z -> list HolidayDateDB) (n : nat) :
  forall cur, (length (snd (search cfg getter n cur)) <= n)%nat.
Proof.
  induction n as [|n IH]; intros cur.
  - simpl. lia.
  - rewrite search_unfold.
    destruct (croniter_get_next _ cur) as [c|]; [|simpl; lia].
    destruct (examine cfg getter c); simpl; [specialize (IH c)|]; lia.
Qed.

(** When the body said [continue] at every candidate drawn, the search ended
    without a trigger. *)
Lemma search_all_skipped {cron : Croniter} {lunar : LunarCalendar}
    (cfg : CronConfig) (getter : Z -> list HolidayDateDB) (n : nat) :
  forall cur,
    Forall (fun c => examine cfg getter c = Continue) (snd (search cfg getter n cur)) ->
    fst (search cfg getter n cur) = (None, FAILED).
Proof.
  intros cur Hall.
  destruct (search_result cfg getter n cur) as [F|[c [Hin Hex]]]; [exact F|].
  rewrite List.Forall_forall in Hall. specialize (Hall c Hin). congruence.
Qed.

Lemma get_next_unfold {cron : Croniter} {lunar : LunarCalendar}
    (cfg : CronConfig) (base : datetime) (getter : Z -> list HolidayDateDB) (n : nat) :
  get_next_cron_run_time cfg base getter n =
  match clamp_base cfg base with
  | Returned base' =>
      if croniter_accepts (cron_expression cfg)
      then Returned (fst (search cfg getter n base'))
      else Returned (None, FAILED)
  | Raised e => Raised e
  end.
Proof. reflexivity. Qed.

Lemma get_next_trigger_matches_status {cron : Croniter} {lunar : LunarCalendar}
    (cfg : CronConfig) (base : datetime) (getter : Z -> list HolidayDateDB) (n : nat) :
  trigger_matches_status (get_next_cron_run_time cfg base getter n).
Proof.
  rewrite get_next_unfold.
  destruct (clamp_base cfg base) as [base'|e]; [|exact I].
  assert (Hshape : forall r : option datetime * TaskStatusEnum,
             (r = (None, FAILED) \/ exists c, examine cfg getter c = Return r) ->
             trigger_matches_status (Returned r)).
  { intros r [-> | [c Hex] ].
    - simpl. split; [split; [intros [x Hx]; discriminate|intros [H|H]; discriminate]|auto].
    - apply examine_returns in Hex.
      destruct Hex as [-> | [-> | [-> | ->] ] ]; simpl;
        (split; [split; [intros Hs; try (destruct Hs; discriminate); auto
                        |intros Hd; try (destruct Hd; discriminate); eauto]
                |intros Hd; try (destruct Hd; discriminate); auto]). }
  destruct (croniter_accepts _).
  - apply Hshape.
    destruct (search_result cfg getter n base') as [F|[c [_ Hex]]]; eauto.
  - apply Hshape. left. reflexivity.
Qed.

(** ** The pairs returned *)

(** C10.  Every pair returned by a trigger-time computation, the first
    computation ([calculate_initial_trigger_time]) as well as the recurring
    recomputation ([get_next_cron_run_time]), carries a trigger instant if and
    only if its status is PENDING or PENDING_CALCULATION; with FAILED or
    COMPLETED the trigger instant is None. *)
Theorem C10_trigger_present_iff_pending {cron : Croniter} {lunar : LunarCalendar} :
  (forall (task_info : TaskInfoCreate) (getter : Z -> list HolidayDateDB) (now : datetime),
      trigger_matches_status (calculate_initial_trigger_time task_info getter now))
  /\ (forall (cfg : CronConfig) (base : datetime) (getter : Z -> list HolidayDateDB) (n : nat),
         trigger_matches_status (get_next_cron_run_time cfg base getter n)).
Proof.
  assert (Hpending : forall t : datetime, trigger_matches_status (Returned (Some t, PENDING))).
  { intros t. simpl. split; [split; eauto|intros [H|H]; discriminate]. }
  split; [|intros; apply get_next_trigger_matches_status].
  intros task_info getter now. unfold calculate_initial_trigger_time.
  destruct (is_recurring task_info).
  - destruct (cron_config task_info) as [cfg|]; [|exact I].
    apply get_next_trigger_matches_status.
  - destruct (one_time_specific_config task_info) as [one_time|].
    + destruct (trigger_at one_time <=? now); [|apply Hpending].
      destruct (datetime.add now (datetime.seconds 1)) as [t|e]; [apply Hpending|exact I].
    + destruct (countdown_config task_info) as [countdown|]; [|exact I].
      destruct (parse_countdown_duration (countdown_duration countdown)) as [delta|[|]];
        simpl.
      * destruct (datetime.add now delta) as [t|[|]]; simpl; eauto.
        -- apply (Hpending t).
        -- split; [split; [intros [x Hx]; discriminate|intros [H|H]; discriminate]|auto].
      * split; [split; [intros [x Hx]; discriminate|intros [H|H]; discriminate]|auto].
      * exact I.
Qed.

(** ** One-shot tasks *)

(** C5.  A one-shot task with an absolute target: a target at or before the
    base instant (now) gives now plus one second with status PENDING, a
    target still in the future is returned unchanged with status PENDING.
    (Now plus one second has to be a datetime Python can represent.) *)
Theorem C5_one_shot_absolute {cron : Croniter} {lunar : LunarCalendar}
    (task_info : TaskInfoCreate) (one_time : OneTimeSpecificConfig)
    (getter : Z -> list HolidayDateDB) (now : datetime) :
  is_recurring task_info = false ->
  one_time_specific_config task_info = Some one_time ->
  datetime.in_range (now + datetime.seconds 1) = true ->
  (trigger_at one_time <= now ->
   calculate_initial_trigger_time task_info getter now
   = Returned (Some (now + datetime.seconds 1), PENDING))
  /\ (now < trigger_at one_time ->
      calculate_initial_trigger_time task_info getter now
      = Returned (Some (trigger_at one_time), PENDING)).
Proof.
  intros Hrec Hone Hrange. unfold calculate_initial_trigger_time.
  rewrite Hrec, Hone. split; intros Hcmp.
  - apply Z.leb_le in Hcmp. rewrite Hcmp.
    unfold datetime.add. rewrite Hrange. reflexivity.
  - apply Z.leb_gt in Hcmp. rewrite Hcmp. reflexivity.
Qed.

Lemma C5_one_shot_absolute_witness :
  calculate_initial_trigger_time (cron := Samples.daily_noon)
    (lunar := Samples.lunar_new_year_2025)
    (Samples.one_shot_at (Samples.new_year_morning - datetime.seconds 3600))
    Samples.no_calendar Samples.new_year_morning
  = Returned (Some (datetime.make 2025 1 1 9 30 1), PENDING)
  /\ calculate_initial_trigger_time (cron := Samples.daily_noon)
       (lunar := Samples.lunar_new_year_2025)
       (Samples.one_shot_at (datetime.make 2025 1 1 10 0 0))
       Samples.no_calendar Samples.new_year_morning
     = Returned (Some (datetime.make 2025 1 1 10 0 0), PENDING).
Proof.
  split.
  - apply (C5_one_shot_absolute (cron := Samples.daily_noon)
             (lunar := Samples.lunar_new_year_2025)
             (Samples.one_shot_at (Samples.new_year_morning - datetime.seconds 3600))
             {| trigger_at := Samples.new_year_morning - datetime.seconds 3600 |}
             Samples.no_calendar Samples.new_year_morning);
      [reflexivity|reflexivity|reflexivity|vm_compute; discriminate].
  - apply (C5_one_shot_absolute (cron := Samples.daily_noon)
             (lunar := Samples.lunar_new_year_2025)
             (Samples.one_shot_at (datetime.make 2025 1 1 10 0 0))
             {| trigger_at := datetime.make 2025 1 1 10 0 0 |}
             Samples.no_calendar Samples.new_year_morning);
      [reflexivity|reflexivity|reflexivity|vm_compute; reflexivity].
Defined.

Lemma parse_countdown_no_match (duration_str : string) :
  match_duration (Str.lower duration_str) = None ->
  parse_countdown_duration duration_str = Raised ValueError.
Proof. unfold parse_countdown_duration. intros ->. reflexivity. Qed.

Lemma countdown_ValueError_fails {cron : Croniter} {lunar : LunarCalendar}
    (task_info : TaskInfoCreate) (duration_str : string)
    (getter : Z -> list HolidayDateDB) (now : datetime) :
  countdown_task task_info duration_str ->
  parse_countdown_duration duration_str = Raised ValueError ->
  calculate_initial_trigger_time task_info getter now = Returned (None, FAILED).
Proof.
  intros (Hrec & Hone & Hcd) Hparse. unfold calculate_initial_trigger_time.
  rewrite Hrec, Hone, Hcd. simpl. rewrite Hparse. reflexivity.
Qed.

Lemma countdown_parsed_pending {cron : Croniter} {lunar : LunarCalendar}
    (task_info : TaskInfoCreate) (duration_str : string) (delta : timedelta)
    (getter : Z -> list HolidayDateDB) (now : datetime) :
  countdown_task task_info duration_str ->
  parse_countdown_duration duration_str = Returned delta ->
  datetime.in_range (now + delta) = true ->
  calculate_initial_trigger_time task_info getter now
  = Returned (Some (now + delta), PENDING).
Proof.
  intros (Hrec & Hone & Hcd) Hparse Hrange. unfold calculate_initial_trigger_time.
  rewrite Hrec, Hone, Hcd. simpl. rewrite Hparse. simpl.
  unfold datetime.add. rewrite Hrange. reflexivity.
Qed.

(** C6.  Countdown parsing.  ["1d2h3m4s"] parses to exactly 1 day, 2 hours,
    3 minutes and 4 seconds and the computation returns the base instant plus
    that duration with status PENDING; an empty or unparseable duration
    string yields no trigger and status FAILED, and no exception reaches the
    caller; ["0d"] is a valid zero duration, whose trigger is the base instant
    itself.  (The sums have to be datetimes Python can represent.) *)
Theorem C6_countdown_parsing {cron : Croniter} {lunar : LunarCalendar}
    (task_info : TaskInfoCreate) (duration_str : string)
    (getter : Z -> list HolidayDateDB) (now : datetime) :
  countdown_task task_info duration_str ->
  datetime.in_range now = true ->
  (duration_str = "1d2h3m4s"%string ->
   parse_countdown_duration duration_str
   = Returned (datetime.seconds (((1 * 24 + 2) * 60 + 3) * 60 + 4))
   /\ (datetime.in_range (now + datetime.seconds 93784) = true ->
       calculate_initial_trigger_time task_info getter now
       = Returned (Some (now + datetime.seconds 86400 + datetime.seconds 7200
                         + datetime.seconds 180 + datetime.seconds 4), PENDING)))
  /\ (duration_str = ""%string \/ match_duration (Str.lower duration_str) = None ->
      parse_countdown_duration duration_str = Raised ValueError
      /\ calculate_initial_trigger_time task_info getter now = Returned (None, FAILED))
  /\ (duration_str = "0d"%string ->
      parse_countdown_duration duration_str = Returned 0
      /\ calculate_initial_trigger_time task_info getter now = Returned (Some now, PENDING)).
Proof.
  intros Htask Hnow. repeat split.
  - subst. reflexivity.
  - intros Hrange. subst duration_str.
    rewrite (countdown_parsed_pending task_info "1d2h3m4s" (datetime.seconds 93784)
               getter now Htask eq_refl Hrange).
    unfold datetime.seconds, datetime.US_PER_SECOND. do 3 f_equal. lia.
  - destruct H as [->|H]; [reflexivity|apply parse_countdown_no_match, H].
  - apply (countdown_ValueError_fails task_info duration_str getter now Htask).
    destruct H as [->|H]; [reflexivity|apply parse_countdown_no_match, H].
  - subst. reflexivity.
  - subst duration_str.
    rewrite (countdown_parsed_pending task_info "0d" 0 getter now Htask eq_refl);
      [do 3 f_equal; lia|].
    rewrite Z.add_0_r. exact Hnow.
Qed.

Lemma C6_countdown_parsing_witness :
  calculate_initial_trigger_time (cron := Samples.daily_noon)
    (lunar := Samples.lunar_new_year_2025)
    (Samples.countdown_of "1d2h3m4s") Samples.no_calendar Samples.new_year_morning
  = Returned (Some (datetime.make 2025 1 2 11 33 4), PENDING)
  /\ calculate_initial_trigger_time (cron := Samples.daily_noon)
       (lunar := Samples.lunar_new_year_2025)
       (Samples.countdown_of "") Samples.no_calendar Samples.new_year_morning
     = Returned (None, FAILED)
  /\ calculate_initial_trigger_time (cron := Samples.daily_noon)
       (lunar := Samples.lunar_new_year_2025)
       (Samples.countdown_of "in a while") Samples.no_calendar Samples.new_year_morning
     = Returned (None, FAILED)
  /\ calculate_initial_trigger_time (cron := Samples.daily_noon)
       (lunar := Samples.lunar_new_year_2025)
       (Samples.countdown_of "0d") Samples.no_calendar Samples.new_year_morning
     = Returned (Some Samples.new_year_morning, PENDING).
Proof.
  assert (Htask : forall d, countdown_task (Samples.countdown_of d) d)
    by (intros d; repeat split).
  assert (Hnow : datetime.in_range Samples.new_year_morning = true) by reflexivity.
  split; [|split; [|split] ].
  - destruct (C6_countdown_parsing (cron := Samples.daily_noon)
                (lunar := Samples.lunar_new_year_2025)
                (Samples.countdown_of "1d2h3m4s") "1d2h3m4s"
                Samples.no_calendar Samples.new_year_morning (Htask _) Hnow)
      as (H & _ & _).
    destruct (H eq_refl) as [_ Hcalc]. exact (Hcalc eq_refl).
  - destruct (C6_countdown_parsing (cron := Samples.daily_noon)
                (lunar := Samples.lunar_new_year_2025)
                (Samples.countdown_of "") ""
                Samples.no_calendar Samples.new_year_morning (Htask _) Hnow)
      as (_ & H & _).
    exact (proj2 (H (or_introl eq_refl))).
  - destruct (C6_countdown_parsing (cron := Samples.daily_noon)
                (lunar := Samples.lunar_new_year_2025)
                (Samples.countdown_of "in a while") "in a while"
                Samples.no_calendar Samples.new_year_morning (Htask _) Hnow)
      as (_ & H & _).
    exact (proj2 (H (or_intror eq_refl))).
  - destruct (C6_countdown_parsing (cron := Samples.daily_noon)
                (lunar := Samples.lunar_new_year_2025)
                (Samples.countdown_of "0d") "0d"
                Samples.no_calendar Samples.new_year_morning (Htask _) Hnow)
      as (_ & _ & H).
    exact (proj2 (H eq_refl)).
Defined.

(** ** Missing calendar data *)

Lemma in_validity_window_checks (cfg : CronConfig) (c : datetime) :
  in_validity_window cfg c = true ->
  match end_time cfg with Some e => c >? e | None => false end = false
  /\ match start_time cfg with Some s => c <? s | None => false end = false.
Proof.
  unfold in_validity_window. intros H. apply andb_true_iff in H as [He Hs].
  split.
  - destruct (end_time cfg); [apply negb_true_iff, He|reflexivity].
  - destruct (start_time cfg); [apply negb_true_iff, Hs|reflexivity].
Qed.

Lemma find_day_nil (target : string) : find_day [] target = None.
Proof. reflexivity. Qed.

Lemma candidates_drawn_search {cron : Croniter} {lunar : LunarCalendar}
    (cfg : CronConfig) (base : datetime) (getter : Z -> list HolidayDateDB) (n : nat)
    (c : datetime) :
  In c (candidates_drawn cfg base getter n) ->
  exists base',
    clamp_base cfg base = Returned base'
    /\ croniter_accepts (cron_expression cfg) = true
    /\ In c (snd (search cfg getter n base'))
    /\ get_next_cron_run_time cfg base getter n
       = Returned (fst (search cfg getter n base')).
Proof.
  unfold candidates_drawn. rewrite get_next_unfold.
  destruct (clamp_base cfg base) as [base'|e]; [|contradiction].
  destruct (croniter_accepts _); [|contradiction].
  intros Hin. exists base'. auto.
Qed.

(** C1, as the code has it.  For a recurring rule with a day-type filter
    ([limit_days] non-empty): when a candidate inside the rule's validity
    window is drawn and the calendar has no data for its year, or has the
    year but not its date, the computation returns that candidate with status
    PENDING_CALCULATION; it neither fails nor raises. *)
Theorem C1_missing_calendar_data {cron : Croniter} {lunar : LunarCalendar}
    (cfg : CronConfig) (base : datetime) (getter : Z -> list HolidayDateDB) (n : nat)
    (c : datetime) :
  has_limit_days cfg = true ->
  In c (candidates_drawn cfg base getter n) ->
  in_validity_window cfg c = true ->
  (getter (datetime.year c) = []
   \/ find_day (getter (datetime.year c)) (datetime.strftime_Ymd c) = None) ->
  examine cfg getter c = Return (Some c, PENDING_CALCULATION)
  /\ get_next_cron_run_time cfg base getter n = Returned (Some c, PENDING_CALCULATION).
Proof.
  intros Hlim Hin Hwin Hmissing.
  assert (Hex : examine cfg getter c = Return (Some c, PENDING_CALCULATION)).
  { unfold examine.
    destruct (in_validity_window_checks cfg c Hwin) as [-> ->].
    unfold calendar_stage. rewrite Hlim.
    destruct Hmissing as [-> | Hnone]; [reflexivity|].
    destruct (getter (datetime.year c)); [reflexivity|]. rewrite Hnone. reflexivity. }
  split; [exact Hex|].
  destruct (candidates_drawn_search cfg base getter n c Hin)
    as (base' & _ & _ & Hin' & ->).
  f_equal. eapply search_stops_at; eassumption.
Qed.

Lemma C1_missing_calendar_data_witness :
  get_next_cron_run_time (cron := Samples.daily_noon)
    (lunar := Samples.lunar_new_year_2025)
    Samples.workday_rule Samples.new_year_morning Samples.no_calendar
    max_attempts_default
  = Returned (Some (datetime.make 2025 1 1 12 0 0), PENDING_CALCULATION).
Proof.
  apply (C1_missing_calendar_data (cron := Samples.daily_noon)
           (lunar := Samples.lunar_new_year_2025)
           Samples.workday_rule Samples.new_year_morning Samples.no_calendar
           max_attempts_default (datetime.make 2025 1 1 12 0 0)).
  - reflexivity.
  - vm_compute. left. reflexivity.
  - reflexivity.
  - left. reflexivity.
Defined.

(** C1 as stated fails for a rule with lunar matching and no day-type
    filter: the calendar is never asked.  With no calendar data at all, the
    lunar new-year rule evaluated on the eve of 2025-01-29 returns that day
    with status PENDING, not PENDING_CALCULATION. *)
Lemma C1_counterexample_lunar_rule :
  is_lunar Samples.lunar_new_year_rule = true
  /\ Samples.no_calendar (datetime.year (datetime.make 2025 1 29 12 0 0)) = []
  /\ get_next_cron_run_time (cron := Samples.daily_noon)
       (lunar := Samples.lunar_new_year_2025)
       Samples.lunar_new_year_rule (datetime.make 2025 1 28 18 0 0)
       Samples.no_calendar max_attempts_default
     = Returned (Some (datetime.make 2025 1 29 12 0 0), PENDING)
  /\ get_next_cron_run_time (cron := Samples.daily_noon)
       (lunar := Samples.lunar_new_year_2025)
       Samples.lunar_new_year_rule (datetime.make 2025 1 28 18 0 0)
       Samples.no_calendar max_attempts_default
     <> Returned (Some (datetime.make 2025 1 29 12 0 0), PENDING_CALCULATION).
Proof.
  split; [reflexivity|]. split; [reflexivity|]. split.
  - vm_compute. reflexivity.
  - vm_compute. discriminate.
Qed.

(** ** Plain cron rules *)

(** The daily-noon iterator keeps croniter's contract. *)
Lemma daily_noon_contract :
  croniter_contract Samples.daily_noon (fun _ t => Samples.at_noon t = true).
Proof.
  assert (Hnext : forall cur,
             cur < Samples.next_noon cur
             /\ Samples.next_noon cur mod datetime.US_PER_DAY = Samples.NOON
             /\ forall u, cur < u -> u mod datetime.US_PER_DAY = Samples.NOON ->
                          Samples.next_noon cur <= u).
  { intros cur. unfold Samples.next_noon, Samples.NOON, datetime.US_PER_DAY,
      datetime.US_PER_SECOND.
    change (86400 * 1000000) with 86400000000.
    change (12 * 3600 * 1000000) with 43200000000.
    pose proof (Z.div_mod (cur - 43200000000) 86400000000 ltac:(lia)) as Hdm.
    pose proof (Z.mod_pos_bound (cur - 43200000000) 86400000000 ltac:(lia)) as Hb.
    set (q := (cur - 43200000000) / 86400000000) in *.
    set (r := (cur - 43200000000) mod 86400000000) in *.
    split; [lia|]. split.
    - rewrite Z.add_comm, Z.mod_add by lia. reflexivity.
    - intros u Hu Hmod.
      pose proof (Z.div_mod u 86400000000 ltac:(lia)) as Hdu.
      rewrite Hmod in Hdu.
      set (k := u / 86400000000) in *.
      assert (q < k) by lia. lia. }
  split; simpl; intros expr cur t; [| |intros u];
    destruct (datetime.in_range (Samples.next_noon cur)); try discriminate;
    intros [= <-]; destruct (Hnext cur) as (H1 & H2 & H3).
  - exact H1.
  - unfold Samples.at_noon. apply Z.eqb_eq, H2.
  - intros Hu Hfit. apply H3; [exact Hu|].
    unfold Samples.at_noon in Hfit. apply Z.eqb_eq, Hfit.
Qed.

(** C2, as the code has it.  For a cron expression croniter accepts, in a
    rule without lunar matching, day-type filter or validity window: when
    croniter yields a next instant [t] from the base instant, the computation
    returns [t] with status PENDING; [t] lies strictly after the base
    instant, its fields satisfy the expression, and no instant strictly
    after the base and before [t] satisfies it. *)
Theorem C2_plain_cron_next_after_base {cron : Croniter} {lunar : LunarCalendar}
    (fits : string -> datetime -> Prop)
    (cfg : CronConfig) (base : datetime) (getter : Z -> list HolidayDateDB) (n : nat)
    (t : datetime) :
  croniter_contract cron fits ->
  plain_cron_rule cfg ->
  croniter_accepts (cron_expression cfg) = true ->
  croniter_get_next (cron_expression cfg) base = Some t ->
  get_next_cron_run_time cfg base getter (S n) = Returned (Some t, PENDING)
  /\ earliest_after (fits (cron_expression cfg)) base t.
Proof.
  intros Hcontract (Hlunar & Hlimits & Hstart & Hend) Haccept Hnext.
  split.
  - rewrite get_next_unfold. unfold clamp_base. rewrite Hstart, Haccept.
    rewrite search_unfold, Hnext.
    assert (Hnolimit : has_limit_days cfg = false)
      by (unfold has_limit_days; destruct Hlimits as [-> | ->]; reflexivity).
    unfold examine, calendar_stage, lunar_stage, limit_stage.
    rewrite Hend, Hstart, Hnolimit, Hlunar. reflexivity.
  - destruct Hcontract as [Hlater Hfits Hfirst].
    split; [eapply Hlater; eassumption|].
    split; [eapply Hfits; eassumption|].
    intros u Hu Hfu. eapply Hfirst; eassumption.
Qed.

Lemma C2_plain_cron_next_after_base_witness :
  get_next_cron_run_time (cron := Samples.daily_noon)
    (lunar := Samples.lunar_new_year_2025)
    Samples.daily_rule Samples.new_year_morning Samples.no_calendar
    max_attempts_default
  = Returned (Some (datetime.make 2025 1 1 12 0 0), PENDING)
  /\ earliest_after (fun t => Samples.at_noon t = true)
       Samples.new_year_morning (datetime.make 2025 1 1 12 0 0).
Proof.
  apply (C2_plain_cron_next_after_base (cron := Samples.daily_noon)
           (lunar := Samples.lunar_new_year_2025)
           (fun _ t => Samples.at_noon t = true)
           Samples.daily_rule Samples.new_year_morning Samples.no_calendar
           731 (datetime.make 2025 1 1 12 0 0)).
  - exact daily_noon_contract.
  - repeat split. left. reflexivity.
  - reflexivity.
  - reflexivity.
Defined.

(** C2 as stated fails when the base instant itself satisfies the
    expression: from 2025-01-01 12:00:00 the daily-noon rule returns
    2025-01-02 12:00:00, which is not the earliest noon at or after the
    base. *)
Lemma C2_counterexample_base_on_schedule :
  Samples.at_noon (datetime.make 2025 1 1 12 0 0) = true
  /\ get_next_cron_run_time (cron := Samples.daily_noon)
       (lunar := Samples.lunar_new_year_2025)
       Samples.daily_rule (datetime.make 2025 1 1 12 0 0) Samples.no_calendar
       max_attempts_default
     = Returned (Some (datetime.make 2025 1 2 12 0 0), PENDING)
  /\ ~ earliest_from (fun t => Samples.at_noon t = true)
         (datetime.make 2025 1 1 12 0 0) (datetime.make 2025 1 2 12 0 0).
Proof.
  split; [reflexivity|]. split; [vm_compute; reflexivity|].
  intros (_ & _ & Hfirst).
  specialize (Hfirst (datetime.make 2025 1 1 12 0 0)).
  assert (Hle : datetime.make 2025 1 2 12 0 0 <= datetime.make 2025 1 1 12 0 0).
  { apply Hfirst; [vm_compute; discriminate|reflexivity]. }
  vm_compute in Hle. apply Hle. reflexivity.
Qed.

(** ** The day-type filter *)

Lemma is_workday_spec (info : HolidayDateDB) :
  is_workday info = true <-> day_type info = Some 0.
Proof.
  unfold is_workday. destruct (day_type info) as [t|]; [|split; discriminate].
  rewrite Z.eqb_eq. split; [intros ->; reflexivity|intros [= ->]; reflexivity].
Qed.

Lemma is_holiday_spec (info : HolidayDateDB) :
  is_holiday info = true <-> (day_type info = Some 1 \/ day_type info = Some 2).
Proof.
  unfold is_holiday. destruct (day_type info) as [t|].
  - rewrite orb_true_iff, !Z.eqb_eq.
    split; (intros [H|H]; [left|right]); congruence.
  - split; [discriminate|intros [H|H]; discriminate].
Qed.

Lemma is_weekend_spec (info : HolidayDateDB) :
  is_weekend info = true
  <-> (day_type info = Some 1 /\ (week_day info = 6 \/ week_day info = 7)).
Proof.
  unfold is_weekend. destruct (day_type info) as [t|].
  - rewrite andb_true_iff, orb_true_iff, !Z.eqb_eq.
    split; [intros [Hw ->]; auto|intros [[= ->] Hw]; auto].
  - split; [discriminate|intros [H _]; discriminate].
Qed.

(** One entry of [limit_days] sets [day_matched_limit] exactly when the
    filter it names is satisfied. *)
Lemma limit_matches_spec (info : HolidayDateDB) (c : datetime) (limit_type_str : string) :
  limit_matches info c limit_type_str = true
  <-> satisfies_filter (Str.upper limit_type_str) info c.
Proof.
  unfold limit_matches, satisfies_filter.
  rewrite !orb_true_iff, !andb_true_iff, !String.eqb_eq, !Z.leb_le.
  rewrite is_workday_spec, is_holiday_spec, is_weekend_spec.
  tauto.
Qed.

Lemma day_matched_limit_spec (cfg : CronConfig) (info : HolidayDateDB) (c : datetime) :
  day_matched_limit cfg info c = true
  <-> exists f, In f (limit_days_list cfg) /\ satisfies_filter (Str.upper f) info c.
Proof.
  unfold day_matched_limit. rewrite existsb_exists.
  split; intros (f & Hin & Hf); exists f; (split; [exact Hin|]);
    apply limit_matches_spec; exact Hf.
Qed.

(** What it takes for the body to accept a candidate of a filtered rule. *)
Lemma examine_accepts_filtered {cron : Croniter} {lunar : LunarCalendar}
    (cfg : CronConfig) (getter : Z -> list HolidayDateDB) (c t : datetime) :
  has_limit_days cfg = true ->
  examine cfg getter c = Return (Some t, PENDING) ->
  t = c
  /\ exists info,
      find_day (getter (datetime.year c)) (datetime.strftime_Ymd c) = Some info
      /\ day_matched_limit cfg info c = true.
Proof.
  intros Hlim. unfold examine.
  destruct (match end_time cfg with Some e => c >? e | None => false end);
    [discriminate|].
  destruct (match start_time cfg with Some s => c <? s | None => false end);
    [discriminate|].
  unfold calendar_stage. rewrite Hlim.
  destruct (getter (datetime.year c)) as [|d l]; [discriminate|].
  destruct (find_day (d :: l) (datetime.strftime_Ymd c)) as [info|]; [|discriminate].
  destruct (lunar_stage cfg c) as [[|r]|] eqn:Elun.
  - discriminate.
  - apply lunar_stage_returns in Elun. subst r. discriminate.
  - unfold limit_stage. rewrite Hlim.
    destruct (day_matched_limit cfg info c) eqn:Em; simpl; [|discriminate].
    intros [= <-]. split; [reflexivity|]. exists info. auto.
Qed.

(** C3.  With a non-empty day-type filter, a candidate is accepted only if
    the calendar has a record for its date and that record satisfies one of
    the listed filters - WORKDAY: day type workday (0); HOLIDAY: day type
    rest day (1) or legal holiday (2); WEEKEND: day type rest day and weekday
    6 or 7; WEEKDAY_ONLY: ISO weekday 1..5 of the candidate itself.  A
    candidate that reaches the filter and satisfies none of the listed
    filters is skipped: the body says [continue] and the search goes on from
    it with one attempt fewer. *)
Theorem C3_day_type_filter {cron : Croniter} {lunar : LunarCalendar}
    (cfg : CronConfig) (base : datetime) (getter : Z -> list HolidayDateDB) (n : nat) :
  has_limit_days cfg = true ->
  (forall t,
      get_next_cron_run_time cfg base getter n = Returned (Some t, PENDING) ->
      exists info,
        find_day (getter (datetime.year t)) (datetime.strftime_Ymd t) = Some info
        /\ exists f, In f (limit_days_list cfg)
                     /\ satisfies_filter (Str.upper f) info t)
  /\ (forall cur c info,
         croniter_get_next (cron_expression cfg) cur = Some c ->
         in_validity_window cfg c = true ->
         find_day (getter (datetime.year c)) (datetime.strftime_Ymd c) = Some info ->
         lunar_stage cfg c = None ->
         (forall f, In f (limit_days_list cfg) -> ~ satisfies_filter (Str.upper f) info c) ->
         examine cfg getter c = Continue
         /\ forall m, search cfg getter (S m) cur
                      = (fst (search cfg getter m c), c :: snd (search cfg getter m c))).
Proof.
  intros Hlim. split.
  - intros t. rewrite get_next_unfold.
    destruct (clamp_base cfg base) as [base'|e]; [|discriminate].
    destruct (croniter_accepts _); [|discriminate].
    intros [= Hres].
    destruct (search_result cfg getter n base') as [F|[c [_ Hex] ] ];
      [congruence|].
    rewrite Hres in Hex.
    apply (examine_accepts_filtered cfg getter c t Hlim) in Hex.
    destruct Hex as (-> & info & Hfind & Hmatch).
    exists info. split; [exact Hfind|]. apply day_matched_limit_spec, Hmatch.
  - intros cur c info Hnext Hwin Hfind Hlun Hnone.
    assert (Hex : examine cfg getter c = Continue).
    { unfold examine.
      destruct (in_validity_window_checks cfg c Hwin) as [-> ->].
      unfold calendar_stage. rewrite Hlim.
      destruct (getter (datetime.year c)) as [|d l]; [discriminate|].
      rewrite Hfind, Hlun. unfold limit_stage. rewrite Hlim.
      destruct (day_matched_limit cfg info c) eqn:Em; [|reflexivity].
      apply day_matched_limit_spec in Em. destruct Em as (f & Hin & Hf).
      exfalso. exact (Hnone f Hin Hf). }
    split; [exact Hex|].
    intros m. rewrite search_unfold, Hnext, Hex. reflexivity.
Qed.

Lemma C3_day_type_filter_witness :
  get_next_cron_run_time (cron := Samples.daily_noon)
    (lunar := Samples.lunar_new_year_2025)
    Samples.workday_rule Samples.new_year_morning Samples.usual_week
    max_attempts_default
  = Returned (Some (datetime.make 2025 1 2 12 0 0), PENDING)
  /\ (exists info,
         find_day (Samples.usual_week 2025) "2025-01-02" = Some info
         /\ exists f, In f ["WORKDAY"%string]
                      /\ satisfies_filter (Str.upper f) info (datetime.make 2025 1 2 12 0 0))
  /\ examine (lunar := Samples.lunar_new_year_2025)
       Samples.workday_rule Samples.usual_week (datetime.make 2025 1 1 12 0 0)
     = Continue.
Proof.
  pose proof (C3_day_type_filter (cron := Samples.daily_noon)
                (lunar := Samples.lunar_new_year_2025)
                Samples.workday_rule Samples.new_year_morning Samples.usual_week
                max_attempts_default eq_refl) as [Haccept Hskip].
  assert (Hrun : get_next_cron_run_time (cron := Samples.daily_noon)
                   (lunar := Samples.lunar_new_year_2025)
                   Samples.workday_rule Samples.new_year_morning Samples.usual_week
                   max_attempts_default
                 = Returned (Some (datetime.make 2025 1 2 12 0 0), PENDING))
    by (vm_compute; reflexivity).
  split; [exact Hrun|]. split.
  - exact (Haccept _ Hrun).
  - apply (Hskip Samples.new_year_morning (datetime.make 2025 1 1 12 0 0)
             (Samples.calendar_day (fun _ => Some 2) (datetime.ymd2ord 2025 1 1))).
    + reflexivity.
    + reflexivity.
    + vm_compute. reflexivity.
    + reflexivity.
    + intros f [<- | [] ] Hsat. vm_compute in Hsat.
      destruct Hsat as [ [_ H] | [ [H _] | [ [H _] | [H _] ] ] ]; discriminate.
Defined.

(** ** The bound on the search *)

Lemma all_skipped_by_evaluation {lunar : LunarCalendar}
    (cfg : CronConfig) (getter : Z -> list HolidayDateDB) (l : list datetime) :
  forallb (fun c => is_continue (examine cfg getter c)) l = true ->
  Forall (fun c => examine cfg getter c = Continue) l.
Proof.
  intros H. apply List.Forall_forall. intros c Hin.
  rewrite forallb_forall in H. specialize (H c Hin).
  destruct (examine cfg getter c); [reflexivity|discriminate].
Qed.

(** C4.  The search draws at most [max_attempts] candidates, 732 by default
    ([366 * 2]); the loop recurses on the attempts left, so it always ends.
    When every candidate drawn was skipped - the bound is exhausted, or
    croniter stops yielding - a call that returns gives no trigger instant
    and status FAILED. *)
Theorem C4_bounded_search {cron : Croniter} {lunar : LunarCalendar}
    (cfg : CronConfig) (base : datetime) (getter : Z -> list HolidayDateDB)
    (n : nat) :
  max_attempts_default = 732%nat
  /\ (length (candidates_drawn cfg base getter n) <= n)%nat
  /\ (forall base',
         clamp_base cfg base = Returned base' ->
         Forall (fun c => examine cfg getter c = Continue)
                (candidates_drawn cfg base getter n) ->
         get_next_cron_run_time cfg base getter n = Returned (None, FAILED)).
Proof.
  split; [reflexivity|].
  unfold candidates_drawn. rewrite get_next_unfold.
  destruct (clamp_base cfg base) as [b|e].
  - destruct (croniter_accepts (cron_expression cfg)).
    + split; [apply search_length|].
      intros base' _ Hskipped. f_equal. apply search_all_skipped, Hskipped.
    + split; [simpl; lia|reflexivity].
  - split; [simpl; lia|discriminate].
Qed.

Lemma C4_bounded_search_witness :
  length (candidates_drawn (cron := Samples.daily_noon)
            (lunar := Samples.lunar_new_year_2025)
            Samples.holiday_rule Samples.new_year_morning Samples.only_workdays 7)
  = 7%nat
  /\ get_next_cron_run_time (cron := Samples.daily_noon)
       (lunar := Samples.lunar_new_year_2025)
       Samples.holiday_rule Samples.new_year_morning Samples.only_workdays 7
     = Returned (None, FAILED).
Proof.
  split; [vm_compute; reflexivity|].
  destruct (C4_bounded_search (cron := Samples.daily_noon)
              (lunar := Samples.lunar_new_year_2025)
              Samples.holiday_rule Samples.new_year_morning
              Samples.only_workdays 7) as (_ & _ & Hexhausted).
  apply (Hexhausted Samples.new_year_morning).
  - reflexivity.
  - apply all_skipped_by_evaluation. vm_compute. reflexivity.
Defined.

(** ** The live timer map *)

Lemma filter_key_absent {V : Type} (k : string) (l : list (string * V)) :
  k ∉ l.*1 -> filter (fun kv => kv.1 = k) l = [].
Proof.
  induction l as [|[k' v'] l IH]; intros Hnot; [reflexivity|].
  rewrite fmap_cons, not_elem_of_cons in Hnot. destruct Hnot as [Hne Hnot].
  rewrite filter_cons. simpl in *.
  destruct (decide (k' = k)); [congruence|]. apply IH, Hnot.
Qed.

Lemma filter_key_unique {V : Type} (k : string) (v : V) (l : list (string * V)) :
  NoDup (l.*1) -> (k, v) ∈ l -> filter (fun kv => kv.1 = k) l = [(k, v)].
Proof.
  induction l as [|[k' v'] l IH]; intros Hnodup Hin.
  - apply elem_of_nil in Hin. contradiction.
  - rewrite fmap_cons in Hnodup. apply NoDup_cons in Hnodup as [Hfresh Hnodup].
    rewrite filter_cons. simpl in *.
    apply elem_of_cons in Hin. destruct (decide (k' = k)) as [->|Hne].
    + destruct Hin as [[= ->]|Hin].
      * f_equal. apply filter_key_absent, Hfresh.
      * exfalso. apply Hfresh. apply list_elem_of_fmap. exists (k, v). auto.
    + destruct Hin as [[= -> ->]|Hin]; [congruence|]. apply IH; assumption.
Qed.

Lemma timers_of_lookup (task_id : string) (job : Job) (timers : gmap string Job) :
  timers !! task_id = Some job -> timers_of task_id timers = [job].
Proof.
  intros Hlook. unfold timers_of.
  rewrite (filter_key_unique task_id job).
  - reflexivity.
  - apply NoDup_fst_map_to_list.
  - apply elem_of_map_to_list, Hlook.
Qed.

(** C9.  Arming is an idempotent upsert on the live timer map: arming twice
    for the same task, with the same trigger, leaves the map as one arming
    does, with exactly one timer under the task's identifier - the one just
    armed, whatever timer was there before - and the timers of other tasks
    untouched. *)
Theorem C9_arm_is_idempotent_upsert (task : tasks.ReminderTaskDB) (t : datetime)
    (timers : gmap string Job) :
  tasks.next_trigger_time task = Some t ->
  add_or_update_job_in_scheduler task (add_or_update_job_in_scheduler task timers)
  = add_or_update_job_in_scheduler task timers
  /\ timers_of (tasks.id task)
       (add_or_update_job_in_scheduler task (add_or_update_job_in_scheduler task timers))
     = [job_of task t]
  /\ timers_of (tasks.id task) (add_or_update_job_in_scheduler task timers)
     = [job_of task t]
  /\ (forall other, other <> tasks.id task ->
        add_or_update_job_in_scheduler task (add_or_update_job_in_scheduler task timers)
          !! other
        = timers !! other).
Proof.
  intros Hnext. unfold add_or_update_job_in_scheduler. rewrite Hnext.
  fold (job_of task t). rewrite insert_insert_eq.
  split; [reflexivity|]. split; [|split].
  - apply timers_of_lookup, lookup_insert_eq.
  - apply timers_of_lookup, lookup_insert_eq.
  - intros other Hother. apply lookup_insert_ne. congruence.
Qed.

Lemma C9_arm_is_idempotent_upsert_witness :
  timers_of "task-1"
    (add_or_update_job_in_scheduler
       (Samples.plants_row PENDING (Some (datetime.make 2025 1 2 12 0 0)))
       (add_or_update_job_in_scheduler
          (Samples.plants_row PENDING (Some (datetime.make 2025 1 2 12 0 0)))
          {[ "task-1"%string := Samples.plants_job (datetime.make 2025 1 1 12 0 0) ]}))
  = [Samples.plants_job (datetime.make 2025 1 2 12 0 0)].
Proof.
  exact (proj1 (proj2 (C9_arm_is_idempotent_upsert
           (Samples.plants_row PENDING (Some (datetime.make 2025 1 2 12 0 0)))
           (datetime.make 2025 1 2 12 0 0)
           {[ "task-1"%string := Samples.plants_job (datetime.make 2025 1 1 12 0 0) ]}
           eq_refl))).
Defined.

(** ** A timer fires *)

Lemma remove_job_lookup (task_id : string) (timers : gmap string Job) :
  remove_job_from_scheduler task_id timers !! task_id = None
  /\ forall other, other <> task_id ->
       remove_job_from_scheduler task_id timers !! other = timers !! other.
Proof.
  unfold remove_job_from_scheduler.
  destruct (timers !! task_id) eqn:E.
  - split; [apply lookup_delete_eq|].
    intros other Hother. apply lookup_delete_ne. congruence.
  - split; [exact E|reflexivity].
Qed.

(** C8.  When the task loaded on a timer fire is neither PENDING nor
    RUNNING, execution is skipped - nothing is committed, nothing is sent,
    no other timer is touched - and no timer is left under the task's
    identifier.  A timer that has fired is a date job, which APScheduler
    takes out of its job store when it hands the run to the executor, so the
    callback starts with no job under the identifier; the code for its part
    calls [remove_job_from_scheduler] when the task has no next trigger
    time, whatever the store holds. *)
Theorem C8_stale_fire_is_skipped {cron : Croniter} {lunar : LunarCalendar}
    (ext : Collaborators) (task_id : string) (w : World) (task : tasks.ReminderTaskDB) :
  rows w !! task_id = Some task ->
  fireable (tasks.status task) = false ->
  rows (execute_task_by_id ext task_id w) = rows w
  /\ commits (execute_task_by_id ext task_id w) = commits w
  /\ outbox (execute_task_by_id ext task_id w) = outbox w
  /\ (forall other, other <> task_id ->
        jobs (execute_task_by_id ext task_id w) !! other = jobs w !! other)
  /\ (jobs w !! task_id = None ->
      jobs (execute_task_by_id ext task_id w) !! task_id = None)
  /\ (tasks.next_trigger_time task = None ->
      jobs (execute_task_by_id ext task_id w) !! task_id = None).
Proof.
  intros Hrow Hstale. unfold execute_task_by_id. rewrite Hrow, Hstale. simpl.
  destruct (tasks.next_trigger_time task) as [t|]; simpl.
  - split; [reflexivity|]. split; [reflexivity|]. split; [reflexivity|].
    split; [reflexivity|]. split; [intros H; exact H|discriminate].
  - split; [reflexivity|]. split; [reflexivity|]. split; [reflexivity|].
    split; [apply remove_job_lookup|].
    split; intros _; apply remove_job_lookup.
Qed.

Lemma C8_stale_fire_is_skipped_witness :
  jobs (execute_task_by_id (cron := Samples.daily_noon)
          (lunar := Samples.lunar_new_year_2025)
          (Samples.unreachable_senders (datetime.make 2025 1 1 12 0 1)) "task-1"
          (Samples.world_of
             (Samples.plants_row FAILED (Some (datetime.make 2025 1 1 12 0 0))) ∅))
    !! "task-1"%string
  = None
  /\ jobs (execute_task_by_id (cron := Samples.daily_noon)
             (lunar := Samples.lunar_new_year_2025)
             (Samples.unreachable_senders (datetime.make 2025 1 1 12 0 1)) "task-1"
             (Samples.world_of (Samples.plants_row COMPLETED None)
                {[ "task-1"%string :=
                     Samples.plants_job (datetime.make 2025 1 1 12 0 0) ]}))
       !! "task-1"%string
     = None.
Proof.
  split.
  - refine (proj1 (proj2 (proj2 (proj2 (proj2
              (C8_stale_fire_is_skipped (cron := Samples.daily_noon)
                 (lunar := Samples.lunar_new_year_2025)
                 (Samples.unreachable_senders (datetime.make 2025 1 1 12 0 1)) "task-1"
                 (Samples.world_of
                    (Samples.plants_row FAILED (Some (datetime.make 2025 1 1 12 0 0))) ∅)
                 (Samples.plants_row FAILED (Some (datetime.make 2025 1 1 12 0 0)))
                 _ _))))) _);
      vm_compute; reflexivity.
  - refine (proj2 (proj2 (proj2 (proj2 (proj2
              (C8_stale_fire_is_skipped (cron := Samples.daily_noon)
                 (lunar := Samples.lunar_new_year_2025)
                 (Samples.unreachable_senders (datetime.make 2025 1 1 12 0 1)) "task-1"
                 (Samples.world_of (Samples.plants_row COMPLETED None)
                    {[ "task-1"%string :=
                         Samples.plants_job (datetime.make 2025 1 1 12 0 0) ]})
                 (Samples.plants_row COMPLETED None) _ _))))) _);
      vm_compute; reflexivity.
Defined.

(** C7.  A recurring task whose notification could not be sent: the failure
    is committed as status FAILED for this occurrence, the next occurrence is
    computed by [get_next_cron_run_time] from the clock's reading, and its
    result is committed as the task's trigger time and status; when that
    result is a trigger instant with status PENDING, the task is armed again
    in the scheduler at that instant. *)
Theorem C7_failed_send_keeps_recurrence {cron : Croniter} {lunar : LunarCalendar}
    (ext : Collaborators) (task_id : string) (w : World)
    (task : tasks.ReminderTaskDB) (info : schemas.TaskInfo) (cfg : CronConfig)
    (handed : list notification)
    (next : option datetime) (st : TaskStatusEnum) :
  rows w !! task_id = Some task ->
  tasks.id task = task_id ->
  fireable (tasks.status task) = true ->
  tasks.task_info task = Some info ->
  tasks.is_recurring task = true ->
  cron_config info = Some cfg ->
  send_notification ext task_id info = Some (false, handed) ->
  get_next_cron_run_time cfg (now_for_next_calc ext) (holiday_dates_for_year w)
    max_attempts_default = Returned (next, st) ->
  commits (execute_task_by_id ext task_id w)
  = commits w ++ [(task_id, RUNNING, tasks.next_trigger_time task);
                  (task_id, FAILED, tasks.next_trigger_time task);
                  (task_id, st, next)]
  /\ (exists row, rows (execute_task_by_id ext task_id w) !! task_id = Some row
                  /\ tasks.status row = st /\ tasks.next_trigger_time row = next)
  /\ (forall t, next = Some t -> st = PENDING ->
        jobs (execute_task_by_id ext task_id w) = <[ task_id := job_of task t ]> (jobs w)).
Proof.
  intros Hrow Hid Hfire Hinfo Hrec Hcfg Hsend Hnext.
  unfold execute_task_by_id. rewrite Hrow, Hfire. simpl. rewrite Hinfo.
  unfold notify_and_reschedule. rewrite Hsend.
  unfold after_send. simpl. rewrite Hrec, Hcfg, Hnext. simpl.
  assert (Hcommits : forall f w0, commits (with_jobs f w0) = commits w0) by reflexivity.
  assert (Hrows : forall f w0, rows (with_jobs f w0) = rows w0) by reflexivity.
  split; [|split].
  - destruct st, next; rewrite ?Hcommits; simpl; rewrite Hid, <- !app_assoc; reflexivity.
  - eexists. split.
    + destruct st, next; rewrite ?Hrows; simpl; rewrite Hid; apply lookup_insert_eq.
    + split; reflexivity.
  - intros t -> ->. simpl. unfold add_or_update_job_in_scheduler, job_of. simpl.
    rewrite Hid, Hrec. reflexivity.
Qed.

Lemma C7_failed_send_keeps_recurrence_witness :
  commits (execute_task_by_id (cron := Samples.daily_noon)
             (lunar := Samples.lunar_new_year_2025)
             (Samples.unreachable_senders (datetime.make 2025 1 1 12 0 1)) "task-1"
             (Samples.world_of
                (Samples.plants_row PENDING (Some (datetime.make 2025 1 1 12 0 0))) ∅))
  = [("task-1"%string, RUNNING, Some (datetime.make 2025 1 1 12 0 0));
     ("task-1"%string, FAILED, Some (datetime.make 2025 1 1 12 0 0));
     ("task-1"%string, PENDING, Some (datetime.make 2025 1 2 12 0 0))]
  /\ jobs (execute_task_by_id (cron := Samples.daily_noon)
             (lunar := Samples.lunar_new_year_2025)
             (Samples.unreachable_senders (datetime.make 2025 1 1 12 0 1)) "task-1"
             (Samples.world_of
                (Samples.plants_row PENDING (Some (datetime.make 2025 1 1 12 0 0))) ∅))
     = {[ "task-1"%string := Samples.plants_job (datetime.make 2025 1 2 12 0 0) ]}.
Proof.
  destruct (C7_failed_send_keeps_recurrence (cron := Samples.daily_noon)
              (lunar := Samples.lunar_new_year_2025)
              (Samples.unreachable_senders (datetime.make 2025 1 1 12 0 1)) "task-1"
              (Samples.world_of
                 (Samples.plants_row PENDING (Some (datetime.make 2025 1 1 12 0 0))) ∅)
              (Samples.plants_row PENDING (Some (datetime.make 2025 1 1 12 0 0)))
              (Samples.recurring_with Samples.daily_rule) Samples.daily_rule
              [ViaWebhook
                 {| wh_config := {| url := "http://127.0.0.1/hook"; method := "POST" |};
                    wh_base_content := Text "water the plants";
                    wh_final_recipient_id := "wxid_alice";
                    wh_triggering_user_id := Some "wxid_alice"%string;
                    wh_mention_nickname_if_group := None;
                    wh_at_target_user_id_if_group := None;
                    wh_task_name := "water the plants";
                    wh_task_description := None |}]
              (Some (datetime.make 2025 1 2 12 0 0)) PENDING)
    as (Hcommits & _ & Harmed).
  - vm_compute. reflexivity.
  - reflexivity.
  - reflexivity.
  - reflexivity.
  - reflexivity.
  - reflexivity.
  - reflexivity.
  - vm_compute. reflexivity.
  - split; [exact Hcommits|]. exact (Harmed _ eq_refl eq_refl).
Defined.

(** * Further properties of the code *)

(** ** Duration strings *)

Lemma append_cons (c : ascii) (a b : string) :
  append (String c a) b = String c (append a b).
Proof. reflexivity. Qed.

Lemma append_nil_l (b : string) : append EmptyString b = b.
Proof. reflexivity. Qed.

Lemma append_unit (ds : string) (unit : ascii) (rest : string) :
  append (append ds (String unit EmptyString)) rest = append ds (String unit rest).
Proof.
  induction ds as [|a ds IH]; [reflexivity|].
  rewrite !append_cons, IH. reflexivity.
Qed.

Lemma append_empty_r (s : string) : append s EmptyString = s.
Proof.
  induction s as [|a s IH]; [reflexivity|]. rewrite append_cons, IH. reflexivity.
Qed.

Lemma append_associative (a b c : string) :
  append (append a b) c = append a (append b c).
Proof.
  induction a as [|x a IH]; [reflexivity|]. rewrite !append_cons, IH. reflexivity.
Qed.

Lemma span_digits_sound (s : string) :
  s = append (fst (Str.span_digits s)) (snd (Str.span_digits s))
  /\ all_digits (fst (Str.span_digits s)) = true.
Proof.
  induction s as [|c s [IHeq IHd] ]; [split; reflexivity|].
  cbn [Str.span_digits]. destruct (Str.is_digit c) eqn:Ec; [|split; reflexivity].
  destruct (Str.span_digits s) as [ds tl]. cbn [fst snd] in *.
  split; [rewrite append_cons; f_equal; exact IHeq|].
  cbn [all_digits]. rewrite Ec. exact IHd.
Qed.

Lemma span_digits_run (ds : string) (c : ascii) (rest : string) :
  all_digits ds = true -> Str.is_digit c = false ->
  Str.span_digits (append ds (String c rest)) = (ds, String c rest).
Proof.
  intros Hd Hc. induction ds as [|a ds IH].
  - rewrite append_nil_l. cbn [Str.span_digits]. rewrite Hc. reflexivity.
  - cbn [all_digits] in Hd. apply andb_true_iff in Hd as [Ha Hd].
    rewrite append_cons. cbn [Str.span_digits]. rewrite Ha, (IH Hd). reflexivity.
Qed.

Lemma match_unit_sound (unit : ascii) (s : string) (g : option string) (rest : string) :
  match_unit unit s = (g, rest) ->
  s = append (render_unit g unit) rest /\ digit_run g.
Proof.
  unfold match_unit.
  destruct (span_digits_sound s) as [Heq Hd].
  destruct (Str.span_digits s) as [ds tl]. cbn [fst snd] in *.
  destruct ds as [|a ds]; [intros [= <- <-]; split; [reflexivity|exact I] |].
  destruct tl as [|c tl]; [intros [= <- <-]; split; [reflexivity|exact I] |].
  destruct (Ascii.eqb c unit) eqn:Ec; intros [= <- <-].
  - apply Ascii.eqb_eq in Ec. subst c. split.
    + cbn [render_unit]. rewrite append_unit. exact Heq.
    + split; [discriminate|exact Hd].
  - split; [reflexivity|exact I].
Qed.

Lemma match_unit_capture (unit : ascii) (ds rest : string) :
  ds <> EmptyString -> all_digits ds = true -> Str.is_digit unit = false ->
  match_unit unit (append ds (String unit rest)) = (Some ds, rest).
Proof.
  intros Hne Hd Hu. unfold match_unit. rewrite (span_digits_run ds unit rest Hd Hu).
  destruct ds; [contradiction|]. rewrite Ascii.eqb_refl. reflexivity.
Qed.

Lemma match_unit_other (unit other : ascii) (ds rest : string) :
  all_digits ds = true -> Str.is_digit other = false -> other <> unit ->
  match_unit unit (append ds (String other rest))
  = (None, append ds (String other rest)).
Proof.
  intros Hd Ho Hne. unfold match_unit. rewrite (span_digits_run ds other rest Hd Ho).
  destruct ds; [reflexivity|].
  destruct (Ascii.eqb other unit) eqn:E; [apply Ascii.eqb_eq in E; contradiction|].
  reflexivity.
Qed.

Lemma match_unit_end (unit : ascii) : match_unit unit EmptyString = (None, EmptyString).
Proof. reflexivity. Qed.

(** A duration written as digits and unit letters, units in the order
    d, h, m, s and each at most once, is matched by the pattern with exactly
    those captures. *)
Lemma match_duration_complete (d h m s : option string) :
  digit_run d -> digit_run h -> digit_run m -> digit_run s ->
  match_duration (render_duration d h m s) = Some (d, h, m, s).
Proof.
  intros Hd Hh Hm Hs. unfold match_duration, render_duration.
  destruct d as [d|], h as [h|], m as [m|], s as [s|]; cbn [render_unit];
    repeat match goal with
           | H : digit_run (Some _) |- _ => destruct H
           | H : digit_run None |- _ => clear H
           end;
    rewrite ?append_unit, ?append_empty_r, ?append_nil_l;
    repeat first
      [ rewrite match_unit_capture by (assumption || reflexivity)
      | rewrite match_unit_other by (assumption || reflexivity || discriminate)
      | rewrite match_unit_end ];
    reflexivity.
Qed.

Lemma map_chars_append (f : ascii -> ascii) (a b : string) :
  Str.map_chars f (append a b) = append (Str.map_chars f a) (Str.map_chars f b).
Proof.
  induction a as [|c a IH]; [reflexivity|].
  rewrite append_cons. cbn [Str.map_chars]. rewrite IH. reflexivity.
Qed.

Lemma lower_digit (c : ascii) : Str.is_digit c = true -> Str.lower_char c = c.
Proof.
  destruct c as [ [] [] [] [] [] [] [] [] ]; intros H; try reflexivity; discriminate H.
Qed.

Lemma lower_all_digits (ds : string) : all_digits ds = true -> Str.lower ds = ds.
Proof.
  induction ds as [|c ds IH]; [reflexivity|].
  cbn [all_digits]. intros H. apply andb_true_iff in H as [Hc Hd].
  unfold Str.lower in *. cbn [Str.map_chars]. rewrite (lower_digit c Hc), (IH Hd).
  reflexivity.
Qed.

Lemma lower_render_unit (g : option string) (unit : ascii) :
  digit_run g -> Str.lower_char unit = unit ->
  Str.lower (render_unit g unit) = render_unit g unit.
Proof.
  destruct g as [ds|]; [|reflexivity]. intros [_ Hd] Hu.
  cbn [render_unit]. unfold Str.lower. rewrite map_chars_append.
  fold (Str.lower ds). rewrite (lower_all_digits ds Hd).
  cbn [Str.map_chars]. rewrite Hu. reflexivity.
Qed.

Lemma lower_render_duration (d h m s : option string) :
  digit_run d -> digit_run h -> digit_run m -> digit_run s ->
  Str.lower (render_duration d h m s) = render_duration d h m s.
Proof.
  intros Hd Hh Hm Hs. unfold render_duration, Str.lower.
  rewrite !map_chars_append. fold Str.lower.
  rewrite !lower_render_unit by (assumption || reflexivity). reflexivity.
Qed.

Lemma lower_char_idempotent (c : ascii) :
  Str.lower_char (Str.lower_char c) = Str.lower_char c.
Proof. destruct c as [ [] [] [] [] [] [] [] [] ]; reflexivity. Qed.

Lemma lower_upper_char (c : ascii) :
  Str.lower_char (Str.upper_char c) = Str.lower_char c.
Proof. destruct c as [ [] [] [] [] [] [] [] [] ]; reflexivity. Qed.

Lemma lower_idempotent (s : string) : Str.lower (Str.lower s) = Str.lower s.
Proof.
  unfold Str.lower. induction s as [|c s IH]; [reflexivity|].
  cbn [Str.map_chars]. rewrite lower_char_idempotent, IH. reflexivity.
Qed.

Lemma lower_upper (s : string) : Str.lower (Str.upper s) = Str.lower s.
Proof.
  unfold Str.lower, Str.upper. induction s as [|c s IH]; [reflexivity|].
  cbn [Str.map_chars]. rewrite lower_upper_char, IH. reflexivity.
Qed.

Lemma digit_value_range (c : ascii) :
  Str.is_digit c = true -> 0 <= Str.digit_value c <= 9.
Proof.
  unfold Str.is_digit, Str.digit_value. intros H.
  apply andb_true_iff in H as [H1 H2]. apply Z.leb_le in H1, H2. lia.
Qed.

Lemma int_acc_nonneg (ds : string) :
  all_digits ds = true -> forall acc, 0 <= acc -> 0 <= Str.int_acc acc ds.
Proof.
  induction ds as [|c ds IH]; intros Hd acc Hacc; [exact Hacc|].
  cbn [all_digits] in Hd. apply andb_true_iff in Hd as [Hc Hd].
  cbn [Str.int_acc]. apply (IH Hd). pose proof (digit_value_range c Hc). lia.
Qed.

Lemma group_int_nonneg (g : option string) : digit_run g -> 0 <= group_int g.
Proof.
  destruct g as [ds|]; [|intros _; simpl; lia].
  intros [_ Hd]. apply int_acc_nonneg; [exact Hd|lia].
Qed.

Lemma make_timedelta_nonneg (d h m s : Z) (delta : timedelta) :
  0 <= d -> 0 <= h -> 0 <= m -> 0 <= s ->
  datetime.make_timedelta d h m s = Returned delta -> 0 <= delta.
Proof.
  intros Hd Hh Hm Hs. unfold datetime.make_timedelta, datetime.US_PER_SECOND.
  destruct (_ >? _); [discriminate|]. intros [= <-]. nia.
Qed.

Lemma match_duration_sound (text : string) (d h m s : option string) :
  match_duration text = Some (d, h, m, s) ->
  digit_run d /\ digit_run h /\ digit_run m /\ digit_run s
  /\ (text = render_duration d h m s
      \/ text = append (render_duration d h m s) newline).
Proof.
  unfold match_duration.
  destruct (match_unit "d" text) as [gd s1] eqn:E1.
  destruct (match_unit "h" s1) as [gh s2] eqn:E2.
  destruct (match_unit "m" s2) as [gm s3] eqn:E3.
  destruct (match_unit "s" s3) as [gs s4] eqn:E4.
  apply match_unit_sound in E1 as [-> H1], E2 as [-> H2], E3 as [-> H3], E4 as [-> H4].
  destruct (String.eqb s4 "" || String.eqb s4 (String (ascii_of_nat 10) EmptyString))%bool
    eqn:Eend; [|discriminate].
  intros [= <- <- <- <-]. repeat (split; [assumption|]).
  apply orb_true_iff in Eend as [Eend|Eend]; apply String.eqb_eq in Eend; subst s4.
  - left. unfold render_duration. rewrite append_empty_r. reflexivity.
  - right. unfold render_duration, newline.
    rewrite !append_associative. reflexivity.
Qed.

Lemma time_param_run (g : option string) :
  digit_run g ->
  time_param g
  = if too_long g then Raised ValueError
    else Returned (match g with Some ds => Some (Str.int_value ds) | None => None end).
Proof.
  destruct g as [ [ | c ds] | ]; [intros [Hne _]; contradiction | | reflexivity].
  intros _. unfold time_param, too_long, Str.int.
  destruct (Str.int_max_str_digits <? String.length (String c ds))%nat; reflexivity.
Qed.

(** what the parser does once the pattern has matched *)
Lemma parse_countdown_duration_matched (text : string) (d h m s : option string) :
  match_duration (Str.lower text) = Some (d, h, m, s) ->
  parse_countdown_duration text
  = if too_long d || too_long h || too_long m || too_long s
    then Raised ValueError
    else match d, h, m, s with
         | None, None, None, None => Raised ValueError
         | _, _, _, _ =>
             datetime.make_timedelta (group_int d) (group_int h) (group_int m)
               (group_int s)
         end.
Proof.
  intros E. unfold parse_countdown_duration. rewrite E.
  destruct (match_duration_sound _ _ _ _ _ E) as (Hd & Hh & Hm & Hs & _).
  rewrite (time_param_run d Hd), (time_param_run h Hh), (time_param_run m Hm),
    (time_param_run s Hs).
  destruct (too_long d); [reflexivity | ].
  destruct (too_long h); [reflexivity | ].
  destruct (too_long m); [reflexivity | ].
  destruct (too_long s); [reflexivity | ].
  destruct d, h, m, s; reflexivity.
Qed.

(** X1.  A duration written as digits and unit letters - units in the order
    d, h, m, s, each at most once, at least one present - parses to the
    [timedelta] of the numbers written; unless one of the numbers has more
    than 4300 digits, on which [int] raises ValueError. *)
Theorem X1_duration_text_parses (d h m s : option string) :
  digit_run d -> digit_run h -> digit_run m -> digit_run s ->
  (d, h, m, s) <> (None, None, None, None) ->
  parse_countdown_duration (render_duration d h m s)
  = if too_long d || too_long h || too_long m || too_long s
    then Raised ValueError
    else datetime.make_timedelta (group_int d) (group_int h) (group_int m) (group_int s).
Proof.
  intros Hd Hh Hm Hs Hsome.
  rewrite (parse_countdown_duration_matched _ d h m s).
  - destruct (too_long d || too_long h || too_long m || too_long s); [reflexivity | ].
    destruct d, h, m, s; try reflexivity. contradiction.
  - rewrite (lower_render_duration d h m s Hd Hh Hm Hs).
    exact (match_duration_complete d h m s Hd Hh Hm Hs).
Qed.

Lemma X1_duration_text_parses_witness :
  parse_countdown_duration "2h30m" = Returned (datetime.seconds 9000).
Proof.
  assert (H2 : digit_run (Some "2"%string)) by (split; [discriminate|reflexivity]).
  assert (H30 : digit_run (Some "30"%string)) by (split; [discriminate|reflexivity]).
  assert (Hsome : (@None string, Some "2"%string, Some "30"%string, @None string)
                  <> (None, None, None, None)) by discriminate.
  pose proof (X1_duration_text_parses None (Some "2"%string) (Some "30"%string) None
                I H2 H30 I Hsome) as H.
  vm_compute in H. vm_compute. exact H.
Defined.

Lemma parsed_duration_shape (text : string) (delta : timedelta) :
  parse_countdown_duration text = Returned delta ->
  exists d h m s,
    digit_run d /\ digit_run h /\ digit_run m /\ digit_run s
    /\ (d, h, m, s) <> (None, None, None, None)
    /\ (Str.lower text = render_duration d h m s
        \/ Str.lower text = append (render_duration d h m s) newline)
    /\ delta = datetime.seconds
                 (((group_int d * 24 + group_int h) * 60 + group_int m) * 60 + group_int s)
    /\ 0 <= delta.
Proof.
  destruct (match_duration (Str.lower text)) as [ [ [ [d h] m] s]|] eqn:E;
    [|unfold parse_countdown_duration; rewrite E; discriminate].
  rewrite (parse_countdown_duration_matched _ _ _ _ _ E).
  destruct (too_long d || too_long h || too_long m || too_long s); [discriminate|].
  intros Hparse. exists d, h, m, s.
  destruct (match_duration_sound _ _ _ _ _ E) as (Hd & Hh & Hm & Hs & Hshape).
  assert (Hmk : datetime.make_timedelta (group_int d) (group_int h) (group_int m)
                  (group_int s) = Returned delta /\ (d, h, m, s) <> (None, None, None, None)).
  { destruct d, h, m, s; try (split; [exact Hparse|discriminate]). discriminate. }
  destruct Hmk as [Hmk Hsome].
  repeat (split; [assumption|]). split.
  - unfold datetime.make_timedelta in Hmk. destruct (_ >? _); [discriminate|].
    injection Hmk as <-. reflexivity.
  - eapply make_timedelta_nonneg; [..|exact Hmk]; apply group_int_nonneg; assumption.
Qed.

(** X2.  Whatever parses is, up to letter case and one final newline, such a
    text: digits and unit letters in the order d, h, m, s with at least one
    unit; the duration returned is the one the numbers spell, and it is
    never negative. *)
Theorem X2_parsed_duration_shape (text : string) (delta : timedelta) :
  parse_countdown_duration text = Returned delta ->
  exists d h m s,
    digit_run d /\ digit_run h /\ digit_run m /\ digit_run s
    /\ (d, h, m, s) <> (None, None, None, None)
    /\ (Str.lower text = render_duration d h m s
        \/ Str.lower text = append (render_duration d h m s) newline)
    /\ delta = datetime.seconds
                 (((group_int d * 24 + group_int h) * 60 + group_int m) * 60 + group_int s)
    /\ 0 <= delta.
Proof. exact (parsed_duration_shape text delta). Qed.

Lemma X2_parsed_duration_shape_witness :
  exists d h m s,
    digit_run d /\ digit_run h /\ digit_run m /\ digit_run s
    /\ (d, h, m, s) <> (None, None, None, None)
    /\ (Str.lower "1D12H" = render_duration d h m s
        \/ Str.lower "1D12H" = append (render_duration d h m s) newline)
    /\ datetime.seconds 129600
       = datetime.seconds
           (((group_int d * 24 + group_int h) * 60 + group_int m) * 60 + group_int s)
    /\ 0 <= datetime.seconds 129600.
Proof.
  apply (X2_parsed_duration_shape "1D12H" (datetime.seconds 129600)).
  vm_compute. reflexivity.
Defined.

(** X3.  On ASCII text parsing ignores letter case: a text, its upper-case
    form and its lower-case form parse alike.  (Beyond ASCII it does not:
    [str.upper] turns the long s, which no unit letter matches, into [S].) *)
Theorem X3_duration_case_insensitive (text : string) :
  Str.is_ascii text = true ->
  parse_countdown_duration (Str.upper text) = parse_countdown_duration text
  /\ parse_countdown_duration (Str.lower text) = parse_countdown_duration text.
Proof.
  intros _. unfold parse_countdown_duration. rewrite lower_upper, lower_idempotent.
  split; reflexivity.
Qed.

Lemma X3_duration_case_insensitive_witness :
  parse_countdown_duration (Str.upper "2H30m") = parse_countdown_duration "2H30m"
  /\ parse_countdown_duration (Str.lower "2H30m") = parse_countdown_duration "2H30m".
Proof. apply (X3_duration_case_insensitive "2H30m"). reflexivity. Defined.

Lemma parsed_duration_nonneg (text : string) (delta : timedelta) :
  parse_countdown_duration text = Returned delta -> 0 <= delta.
Proof.
  intros H. destruct (parsed_duration_shape text delta H)
    as (d & h & m & s & _ & _ & _ & _ & _ & _ & _ & Hnn).
  exact Hnn.
Qed.

(** X4.  A one-shot task with a countdown is never scheduled before now:
    whatever [calculate_initial_trigger_time] returns for it is either a
    trigger at or after the base instant with status PENDING, or no trigger
    with status FAILED. *)
Theorem X4_countdown_never_before_now {cron : Croniter} {lunar : LunarCalendar}
    (task_info : TaskInfoCreate) (duration_str : string)
    (getter : Z -> list HolidayDateDB) (now : datetime)
    (trigger : option datetime) (st : TaskStatusEnum) :
  countdown_task task_info duration_str ->
  calculate_initial_trigger_time task_info getter now = Returned (trigger, st) ->
  (exists t, trigger = Some t /\ st = PENDING /\ now <= t)
  \/ (trigger = None /\ st = FAILED).
Proof.
  intros (Hrec & Hone & Hcd). unfold calculate_initial_trigger_time.
  rewrite Hrec, Hone, Hcd. cbn [countdown_duration].
  destruct (parse_countdown_duration duration_str) as [delta|e] eqn:Eparse.
  - apply parsed_duration_nonneg in Eparse.
    unfold try_except_ValueError, mbind, outcome_bind, datetime.add.
    destruct (datetime.in_range (now + delta)); [|discriminate].
    intros [= <- <-]. left. exists (now + delta). repeat split. lia.
  - destruct e; cbn; [intros [= <- <-]; right; split; reflexivity|discriminate].
Qed.

Lemma X4_countdown_never_before_now_witness :
  (exists t, Some (datetime.make 2025 1 1 10 0 0) = Some t /\ PENDING = PENDING
             /\ Samples.new_year_morning <= t)
  \/ (Some (datetime.make 2025 1 1 10 0 0) = None /\ PENDING = FAILED).
Proof.
  apply (X4_countdown_never_before_now (cron := Samples.daily_noon)
           (lunar := Samples.lunar_new_year_2025)
           (Samples.countdown_of "30m") "30m" Samples.no_calendar
           Samples.new_year_morning).
  - repeat split.
  - vm_compute. reflexivity.
Defined.

Lemma lower_char_newline (c : ascii) :
  Str.lower_char c = ascii_of_nat 10 -> c = ascii_of_nat 10.
Proof.
  destruct c as [ [] [] [] [] [] [] [] [] ]; intros H; try reflexivity; discriminate H.
Qed.

Lemma lower_empty (v : string) : Str.lower v = EmptyString -> v = EmptyString.
Proof. destruct v; [reflexivity|discriminate]. Qed.

Lemma lower_newline (v : string) : Str.lower v = newline -> v = newline.
Proof.
  destruct v as [|c v]; [discriminate|].
  unfold Str.lower, newline. cbn [Str.map_chars]. intros [= Hc Hv].
  apply lower_char_newline in Hc. apply lower_empty in Hv. subst. reflexivity.
Qed.

Lemma make_timedelta_not_ValueError (d h m s : Z) :
  datetime.make_timedelta d h m s <> Raised ValueError.
Proof. unfold datetime.make_timedelta. destruct (_ >? _); discriminate. Qed.

Lemma length_append (a b : string) :
  String.length (append a b) = (String.length a + String.length b)%nat.
Proof.
  induction a as [|c a IH]; [reflexivity|].
  rewrite append_cons. cbn [String.length]. rewrite IH. reflexivity.
Qed.

Lemma length_lower (text : string) : String.length (Str.lower text) = String.length text.
Proof.
  unfold Str.lower. induction text as [|c text IH]; [reflexivity|].
  cbn [Str.map_chars String.length]. rewrite IH. reflexivity.
Qed.

Lemma too_long_render_unit (g : option string) (unit : ascii) :
  too_long g = true ->
  (Str.int_max_str_digits < String.length (render_unit g unit))%nat.
Proof.
  destruct g as [ds|]; [|discriminate]. cbn [too_long render_unit].
  intros H. apply Nat.ltb_lt in H. rewrite length_append. lia.
Qed.

(** a text with an over-long number is itself longer than the limit *)
Lemma too_long_text (text : string) (d h m s : option string) :
  match_duration text = Some (d, h, m, s) ->
  too_long d || too_long h || too_long m || too_long s = true ->
  (Str.int_max_str_digits < String.length text)%nat.
Proof.
  intros E Hlong.
  destruct (match_duration_sound _ _ _ _ _ E) as (_ & _ & _ & _ & Hshape).
  assert (Hrender : (Str.int_max_str_digits
                     < String.length (render_duration d h m s))%nat).
  { unfold render_duration. rewrite !length_append.
    apply orb_true_iff in Hlong as [Hlong|Hs].
    - apply orb_true_iff in Hlong as [Hlong|Hm].
      + apply orb_true_iff in Hlong as [Hd|Hh].
        * pose proof (too_long_render_unit d "d" Hd). lia.
        * pose proof (too_long_render_unit h "h" Hh). lia.
      + pose proof (too_long_render_unit m "m" Hm). lia.
    - pose proof (too_long_render_unit s "s" Hs). lia. }
  destruct Hshape as [-> | ->]; [exact Hrender|].
  rewrite length_append. lia.
Qed.

(** X5.  The schema's check on a countdown string and the parser use the
    same pattern, yet the check lets through strings the parser refuses: of
    the strings [check_countdown_duration_format] accepts, the parser raises
    ValueError on a lone newline and on those in which a number has more
    than 4300 digits, and on no other; among the accepted strings of at most
    4300 characters, on the lone newline only. *)
Theorem X5_validated_duration_parses (v v' : string) :
  check_countdown_duration_format v = Returned v' ->
  v' = v
  /\ (parse_countdown_duration v = Raised ValueError
      <-> v = newline
          \/ exists d h m s,
               match_duration (Str.lower v) = Some (d, h, m, s)
               /\ too_long d || too_long h || too_long m || too_long s = true)
  /\ ((String.length v <= Str.int_max_str_digits)%nat ->
      (parse_countdown_duration v = Raised ValueError <-> v = newline)).
Proof.
  unfold check_countdown_duration_format.
  destruct (match_duration (Str.lower v)) as [ [ [ [d h] m] s]|] eqn:E; [|discriminate].
  destruct (String.eqb v "") eqn:Ev; [discriminate|].
  intros [= <-]. split; [reflexivity|].
  apply String.eqb_neq in Ev.
  destruct (match_duration_sound _ _ _ _ _ E) as (_ & _ & _ & _ & Hshape).
  assert (Hiff : parse_countdown_duration v = Raised ValueError
                 <-> v = newline
                     \/ too_long d || too_long h || too_long m || too_long s = true).
  { rewrite (parse_countdown_duration_matched _ _ _ _ _ E).
    destruct (too_long d || too_long h || too_long m || too_long s) eqn:Elong.
    - split; [intros _; right; reflexivity|reflexivity].
    - split.
      + intros Hraise. left.
        assert (Hnone : (d, h, m, s) = (None, None, None, None)).
        { destruct d, h, m, s; try reflexivity;
            exfalso; exact (make_timedelta_not_ValueError _ _ _ _ Hraise). }
        injection Hnone as -> -> -> ->.
        destruct Hshape as [Hs|Hs].
        * apply lower_empty in Hs. contradiction.
        * apply lower_newline. exact Hs.
      + intros [-> | Hlong]; [|discriminate].
        vm_compute in E. injection E as <- <- <- <-. reflexivity. }
  split.
  - rewrite Hiff. split.
    + intros [Hnl | Hlong]; [left; exact Hnl|].
      right. exists d, h, m, s. split; [reflexivity|exact Hlong].
    + intros [Hnl | (d' & h' & m' & s' & [= <- <- <- <-] & Hlong) ];
        [left; exact Hnl|right; exact Hlong].
  - intros Hshort. rewrite Hiff. split; [|intros ->; left; reflexivity].
    intros [Hnl | Hlong]; [exact Hnl|].
    pose proof (too_long_text _ _ _ _ _ E Hlong) as Hlen.
    rewrite length_lower in Hlen. lia.
Qed.

Lemma X5_validated_duration_parses_witness :
  parse_countdown_duration newline = Raised ValueError
  /\ parse_countdown_duration Scenes.over_long_duration = Raised ValueError
  /\ parse_countdown_duration "30m" <> Raised ValueError.
Proof.
  split; [|split].
  - apply (proj1 (proj2 (X5_validated_duration_parses newline newline eq_refl))).
    left. reflexivity.
  - assert (Hok : check_countdown_duration_format Scenes.over_long_duration
                  = Returned Scenes.over_long_duration) by (vm_compute; reflexivity).
    apply (proj1 (proj2 (X5_validated_duration_parses _ _ Hok))).
    right. exists (Some (repeat_char "1" 4301)), None, None, None.
    split; vm_compute; reflexivity.
  - intros Hraise.
    assert (Hshort : (String.length "30m" <= Str.int_max_str_digits)%nat)
      by (vm_compute; repeat constructor).
    apply (proj2 (proj2 (X5_validated_duration_parses "30m" "30m" eq_refl)) Hshort)
      in Hraise.
    discriminate Hraise.
Defined.

Lemma get_next_raises_overflow_only {cron : Croniter} {lunar : LunarCalendar}
    (cfg : CronConfig) (base : datetime) (getter : Z -> list HolidayDateDB) (n : nat)
    (e : exn) :
  get_next_cron_run_time cfg base getter n = Raised e -> e = OverflowError.
Proof.
  rewrite get_next_unfold. unfold clamp_base, datetime.sub, datetime.add.
  destruct (start_time cfg) as [start|].
  - destruct (base <? start).
    + destruct (datetime.in_range _).
      * destruct (croniter_accepts _); discriminate.
      * intros [= <-]. reflexivity.
    + destruct (croniter_accepts _); discriminate.
  - destruct (croniter_accepts _); discriminate.
Qed.

(** X6.  A task configuration that passes
    [check_task_type_and_schedule_config] never makes
    [calculate_initial_trigger_time] raise ValueError: its two
    "missing configuration" errors are out of reach, and a malformed countdown
    comes back as (None, FAILED).  (An OverflowError, from a date past year
    9999, can still come out.) *)
Theorem X6_validated_task_no_ValueError {cron : Croniter} {lunar : LunarCalendar}
    (task_info validated : schemas.TaskInfoBase)
    (getter : Z -> list HolidayDateDB) (now : datetime) :
  check_task_type_and_schedule_config task_info = Returned validated ->
  validated = task_info
  /\ calculate_initial_trigger_time task_info getter now <> Raised ValueError.
Proof.
  unfold check_task_type_and_schedule_config, calculate_initial_trigger_time.
  destruct (schemas.is_recurring task_info).
  - destruct (cron_config task_info) as [cfg|]; [|discriminate].
    destruct (countdown_config task_info); [discriminate|].
    destruct (one_time_specific_config task_info); [discriminate|].
    intros [= <-]. split; [reflexivity|].
    intros Hraise. apply get_next_raises_overflow_only in Hraise. discriminate.
  - destruct (cron_config task_info); [discriminate|].
    destruct (countdown_config task_info) as [cd|],
             (one_time_specific_config task_info) as [ot|]; try discriminate;
      intros [= <-]; (split; [reflexivity|]).
    + unfold try_except_ValueError, mbind, outcome_bind, datetime.add.
      destruct (parse_countdown_duration (countdown_duration cd)) as [delta|[|] ];
        [destruct (datetime.in_range _)| |]; discriminate.
    + unfold mbind, outcome_bind, datetime.add.
      destruct (trigger_at ot <=? now); [|discriminate].
      destruct (datetime.in_range _); discriminate.
Qed.

Lemma X6_validated_task_no_ValueError_witness :
  calculate_initial_trigger_time (cron := Samples.daily_noon)
    (lunar := Samples.lunar_new_year_2025)
    (Samples.countdown_of "soon") Samples.no_calendar Samples.new_year_morning
  <> Raised ValueError.
Proof.
  apply (X6_validated_task_no_ValueError (cron := Samples.daily_noon)
           (lunar := Samples.lunar_new_year_2025)
           (Samples.countdown_of "soon") (Samples.countdown_of "soon")
           Samples.no_calendar Samples.new_year_morning).
  reflexivity.
Defined.

(** ** The recurring search: what a result tells *)

Lemma in_validity_window_bounds (cfg : CronConfig) (c : datetime) :
  in_validity_window cfg c = true <->
  (forall start, start_time cfg = Some start -> start <= c)
  /\ (forall stop, end_time cfg = Some stop -> c <= stop).
Proof.
  unfold in_validity_window. rewrite andb_true_iff.
  destruct (end_time cfg) as [stop|], (start_time cfg) as [start|];
    rewrite ?negb_true_iff, ?Z.gtb_ltb, ?Z.ltb_ge; split.
  - intros [H1 H2]. split; intros x [= <-]; assumption.
  - intros [H1 H2]. split; [apply H2|apply H1]; reflexivity.
  - intros [H1 _]. split; [discriminate|intros x [= <-]; assumption].
  - intros [_ H2]. split; [apply H2|]; reflexivity.
  - intros [_ H2]. split; [intros x [= <-]; assumption|discriminate].
  - intros [H1 _]. split; [reflexivity|apply H1; reflexivity].
  - intros _. split; discriminate.
  - intros _. split; reflexivity.
Qed.

(** The body hands back a trigger only for the candidate itself, inside the
    validity window. *)
Lemma examine_trigger {lunar : LunarCalendar}
    (cfg : CronConfig) (getter : Z -> list HolidayDateDB) (c t : datetime)
    (st : TaskStatusEnum) :
  examine cfg getter c = Return (Some t, st) ->
  t = c /\ in_validity_window cfg c = true.
Proof.
  unfold examine, in_validity_window.
  destruct (match end_time cfg with Some e => c >? e | None => false end) eqn:Eend;
    [discriminate|].
  destruct (match start_time cfg with Some s => c <? s | None => false end) eqn:Estart;
    [discriminate|].
  intros H.
  assert (Hwin : (match end_time cfg with Some e => negb (c >? e) | None => true end
                  && match start_time cfg with Some s => negb (c <? s) | None => true end)
                 = true).
  { destruct (end_time cfg), (start_time cfg); rewrite ?Eend, ?Estart; reflexivity. }
  split; [|exact Hwin].
  destruct (calendar_stage cfg getter c) as [r0|info] eqn:Ecal.
  - injection H as ->. apply calendar_stage_returns in Ecal. congruence.
  - destruct (lunar_stage cfg c) as [ [|r1]|] eqn:Elun.
    + discriminate.
    + injection H as ->. apply lunar_stage_returns in Elun. discriminate.
    + apply limit_stage_returns in H. destruct H; congruence.
Qed.

Lemma examine_completed {lunar : LunarCalendar}
    (cfg : CronConfig) (getter : Z -> list HolidayDateDB) (c : datetime)
    (trigger : option datetime) :
  examine cfg getter c = Return (trigger, COMPLETED)
  <-> trigger = None /\ exists stop, end_time cfg = Some stop /\ stop < c.
Proof.
  unfold examine. split.
  - destruct (end_time cfg) as [stop|].
    + destruct (c >? stop) eqn:Ecmp.
      * intros [= <-]. split; [reflexivity|]. exists stop.
        split; [reflexivity|]. apply Z.gtb_lt in Ecmp. exact Ecmp.
      * destruct (match start_time cfg with Some s => c <? s | None => false end);
          [discriminate|].
        destruct (calendar_stage cfg getter c) as [r0|info] eqn:Ecal.
        -- intros [= ->]. apply calendar_stage_returns in Ecal. discriminate.
        -- destruct (lunar_stage cfg c) as [ [|r1]|] eqn:Elun.
           ++ discriminate.
           ++ intros [= ->]. apply lunar_stage_returns in Elun. discriminate.
           ++ intros H. apply limit_stage_returns in H. destruct H; discriminate.
    + destruct (match start_time cfg with Some s => c <? s | None => false end);
        [discriminate|].
      destruct (calendar_stage cfg getter c) as [r0|info] eqn:Ecal.
      * intros [= ->]. apply calendar_stage_returns in Ecal. discriminate.
      * destruct (lunar_stage cfg c) as [ [|r1]|] eqn:Elun.
        -- discriminate.
        -- intros [= ->]. apply lunar_stage_returns in Elun. discriminate.
        -- intros H. apply limit_stage_returns in H. destruct H; discriminate.
  - intros (-> & stop & -> & Hlt). apply Z.gtb_lt in Hlt. rewrite Hlt. reflexivity.
Qed.

(** The trace of a search: every candidate but the last was skipped, and the
    last one decided the result - unless all were skipped. *)
Lemma search_trace {cron : Croniter} {lunar : LunarCalendar}
    (cfg : CronConfig) (getter : Z -> list HolidayDateDB) (n : nat) :
  forall cur,
    (fst (search cfg getter n cur) = (None, FAILED)
     /\ Forall (fun c => examine cfg getter c = Continue) (snd (search cfg getter n cur)))
    \/ exists skipped c,
        snd (search cfg getter n cur) = skipped ++ [c]
        /\ Forall (fun c' => examine cfg getter c' = Continue) skipped
        /\ examine cfg getter c = Return (fst (search cfg getter n cur)).
Proof.
  induction n as [|n IH]; intros cur.
  - left. split; [reflexivity|constructor].
  - rewrite search_unfold.
    destruct (croniter_get_next _ cur) as [c|]; [|left; split; [reflexivity|constructor] ].
    destruct (examine cfg getter c) as [|r] eqn:E; cbn [fst snd].
    + destruct (IH c) as [ [F Hall]|(skipped & c' & Htr & Hall & Hex)].
      * left. split; [exact F|]. constructor; assumption.
      * right. exists (c :: skipped), c'. rewrite Htr. split; [reflexivity|].
        split; [constructor; assumption|exact Hex].
    + right. exists [], c. split; [reflexivity|]. split; [constructor|exact E].
Qed.

Lemma get_next_returned {cron : Croniter} {lunar : LunarCalendar}
    (cfg : CronConfig) (base : datetime) (getter : Z -> list HolidayDateDB) (n : nat)
    (r : option datetime * TaskStatusEnum) :
  get_next_cron_run_time cfg base getter n = Returned r ->
  r <> (None, FAILED) ->
  exists base',
    clamp_base cfg base = Returned base'
    /\ croniter_accepts (cron_expression cfg) = true
    /\ r = fst (search cfg getter n base')
    /\ candidates_drawn cfg base getter n = snd (search cfg getter n base').
Proof.
  rewrite get_next_unfold. unfold candidates_drawn.
  destruct (clamp_base cfg base) as [base'|e]; [|discriminate].
  destruct (croniter_accepts _); intros [= <-] Hne; [|contradiction].
  exists base'. auto.
Qed.

(** X7.  A trigger instant returned for a recurring rule - with status
    PENDING or PENDING_CALCULATION - is one of the candidates croniter
    yielded, the first that was not skipped, and it lies inside the rule's
    validity window: not before [start_time], not after [end_time]. *)
Theorem X7_trigger_is_first_survivor {cron : Croniter} {lunar : LunarCalendar}
    (cfg : CronConfig) (base : datetime) (getter : Z -> list HolidayDateDB) (n : nat)
    (t : datetime) (st : TaskStatusEnum) :
  get_next_cron_run_time cfg base getter n = Returned (Some t, st) ->
  (exists skipped,
      candidates_drawn cfg base getter n = skipped ++ [t]
      /\ Forall (fun c => examine cfg getter c = Continue) skipped)
  /\ (forall start, start_time cfg = Some start -> start <= t)
  /\ (forall stop, end_time cfg = Some stop -> t <= stop).
Proof.
  intros Hres.
  destruct (get_next_returned cfg base getter n _ Hres ltac:(discriminate))
    as (base' & _ & _ & Hr & Hdrawn).
  destruct (search_trace cfg getter n base') as [ [F _]|(skipped & c & Htr & Hall & Hex)];
    [congruence|].
  rewrite <- Hr in Hex. apply examine_trigger in Hex as [-> Hwin].
  split.
  - exists skipped. rewrite Hdrawn. auto.
  - apply in_validity_window_bounds, Hwin.
Qed.

Lemma X7_trigger_is_first_survivor_witness :
  (exists skipped,
      candidates_drawn (cron := Samples.daily_noon)
        (lunar := Samples.lunar_new_year_2025)
        Samples.workday_rule Samples.new_year_morning Samples.usual_week
        max_attempts_default
      = skipped ++ [datetime.make 2025 1 2 12 0 0]
      /\ Forall (fun c => examine (lunar := Samples.lunar_new_year_2025)
                            Samples.workday_rule Samples.usual_week c = Continue) skipped)
  /\ (forall start, start_time Samples.workday_rule = Some start ->
                    start <= datetime.make 2025 1 2 12 0 0)
  /\ (forall stop, end_time Samples.workday_rule = Some stop ->
                   datetime.make 2025 1 2 12 0 0 <= stop).
Proof.
  apply (X7_trigger_is_first_survivor (cron := Samples.daily_noon)
           (lunar := Samples.lunar_new_year_2025)
           Samples.workday_rule Samples.new_year_morning Samples.usual_week
           max_attempts_default (datetime.make 2025 1 2 12 0 0) PENDING).
  vm_compute. reflexivity.
Defined.

(** X8.  The search reports COMPLETED exactly when a candidate it drew lies
    after the rule's [end_time]; no trigger instant comes with it. *)
Theorem X8_completed_iff_past_end {cron : Croniter} {lunar : LunarCalendar}
    (cfg : CronConfig) (base : datetime) (getter : Z -> list HolidayDateDB) (n : nat) :
  (get_next_cron_run_time cfg base getter n = Returned (None, COMPLETED)
   <-> exists stop c, end_time cfg = Some stop
                      /\ In c (candidates_drawn cfg base getter n) /\ stop < c)
  /\ (forall t, get_next_cron_run_time cfg base getter n <> Returned (Some t, COMPLETED)).
Proof.
  split; [split|].
  - intros Hres.
    destruct (get_next_returned cfg base getter n _ Hres ltac:(discriminate))
      as (base' & _ & _ & Hr & Hdrawn).
    destruct (search_result cfg getter n base') as [F|(c & Hin & Hex)]; [congruence|].
    rewrite <- Hr in Hex. apply examine_completed in Hex as (_ & stop & Hend & Hlt).
    exists stop, c. rewrite Hdrawn. auto.
  - intros (stop & c & Hend & Hin & Hlt).
    destruct (candidates_drawn_search cfg base getter n c Hin)
      as (base' & _ & _ & Hin' & ->).
    f_equal. eapply search_stops_at; [exact Hin'|].
    apply examine_completed. split; [reflexivity|]. exists stop. auto.
  - intros t Hres.
    destruct (get_next_returned cfg base getter n _ Hres ltac:(discriminate))
      as (base' & _ & _ & Hr & _).
    destruct (search_result cfg getter n base') as [F|(c & _ & Hex)]; [congruence|].
    rewrite <- Hr in Hex. apply examine_completed in Hex as [Hnone _]. discriminate.
Qed.

(** X9.  A lunar rule only ever returns, with status PENDING, a day that
    lunardate converts to the configured lunar month and day. *)
Theorem X9_lunar_trigger_matches {cron : Croniter} {lunar : LunarCalendar}
    (cfg : CronConfig) (base : datetime) (getter : Z -> list HolidayDateDB) (n : nat)
    (t : datetime) :
  is_lunar cfg = true ->
  get_next_cron_run_time cfg base getter n = Returned (Some t, PENDING) ->
  exists m d,
    lunar_month cfg = Some m /\ lunar_day cfg = Some d
    /\ fromSolarDate (datetime.year t) (datetime.month t) (datetime.day t) = LunarDate m d.
Proof.
  intros Hlunar Hres.
  destruct (get_next_returned cfg base getter n _ Hres ltac:(discriminate))
    as (base' & _ & _ & Hr & _).
  destruct (search_result cfg getter n base') as [F|(c & _ & Hex)]; [congruence|].
  rewrite <- Hr in Hex.
  destruct (examine_trigger cfg getter c t PENDING Hex) as [-> _].
  revert Hex. unfold examine.
  destruct (match end_time cfg with Some e => c >? e | None => false end); [discriminate|].
  destruct (match start_time cfg with Some s => c <? s | None => false end);
    [discriminate|].
  destruct (calendar_stage cfg getter c) as [r0|info] eqn:Ecal.
  { intros [= ->]. apply calendar_stage_returns in Ecal. discriminate. }
  unfold lunar_stage. rewrite Hlunar.
  destruct (lunar_month cfg) as [m|]; [|discriminate].
  destruct (lunar_day cfg) as [d|]; [|discriminate].
  destruct (fromSolarDate _ _ _) as [m' d'| |] eqn:Econv; try discriminate.
  destruct ((m' =? m) && (d' =? d)) eqn:Ematch; cbn [negb]; [|discriminate].
  intros _. apply andb_true_iff in Ematch as [Hm Hd].
  apply Z.eqb_eq in Hm, Hd. subst. exists m, d. auto.
Qed.

Lemma X9_lunar_trigger_matches_witness :
  exists m d,
    lunar_month Samples.lunar_new_year_rule = Some m
    /\ lunar_day Samples.lunar_new_year_rule = Some d
    /\ fromSolarDate (LunarCalendar := Samples.lunar_new_year_2025)
         (datetime.year (datetime.make 2025 1 29 12 0 0))
         (datetime.month (datetime.make 2025 1 29 12 0 0))
         (datetime.day (datetime.make 2025 1 29 12 0 0)) = LunarDate m d.
Proof.
  apply (X9_lunar_trigger_matches (cron := Samples.daily_noon)
           (lunar := Samples.lunar_new_year_2025)
           Samples.lunar_new_year_rule (datetime.make 2025 1 28 18 0 0)
           Samples.no_calendar max_attempts_default (datetime.make 2025 1 29 12 0 0)).
  - reflexivity.
  - vm_compute. reflexivity.
Defined.

Lemma search_more_attempts {cron : Croniter} {lunar : LunarCalendar}
    (cfg : CronConfig) (getter : Z -> list HolidayDateDB) (n : nat) :
  forall cur k,
    fst (search cfg getter n cur) <> (None, FAILED) ->
    search cfg getter (n + k) cur = search cfg getter n cur.
Proof.
  induction n as [|n IH]; intros cur k Hne; [contradiction Hne; reflexivity|].
  change (S n + k)%nat with (S (n + k)). rewrite !search_unfold in *.
  destruct (croniter_get_next _ cur) as [c|]; [|reflexivity].
  destruct (examine cfg getter c); [|reflexivity].
  cbn [fst] in Hne. rewrite (IH c k Hne). reflexivity.
Qed.

(** X10.  A result other than (None, FAILED) does not depend on the attempt
    bound: with more attempts allowed the search stops at the same candidate
    with the same result. *)
Theorem X10_result_stable_under_more_attempts {cron : Croniter} {lunar : LunarCalendar}
    (cfg : CronConfig) (base : datetime) (getter : Z -> list HolidayDateDB) (n k : nat)
    (r : option datetime * TaskStatusEnum) :
  get_next_cron_run_time cfg base getter n = Returned r ->
  r <> (None, FAILED) ->
  get_next_cron_run_time cfg base getter (n + k) = Returned r
  /\ candidates_drawn cfg base getter (n + k) = candidates_drawn cfg base getter n.
Proof.
  intros Hres Hne.
  destruct (get_next_returned cfg base getter n r Hres Hne)
    as (base' & Hclamp & Hacc & Hr & Hdrawn).
  assert (Hsame : search cfg getter (n + k) base' = search cfg getter n base')
    by (apply search_more_attempts; congruence).
  split.
  - rewrite get_next_unfold, Hclamp, Hacc, Hsame, <- Hr. reflexivity.
  - unfold candidates_drawn. rewrite Hclamp, Hacc, Hsame. reflexivity.
Qed.

Lemma X10_result_stable_under_more_attempts_witness :
  get_next_cron_run_time (cron := Samples.daily_noon)
    (lunar := Samples.lunar_new_year_2025)
    Samples.workday_rule Samples.new_year_morning Samples.usual_week (2 + 730)
  = Returned (Some (datetime.make 2025 1 2 12 0 0), PENDING).
Proof.
  apply (X10_result_stable_under_more_attempts (cron := Samples.daily_noon)
           (lunar := Samples.lunar_new_year_2025)
           Samples.workday_rule Samples.new_year_morning Samples.usual_week 2 730).
  - vm_compute. reflexivity.
  - discriminate.
Defined.

Lemma search_candidates_later {cron : Croniter} {lunar : LunarCalendar}
    (fits : string -> datetime -> Prop)
    (cfg : CronConfig) (getter : Z -> list HolidayDateDB) (n : nat) :
  croniter_contract cron fits ->
  forall cur c,
    In c (snd (search cfg getter n cur)) ->
    cur < c /\ fits (cron_expression cfg) c.
Proof.
  intros [Hlater Hfits _]. induction n as [|n IH]; intros cur c Hin; [contradiction|].
  rewrite search_unfold in Hin.
  destruct (croniter_get_next _ cur) as [c0|] eqn:Enext; [|contradiction].
  pose proof (Hlater _ _ _ Enext) as Hlt. pose proof (Hfits _ _ _ Enext) as Hfit.
  destruct (examine cfg getter c0); cbn [snd] in Hin.
  - destruct Hin as [<-|Hin]; [auto|].
    destruct (IH c0 c Hin) as [Hlt' Hfit']. split; [lia|exact Hfit'].
  - destruct Hin as [<-|[] ]. auto.
Qed.

(** X11.  With croniter keeping its contract, every trigger instant the
    search returns lies strictly after the base instant it was given and
    satisfies the cron expression, whatever filters the rule has. *)
Theorem X11_trigger_after_base {cron : Croniter} {lunar : LunarCalendar}
    (fits : string -> datetime -> Prop)
    (cfg : CronConfig) (base : datetime) (getter : Z -> list HolidayDateDB) (n : nat)
    (t : datetime) (st : TaskStatusEnum) :
  croniter_contract cron fits ->
  get_next_cron_run_time cfg base getter n = Returned (Some t, st) ->
  base < t /\ fits (cron_expression cfg) t.
Proof.
  intros Hcontract Hres.
  destruct (get_next_returned cfg base getter n _ Hres ltac:(discriminate))
    as (base' & Hclamp & _ & Hr & _).
  destruct (search_result cfg getter n base') as [F|(c & Hin & Hex)]; [congruence|].
  rewrite <- Hr in Hex. apply examine_trigger in Hex as [-> Hwin].
  destruct (search_candidates_later fits cfg getter n Hcontract base' c Hin)
    as [Hlt Hfit].
  split; [|exact Hfit].
  unfold clamp_base in Hclamp.
  destruct (start_time cfg) as [start|] eqn:Estart.
  - destruct (base <? start) eqn:Ecmp.
    + apply Z.ltb_lt in Ecmp.
      apply in_validity_window_bounds in Hwin as [Hstart _].
      specialize (Hstart start Estart). lia.
    + injection Hclamp as <-. exact Hlt.
  - injection Hclamp as <-. exact Hlt.
Qed.

Lemma X11_trigger_after_base_witness :
  Samples.new_year_morning < datetime.make 2025 1 2 12 0 0
  /\ Samples.at_noon (datetime.make 2025 1 2 12 0 0) = true.
Proof.
  apply (X11_trigger_after_base (cron := Samples.daily_noon)
           (lunar := Samples.lunar_new_year_2025)
           (fun _ t => Samples.at_noon t = true)
           Samples.workday_rule Samples.new_year_morning Samples.usual_week
           max_attempts_default (datetime.make 2025 1 2 12 0 0) PENDING).
  - exact daily_noon_contract.
  - vm_compute. reflexivity.
Defined.

(** ** Calendar records and the schema's checks *)

(** X12.  The four day classifications of a calendar record are consistent:
    a weekend day and a legal holiday are holidays, no day is both a workday
    and a holiday, and a record without a day type is none of them. *)
Theorem X12_day_classification_consistent (info : HolidayDateDB) :
  (is_weekend info = true -> is_holiday info = true)
  /\ (is_legal_holiday info = true -> is_holiday info = true)
  /\ (is_workday info = true -> is_holiday info = false)
  /\ (day_type info = None ->
      is_workday info = false /\ is_holiday info = false
      /\ is_legal_holiday info = false /\ is_weekend info = false).
Proof.
  unfold is_weekend, is_legal_holiday, is_holiday, is_workday.
  destruct (day_type info) as [t|].
  - repeat split; try discriminate.
    + intros H. apply andb_true_iff in H as [_ H]. rewrite H. reflexivity.
    + intros H. rewrite H. apply orb_true_r.
    + intros H. apply Z.eqb_eq in H. subst t. reflexivity.
  - repeat split; discriminate.
Qed.

Lemma upper_char_idempotent (c : ascii) :
  Str.upper_char (Str.upper_char c) = Str.upper_char c.
Proof. destruct c as [ [] [] [] [] [] [] [] [] ]; reflexivity. Qed.

Lemma upper_idempotent (s : string) : Str.upper (Str.upper s) = Str.upper s.
Proof.
  unfold Str.upper. induction s as [|c s IH]; [reflexivity|].
  cbn [Str.map_chars]. rewrite upper_char_idempotent, IH. reflexivity.
Qed.

(** X13.  [check_limit_days] normalises: what it returns holds only the four
    names it allows - WORKDAY, HOLIDAY, WEEKEND, WEEKDAY_ONLY - in upper
    case, one per entry given and in the same order; checking its result
    again changes nothing. *)
Theorem X13_check_limit_days_normalises (items checked : list string) :
  check_limit_days (Some items) = Returned (Some checked) ->
  checked = List.map Str.upper items
  /\ Forall (fun item => In item allowed_limit_days) checked
  /\ check_limit_days (Some checked) = Returned (Some checked).
Proof.
  unfold check_limit_days.
  destruct (forallb _ items) eqn:Eall; [|discriminate].
  intros [= <-]. split; [reflexivity|].
  assert (Hin : Forall (fun item => In item allowed_limit_days) (List.map Str.upper items)).
  { apply List.Forall_forall. intros x Hx. apply in_map_iff in Hx as (item & <- & Hitem).
    rewrite forallb_forall in Eall. specialize (Eall item Hitem).
    apply existsb_exists in Eall as (name & Hname & Heq).
    apply String.eqb_eq in Heq. rewrite Heq. exact Hname. }
  split; [exact Hin|].
  assert (Hall : forallb (fun item => existsb (String.eqb (Str.upper item)) allowed_limit_days)
                   (List.map Str.upper items) = true).
  { apply forallb_forall. intros x Hx. apply in_map_iff in Hx as (item & <- & Hitem).
    rewrite forallb_forall in Eall. rewrite upper_idempotent. exact (Eall item Hitem). }
  rewrite Hall. do 2 f_equal.
  rewrite List.map_map. apply List.map_ext. intros a. apply upper_idempotent.
Qed.

Lemma X13_check_limit_days_normalises_witness :
  ["WORKDAY"; "WEEKEND"]%string = List.map Str.upper ["workday"; "Weekend"]%string
  /\ Forall (fun item => In item allowed_limit_days) ["WORKDAY"; "WEEKEND"]%string
  /\ check_limit_days (Some ["WORKDAY"; "WEEKEND"]%string)
     = Returned (Some ["WORKDAY"; "WEEKEND"]%string).
Proof.
  apply (X13_check_limit_days_normalises ["workday"; "Weekend"]%string).
  reflexivity.
Defined.

(** X14.  For a rule that passes [check_lunar_fields_consistency], the lunar
    step of the search never gives up for want of a lunar month or day: it
    fails only when lunardate raises ValueError on the candidate's date, and
    a rule without lunar matching passes every candidate through. *)
Theorem X14_validated_lunar_fields {lunar : LunarCalendar}
    (cfg validated : CronConfig) (c : datetime) :
  check_lunar_fields_consistency cfg = Returned validated ->
  validated = cfg
  /\ (forall r, lunar_stage cfg c = Some (Return r) ->
        is_lunar cfg = true
        /\ fromSolarDate (datetime.year c) (datetime.month c) (datetime.day c)
           = LunarValueError)
  /\ (is_lunar cfg = false -> lunar_stage cfg c = None).
Proof.
  unfold check_lunar_fields_consistency, lunar_stage.
  destruct (is_lunar cfg).
  - destruct (lunar_month cfg) as [m|]; [|discriminate].
    destruct (lunar_day cfg) as [d|]; [|discriminate].
    intros [= <-]. split; [reflexivity|]. split; [|discriminate].
    intros r. destruct (fromSolarDate _ _ _) as [m' d'| |].
    + destruct (negb _); discriminate.
    + auto.
    + discriminate.
  - destruct (lunar_month cfg); [discriminate|].
    destruct (lunar_day cfg); [discriminate|].
    intros [= <-]. split; [reflexivity|]. split; [discriminate|reflexivity].
Qed.

Lemma X14_validated_lunar_fields_witness :
  lunar_stage (lunar := Samples.lunar_new_year_2025) Samples.workday_rule
    (datetime.make 2025 3 1 12 0 0) = None.
Proof.
  refine (proj2 (proj2 (X14_validated_lunar_fields (lunar := Samples.lunar_new_year_2025)
                          Samples.workday_rule Samples.workday_rule
                          (datetime.make 2025 3 1 12 0 0) _)) _); reflexivity.
Defined.

(** ** Arming and disarming *)

Lemma remove_job_is_delete (task_id : string) (timers : gmap string Job) :
  remove_job_from_scheduler task_id timers = delete task_id timers.
Proof.
  unfold remove_job_from_scheduler.
  destruct (timers !! task_id) eqn:E; [reflexivity|].
  symmetry. apply delete_id, E.
Qed.

(** X15.  Disarming composes with arming as removal from a map should:
    disarming leaves no timer under the identifier and touches no other,
    does nothing when there is none, and is idempotent; disarming after
    arming is disarming; arming after disarming is arming; and arming a task
    that has no next trigger time changes nothing. *)
Theorem X15_arm_disarm_compose (task : tasks.ReminderTaskDB) (timers : gmap string Job) :
  remove_job_from_scheduler (tasks.id task) timers !! tasks.id task = None
  /\ (forall other, other <> tasks.id task ->
        remove_job_from_scheduler (tasks.id task) timers !! other = timers !! other)
  /\ (timers !! tasks.id task = None ->
      remove_job_from_scheduler (tasks.id task) timers = timers)
  /\ remove_job_from_scheduler (tasks.id task)
       (remove_job_from_scheduler (tasks.id task) timers)
     = remove_job_from_scheduler (tasks.id task) timers
  /\ remove_job_from_scheduler (tasks.id task) (add_or_update_job_in_scheduler task timers)
     = remove_job_from_scheduler (tasks.id task) timers
  /\ add_or_update_job_in_scheduler task (remove_job_from_scheduler (tasks.id task) timers)
     = (match tasks.next_trigger_time task with
        | Some _ => add_or_update_job_in_scheduler task timers
        | None => remove_job_from_scheduler (tasks.id task) timers
        end)
  /\ (tasks.next_trigger_time task = None ->
      add_or_update_job_in_scheduler task timers = timers).
Proof.
  rewrite !remove_job_is_delete. unfold add_or_update_job_in_scheduler.
  split; [apply lookup_delete_eq|].
  split; [intros other Hne; apply lookup_delete_ne; congruence|].
  split; [intros Hnone; apply delete_id, Hnone|].
  split; [apply delete_delete_eq|].
  destruct (tasks.next_trigger_time task) as [t|].
  - rewrite delete_insert_eq, insert_delete_eq.
    split; [reflexivity|]. split; [reflexivity|discriminate].
  - split; [reflexivity|]. split; [reflexivity|]. intros _. reflexivity.
Qed.

(** ** A timer fires: what every path keeps *)

Ltac world_simpl :=
  cbn [rows jobs commits outbox holiday_dates_for_year with_jobs commit post
       tasks.id tasks.status tasks.next_trigger_time tasks.is_recurring
       tasks.task_info tasks.task_name tasks.set_status tasks.set_next_trigger_time] in *.

Lemma remove_job_other (task_id other : string) (timers : gmap string Job) :
  other <> task_id ->
  remove_job_from_scheduler task_id timers !! other = timers !! other.
Proof. intros H. rewrite remove_job_is_delete. apply lookup_delete_ne. congruence. Qed.

Lemma remove_job_gone (task_id : string) (timers : gmap string Job) :
  remove_job_from_scheduler task_id timers !! task_id = None.
Proof. rewrite remove_job_is_delete. apply lookup_delete_eq. Qed.

Lemma add_job_other (task : tasks.ReminderTaskDB) (other : string)
    (timers : gmap string Job) :
  other <> tasks.id task ->
  add_or_update_job_in_scheduler task timers !! other = timers !! other.
Proof.
  intros H. unfold add_or_update_job_in_scheduler.
  destruct (tasks.next_trigger_time task); [|reflexivity].
  apply lookup_insert_ne. congruence.
Qed.

Lemma get_next_status {cron : Croniter} {lunar : LunarCalendar}
    (cfg : CronConfig) (base : datetime) (getter : Z -> list HolidayDateDB) (n : nat)
    (trigger : option datetime) (st : TaskStatusEnum) :
  get_next_cron_run_time cfg base getter n = Returned (trigger, st) ->
  (trigger = None /\ (st = FAILED \/ st = COMPLETED))
  \/ (exists t, trigger = Some t /\ (st = PENDING \/ st = PENDING_CALCULATION)).
Proof.
  rewrite get_next_unfold.
  destruct (clamp_base cfg base) as [base'|e]; [|discriminate].
  destruct (croniter_accepts _); [|intros [= <- <-]; auto].
  intros [= Hres].
  destruct (search_result cfg getter n base') as [F|(c & _ & Hex)].
  - rewrite F in Hres. injection Hres as <- <-. auto.
  - rewrite Hres in Hex. apply examine_returns in Hex.
    destruct Hex as [ [= -> ->]|[ [= -> ->]|[ [= -> ->]| [= -> ->] ] ] ]; eauto.
Qed.

Section Firing.

Context {cron : Croniter} {lunar : LunarCalendar}.
Variable ext : Collaborators.

(** What [after_send] leaves under the task's identifier. *)
Lemma after_send_outcome (task_id : string) (task : tasks.ReminderTaskDB)
    (info : schemas.TaskInfo) (sent : bool) (w : World) :
  tasks.id task = task_id ->
  let w' := after_send ext task_id task info sent w in
  (forall other, other <> task_id ->
     rows w' !! other = rows w !! other /\ jobs w' !! other = jobs w !! other)
  /\ outbox w' = outbox w
  /\ exists row,
      rows w' !! task_id = Some row
      /\ tasks.id row = task_id
      /\ tasks.status row <> RUNNING
      /\ (tasks.is_recurring task = false ->
          tasks.status row = (if sent then COMPLETED else FAILED)
          /\ tasks.next_trigger_time row = None)
      /\ match jobs w' !! task_id with
         | Some job =>
             tasks.is_recurring task = true
             /\ tasks.status row = PENDING
             /\ tasks.next_trigger_time row = Some (run_date job)
         | None => True
         end.
Proof.
  intros Hid. unfold after_send. world_simpl.
  destruct (tasks.is_recurring task) eqn:Hrec.
  - destruct (cron_config info) as [cfg|].
    + destruct (get_next_cron_run_time _ _ _ _) as [ [trigger st]|e] eqn:Hnext.
      * apply get_next_status in Hnext.
        destruct Hnext as [ [-> [-> | ->] ]|(t & -> & [-> | ->])]; world_simpl;
          (split; [intros other Hne; split;
                   [rewrite !lookup_insert_ne by congruence; reflexivity
                   |rewrite ?remove_job_other, ?add_job_other by (world_simpl; congruence);
                    reflexivity]|]);
          (split; [reflexivity|]);
          eexists; (split; [rewrite Hid; apply lookup_insert_eq|]); world_simpl;
          (split; [exact Hid|]); (split; [discriminate|]);
          (split; [discriminate|]);
          rewrite ?Hid, ?remove_job_gone; try exact I.
        unfold add_or_update_job_in_scheduler. world_simpl.
        rewrite Hid, lookup_insert_eq. auto.
      * unfold on_exception. world_simpl.
        split; [intros other Hne; split;
                [rewrite !lookup_insert_ne by congruence; reflexivity
                |rewrite remove_job_other by congruence; reflexivity]|].
        split; [reflexivity|].
        eexists. split; [rewrite Hid; apply lookup_insert_eq|]. world_simpl.
        split; [exact Hid|]. split; [discriminate|]. split; [discriminate|].
        rewrite remove_job_gone. exact I.
    + world_simpl.
      split; [intros other Hne; split;
              [rewrite !lookup_insert_ne by congruence; reflexivity
              |rewrite remove_job_other by congruence; reflexivity]|].
      split; [reflexivity|].
      eexists. split; [rewrite Hid; apply lookup_insert_eq|]. world_simpl.
      split; [exact Hid|]. split; [destruct sent; discriminate|].
      split; [discriminate|]. rewrite remove_job_gone. exact I.
  - world_simpl.
    split; [intros other Hne; split;
            [rewrite !lookup_insert_ne by congruence; reflexivity
            |rewrite remove_job_other by congruence; reflexivity]|].
    split; [reflexivity|].
    eexists. split; [rewrite Hid; apply lookup_insert_eq|]. world_simpl.
    split; [exact Hid|]. split; [destruct sent; discriminate|].
    split; [auto|]. rewrite remove_job_gone. exact I.
Qed.


(** What a firing leaves behind for a task that was found in a fireable
    state. *)
Lemma fired_outcome (task_id : string) (task : tasks.ReminderTaskDB) (w : World) :
  rows w !! task_id = Some task ->
  tasks.id task = task_id ->
  fireable (tasks.status task) = true ->
  let w' := execute_task_by_id ext task_id w in
  (forall other, other <> task_id ->
     rows w' !! other = rows w !! other /\ jobs w' !! other = jobs w !! other)
  /\ exists row,
      rows w' !! task_id = Some row
      /\ tasks.id row = task_id
      /\ tasks.status row <> RUNNING
      /\ (tasks.is_recurring task = false ->
          jobs w' !! task_id = None
          /\ (tasks.status row = COMPLETED \/ tasks.status row = FAILED))
      /\ (jobs w !! task_id = None ->
          forall job, jobs w' !! task_id = Some job ->
            tasks.status row = PENDING
            /\ tasks.next_trigger_time row = Some (run_date job)).
Proof.
  intros Hrow Hid Hfire. unfold execute_task_by_id. rewrite Hrow, Hfire. cbn [negb].
  world_simpl.
  destruct (tasks.task_info task) as [info|].
  - unfold notify_and_reschedule.
    destruct (send_notification ext task_id info) as [ [sent handed]|].
    + pose proof (after_send_outcome task_id (tasks.set_status RUNNING task) info sent
                    (post handed (commit (tasks.set_status RUNNING task) w)) Hid) as Hafter.
      cbv zeta in Hafter. world_simpl.
      destruct Hafter as (Hother & _ & row & Hlook & Hrid & Hrun & Hone & Harmed).
      split.
      * intros other Hne. destruct (Hother other Hne) as [Hr Hj].
        rewrite Hr, Hj. rewrite lookup_insert_ne by congruence. auto.
      * exists row. split; [exact Hlook|]. split; [exact Hrid|]. split; [exact Hrun|].
        split.
        -- intros Hrec.
           destruct (jobs (after_send ext task_id (tasks.set_status RUNNING task) info sent
                             (post handed (commit (tasks.set_status RUNNING task) w)))
                       !! task_id) as [job|].
           ++ destruct Harmed as [Hrec' _]. congruence.
           ++ split; [reflexivity|]. destruct (Hone Hrec) as [-> _].
              destruct sent; auto.
        -- intros _ job Hjob. rewrite Hjob in Harmed. tauto.
    + unfold fail_without_send. world_simpl.
      destruct (tasks.is_recurring task) eqn:Hrec; cbn [negb]; world_simpl.
      * split; [intros other Hne; rewrite !lookup_insert_ne by congruence; auto|].
        eexists. split; [rewrite Hid; apply lookup_insert_eq|]. world_simpl.
        split; [exact Hid|]. split; [discriminate|]. split; [discriminate|].
        intros Hnone job Hjob. congruence.
      * split; [intros other Hne; rewrite !lookup_insert_ne by congruence;
                rewrite remove_job_other by congruence; auto|].
        eexists. split; [rewrite Hid; apply lookup_insert_eq|]. world_simpl.
        split; [exact Hid|]. split; [discriminate|].
        rewrite remove_job_gone. split; [auto|]. intros _ job Hjob. discriminate.
  - unfold on_exception. world_simpl.
    split; [intros other Hne; rewrite !lookup_insert_ne by congruence;
            rewrite remove_job_other by congruence; auto|].
    eexists. split; [rewrite Hid; apply lookup_insert_eq|]. world_simpl.
    split; [exact Hid|]. split; [discriminate|].
    rewrite remove_job_gone. split; [auto|]. intros _ job Hjob. discriminate.
Qed.

(** X16.  A firing is local to its task: the rows and the timers of every
    other task are as they were, whichever way the execution goes. *)
Theorem X16_firing_is_local (task_id other : string) (w : World) :
  (forall task, rows w !! task_id = Some task -> tasks.id task = task_id) ->
  other <> task_id ->
  rows (execute_task_by_id ext task_id w) !! other = rows w !! other
  /\ jobs (execute_task_by_id ext task_id w) !! other = jobs w !! other.
Proof.
  intros Hkeyed Hne.
  destruct (rows w !! task_id) as [task|] eqn:Hrow.
  - destruct (fireable (tasks.status task)) eqn:Hfire.
    + exact (proj1 (fired_outcome task_id task w Hrow (Hkeyed task eq_refl) Hfire)
               other Hne).
    + unfold execute_task_by_id. rewrite Hrow, Hfire. cbn [negb].
      destruct (tasks.next_trigger_time task); world_simpl; [auto|].
      split; [reflexivity|apply remove_job_other, Hne].
  - unfold execute_task_by_id. rewrite Hrow. world_simpl.
    split; [reflexivity|apply remove_job_other, Hne].
Qed.

(** X17.  No firing leaves its task RUNNING: whatever happens between the
    load and the end - a failed validation, no recipient, no channel, a send
    that fails or succeeds, a next occurrence that cannot be computed - the
    row is still there and its committed status is one of PENDING,
    PENDING_CALCULATION, COMPLETED and FAILED. *)
Theorem X17_firing_never_leaves_running (task_id : string) (task : tasks.ReminderTaskDB)
    (w : World) :
  rows w !! task_id = Some task ->
  tasks.id task = task_id ->
  exists row,
    rows (execute_task_by_id ext task_id w) !! task_id = Some row
    /\ tasks.status row <> RUNNING.
Proof.
  intros Hrow Hid.
  destruct (fireable (tasks.status task)) eqn:Hfire.
  - destruct (fired_outcome task_id task w Hrow Hid Hfire)
      as (_ & row & Hlook & _ & Hrun & _).
    exists row. auto.
  - exists task. split.
    + unfold execute_task_by_id. rewrite Hrow, Hfire. cbn [negb].
      destruct (tasks.next_trigger_time task); world_simpl; exact Hrow.
    + intros Hst. rewrite Hst in Hfire. discriminate.
Qed.

(** X18.  A one-shot task never stays armed: after its timer fired on a
    task that is fireable - PENDING or RUNNING - and not recurring, there is
    no timer under its identifier and its status is COMPLETED or FAILED. *)
Theorem X18_one_shot_is_retired (task_id : string) (task : tasks.ReminderTaskDB)
    (w : World) :
  rows w !! task_id = Some task ->
  tasks.id task = task_id ->
  fireable (tasks.status task) = true ->
  tasks.is_recurring task = false ->
  jobs (execute_task_by_id ext task_id w) !! task_id = None
  /\ exists row,
      rows (execute_task_by_id ext task_id w) !! task_id = Some row
      /\ (tasks.status row = COMPLETED \/ tasks.status row = FAILED).
Proof.
  intros Hrow Hid Hfire Hrec.
  destruct (fired_outcome task_id task w Hrow Hid Hfire)
    as (_ & row & Hlook & _ & _ & Hone & _).
  destruct (Hone Hrec) as [Hjob Hst].
  split; [exact Hjob|]. exists row. auto.
Qed.

(** X19.  The timer and the row agree after a firing: if the job store held
    no timer for the task when the callback started and holds one when it
    ends, the task is PENDING and its next trigger time is that timer's run
    date. *)
Theorem X19_armed_means_pending (task_id : string) (task : tasks.ReminderTaskDB)
    (w : World) (job : Job) :
  rows w !! task_id = Some task ->
  tasks.id task = task_id ->
  fireable (tasks.status task) = true ->
  jobs w !! task_id = None ->
  jobs (execute_task_by_id ext task_id w) !! task_id = Some job ->
  exists row,
    rows (execute_task_by_id ext task_id w) !! task_id = Some row
    /\ tasks.status row = PENDING
    /\ tasks.next_trigger_time row = Some (run_date job).
Proof.
  intros Hrow Hid Hfire Hnone Hjob.
  destruct (fired_outcome task_id task w Hrow Hid Hfire)
    as (_ & row & Hlook & _ & _ & _ & Harmed).
  exists row. split; [exact Hlook|]. exact (Harmed Hnone job Hjob).
Qed.

(** X20.  A timer that fires for a task no longer in the table only removes
    the timer: nothing is committed, nothing is sent, no row appears. *)
Theorem X20_missing_task_only_disarms (task_id : string) (w : World) :
  rows w !! task_id = None ->
  rows (execute_task_by_id ext task_id w) = rows w
  /\ commits (execute_task_by_id ext task_id w) = commits w
  /\ outbox (execute_task_by_id ext task_id w) = outbox w
  /\ jobs (execute_task_by_id ext task_id w) = delete task_id (jobs w).
Proof.
  intros Hrow. unfold execute_task_by_id. rewrite Hrow. world_simpl.
  rewrite remove_job_is_delete. auto.
Qed.

End Firing.

Lemma three_tasks_keyed : rows_keyed_by_id Scenes.three_tasks.
Proof.
  intros k row Hrow. unfold Scenes.three_tasks in Hrow. cbn [rows] in Hrow.
  apply lookup_insert_Some in Hrow as [ [<- <-]|[_ Hrow] ]; [reflexivity|].
  apply lookup_insert_Some in Hrow as [ [<- <-]|[_ Hrow] ]; [reflexivity|].
  apply lookup_singleton_Some in Hrow as [<- <-]. reflexivity.
Qed.

Lemma X16_firing_is_local_witness :
  rows (execute_task_by_id (cron := Samples.daily_noon)
          (lunar := Samples.lunar_new_year_2025)
          (Samples.unreachable_senders (datetime.make 2025 1 1 12 0 1)) "task-1"
          Scenes.three_tasks) !! "task-2"%string
  = rows Scenes.three_tasks !! "task-2"%string
  /\ jobs (execute_task_by_id (cron := Samples.daily_noon)
             (lunar := Samples.lunar_new_year_2025)
             (Samples.unreachable_senders (datetime.make 2025 1 1 12 0 1)) "task-1"
             Scenes.three_tasks) !! "task-2"%string
     = jobs Scenes.three_tasks !! "task-2"%string.
Proof.
  apply (X16_firing_is_local (cron := Samples.daily_noon)
           (lunar := Samples.lunar_new_year_2025)
           (Samples.unreachable_senders (datetime.make 2025 1 1 12 0 1))
           "task-1" "task-2" Scenes.three_tasks).
  - intros task Hrow. exact (three_tasks_keyed _ _ Hrow).
  - discriminate.
Defined.

Lemma X17_firing_never_leaves_running_witness :
  exists row,
    rows (execute_task_by_id (cron := Samples.daily_noon)
            (lunar := Samples.lunar_new_year_2025)
            (Samples.unreachable_senders (datetime.make 2025 1 1 12 0 1)) "task-1"
            Scenes.three_tasks) !! "task-1"%string = Some row
    /\ tasks.status row <> RUNNING.
Proof.
  apply (X17_firing_never_leaves_running (cron := Samples.daily_noon)
           (lunar := Samples.lunar_new_year_2025)
           (Samples.unreachable_senders (datetime.make 2025 1 1 12 0 1)) "task-1"
           (Samples.plants_row PENDING (Some (datetime.make 2025 1 1 12 0 0)))).
  - vm_compute. reflexivity.
  - reflexivity.
Defined.

Lemma X18_one_shot_is_retired_witness :
  jobs (execute_task_by_id (cron := Samples.daily_noon)
          (lunar := Samples.lunar_new_year_2025)
          (Scenes.reachable_senders (datetime.make 2025 1 1 12 0 1)) "task-2"
          Scenes.three_tasks) !! "task-2"%string = None
  /\ exists row,
      rows (execute_task_by_id (cron := Samples.daily_noon)
              (lunar := Samples.lunar_new_year_2025)
              (Scenes.reachable_senders (datetime.make 2025 1 1 12 0 1)) "task-2"
              Scenes.three_tasks) !! "task-2"%string = Some row
      /\ (tasks.status row = COMPLETED \/ tasks.status row = FAILED).
Proof.
  apply (X18_one_shot_is_retired (cron := Samples.daily_noon)
           (lunar := Samples.lunar_new_year_2025)
           (Scenes.reachable_senders (datetime.make 2025 1 1 12 0 1)) "task-2"
           (Scenes.call_row PENDING (Some (datetime.make 2025 1 1 12 0 0)))).
  - vm_compute. reflexivity.
  - reflexivity.
  - reflexivity.
  - reflexivity.
Defined.

Lemma X19_armed_means_pending_witness :
  exists row,
    rows (execute_task_by_id (cron := Samples.daily_noon)
            (lunar := Samples.lunar_new_year_2025)
            (Samples.unreachable_senders (datetime.make 2025 1 1 12 0 1)) "task-1"
            (Samples.world_of
               (Samples.plants_row PENDING (Some (datetime.make 2025 1 1 12 0 0))) ∅))
      !! "task-1"%string = Some row
    /\ tasks.status row = PENDING
    /\ tasks.next_trigger_time row
       = Some (run_date (Samples.plants_job (datetime.make 2025 1 2 12 0 0))).
Proof.
  apply (X19_armed_means_pending (cron := Samples.daily_noon)
           (lunar := Samples.lunar_new_year_2025)
           (Samples.unreachable_senders (datetime.make 2025 1 1 12 0 1)) "task-1"
           (Samples.plants_row PENDING (Some (datetime.make 2025 1 1 12 0 0)))).
  - vm_compute. reflexivity.
  - reflexivity.
  - reflexivity.
  - reflexivity.
  - vm_compute. reflexivity.
Defined.

Lemma X20_missing_task_only_disarms_witness :
  rows (execute_task_by_id (cron := Samples.daily_noon)
          (lunar := Samples.lunar_new_year_2025)
          (Samples.unreachable_senders (datetime.make 2025 1 1 12 0 1)) "task-9"
          Scenes.three_tasks) = rows Scenes.three_tasks
  /\ commits (execute_task_by_id (cron := Samples.daily_noon)
                (lunar := Samples.lunar_new_year_2025)
                (Samples.unreachable_senders (datetime.make 2025 1 1 12 0 1)) "task-9"
                Scenes.three_tasks) = commits Scenes.three_tasks
  /\ outbox (execute_task_by_id (cron := Samples.daily_noon)
               (lunar := Samples.lunar_new_year_2025)
               (Samples.unreachable_senders (datetime.make 2025 1 1 12 0 1)) "task-9"
               Scenes.three_tasks) = outbox Scenes.three_tasks
  /\ jobs (execute_task_by_id (cron := Samples.daily_noon)
             (lunar := Samples.lunar_new_year_2025)
             (Samples.unreachable_senders (datetime.make 2025 1 1 12 0 1)) "task-9"
             Scenes.three_tasks) = delete "task-9"%string (jobs Scenes.three_tasks).
Proof.
  apply (X20_missing_task_only_disarms (cron := Samples.daily_noon)
           (lunar := Samples.lunar_new_year_2025)
           (Samples.unreachable_senders (datetime.make 2025 1 1 12 0 1)) "task-9"
           Scenes.three_tasks).
  vm_compute. reflexivity.
Defined.

(** ** The daily maintenance job *)

Section Maintenance.

Context {cron : Croniter} {lunar : LunarCalendar}.
Variable now_for : string -> datetime.

(** Recalculating one task touches no other. *)
Lemma recalculate_task_local (task : tasks.ReminderTaskDB) (w : World) (other : string) :
  other <> tasks.id task ->
  rows (recalculate_task now_for task w) !! other = rows w !! other
  /\ jobs (recalculate_task now_for task w) !! other = jobs w !! other.
Proof.
  intros Hne. unfold recalculate_task, recalc_failed.
  repeat match goal with
         | |- context [match ?x with _ => _ end] => destruct x
         end;
    world_simpl;
    rewrite ?lookup_insert_ne by congruence;
    rewrite ?remove_job_other, ?add_job_other by (world_simpl; congruence);
    auto.
Qed.

Lemma recalculate_task_calendar (task : tasks.ReminderTaskDB) (w : World) :
  holiday_dates_for_year (recalculate_task now_for task w) = holiday_dates_for_year w.
Proof.
  unfold recalculate_task, recalc_failed.
  repeat match goal with
         | |- context [match ?x with _ => _ end] => destruct x
         end;
    reflexivity.
Qed.

(** What recalculating a task leaves under its identifier depends on the
    task, the calendar and the timer found there, and on nothing else. *)
Lemma recalculate_task_agree (task : tasks.ReminderTaskDB) (w1 w2 : World) :
  holiday_dates_for_year w1 = holiday_dates_for_year w2 ->
  jobs w1 !! tasks.id task = jobs w2 !! tasks.id task ->
  rows (recalculate_task now_for task w1) !! tasks.id task
  = rows (recalculate_task now_for task w2) !! tasks.id task
  /\ jobs (recalculate_task now_for task w1) !! tasks.id task
     = jobs (recalculate_task now_for task w2) !! tasks.id task.
Proof.
  intros Hcal Hjob. unfold recalculate_task, recalc_failed. rewrite Hcal.
  repeat match goal with
         | |- context [match ?x with _ => _ end] => destruct x
         end;
    world_simpl;
    rewrite ?lookup_insert_eq, ?remove_job_gone;
    unfold add_or_update_job_in_scheduler; world_simpl;
    rewrite ?lookup_insert_eq; auto.
Qed.

Lemma fold_recalculate_calendar (l : list tasks.ReminderTaskDB) :
  forall w,
    holiday_dates_for_year
      (fold_left (fun w task_db => recalculate_task now_for task_db w) l w)
    = holiday_dates_for_year w.
Proof.
  induction l as [|a l IH]; intros w; [reflexivity|].
  cbn [fold_left]. rewrite IH. apply recalculate_task_calendar.
Qed.

Lemma fold_recalculate_untouched (l : list tasks.ReminderTaskDB) (k : string) :
  (forall task, In task l -> tasks.id task <> k) ->
  forall w,
    rows (fold_left (fun w task_db => recalculate_task now_for task_db w) l w) !! k
    = rows w !! k
    /\ jobs (fold_left (fun w task_db => recalculate_task now_for task_db w) l w) !! k
       = jobs w !! k.
Proof.
  induction l as [|a l IH]; intros Hnot w; [auto|].
  cbn [fold_left].
  destruct (IH (fun task Hin => Hnot task (or_intror Hin)) (recalculate_task now_for a w))
    as [Hr Hj].
  destruct (recalculate_task_local a w k) as [Hr' Hj'].
  { intros ->. exact (Hnot a (or_introl eq_refl) eq_refl). }
  rewrite Hr, Hj, Hr', Hj'. auto.
Qed.

Lemma fold_recalculate_own (l : list tasks.ReminderTaskDB) :
  List.NoDup (List.map tasks.id l) ->
  forall w task,
    In task l ->
    rows (fold_left (fun w task_db => recalculate_task now_for task_db w) l w)
      !! tasks.id task
    = rows (recalculate_task now_for task w) !! tasks.id task
    /\ jobs (fold_left (fun w task_db => recalculate_task now_for task_db w) l w)
         !! tasks.id task
       = jobs (recalculate_task now_for task w) !! tasks.id task.
Proof.
  induction l as [|a l IH]; intros Hnodup w task Hin; [contradiction|].
  cbn [List.map] in Hnodup. apply List.NoDup_cons_iff in Hnodup as [Hfresh Hnodup].
  cbn [fold_left]. destruct Hin as [->|Hin].
  - apply fold_recalculate_untouched.
    intros t Ht Heq. apply Hfresh. rewrite <- Heq. apply in_map, Ht.
  - destruct (IH Hnodup (recalculate_task now_for a w) task Hin) as [Hr Hj].
    rewrite Hr, Hj.
    assert (Hne : tasks.id task <> tasks.id a).
    { intros Heq. apply Hfresh. rewrite <- Heq. apply in_map, Hin. }
    apply recalculate_task_agree.
    + apply recalculate_task_calendar.
    + apply recalculate_task_local, Hne.
Qed.

End Maintenance.

Lemma keyed_rows_nodup (l : list (string * tasks.ReminderTaskDB)) :
  List.NoDup (List.map fst l) ->
  (forall k row, In (k, row) l -> tasks.id row = k) ->
  List.NoDup
    (List.map tasks.id
       (filter (fun task => tasks.status task = PENDING_CALCULATION) (List.map snd l))).
Proof.
  induction l as [|[k row] l IH]; intros Hnodup Hkeyed; [constructor|].
  cbn [List.map fst snd] in *. apply List.NoDup_cons_iff in Hnodup as [Hfresh Hnodup].
  assert (IH' := IH Hnodup (fun k' r' Hin => Hkeyed k' r' (or_intror Hin))).
  rewrite filter_cons. destruct (decide (tasks.status row = PENDING_CALCULATION)); [|exact IH'].
  cbn [List.map]. constructor; [|exact IH'].
  intros Hin. apply in_map_iff in Hin as (row' & Hid & Hin').
  apply list_elem_of_In, list_elem_of_filter in Hin' as [_ Hin'].
  apply list_elem_of_In, in_map_iff in Hin' as ([k' r'] & Heq & Hin'').
  cbn [snd] in Heq. subst r'.
  apply Hfresh. apply in_map_iff. exists (k', row'). split; [|exact Hin''].
  cbn [fst]. rewrite <- (Hkeyed k' row' (or_intror Hin'')), Hid.
  apply (Hkeyed k row). left. reflexivity.
Qed.

Lemma tasks_for_recalculation_spec (w : World) (task : tasks.ReminderTaskDB) :
  In task (get_tasks_for_recalculation w)
  <-> tasks.status task = PENDING_CALCULATION /\ exists k, rows w !! k = Some task.
Proof.
  unfold get_tasks_for_recalculation.
  rewrite <- list_elem_of_In, list_elem_of_filter, list_elem_of_fmap.
  split.
  - intros [Hst ([k row] & -> & Hin)]. split; [exact Hst|].
    exists k. apply elem_of_map_to_list, Hin.
  - intros [Hst [k Hk] ]. split; [exact Hst|].
    exists (k, task). split; [reflexivity|]. apply elem_of_map_to_list, Hk.
Qed.

Lemma tasks_for_recalculation_nodup (w : World) :
  rows_keyed_by_id w ->
  List.NoDup (List.map tasks.id (get_tasks_for_recalculation w)).
Proof.
  intros Hkeyed. unfold get_tasks_for_recalculation.
  apply keyed_rows_nodup.
  - apply NoDup_ListNoDup, NoDup_fst_map_to_list.
  - intros k row Hin. apply Hkeyed.
    apply elem_of_map_to_list, list_elem_of_In, Hin.
Qed.

Section MaintenanceResults.

Context {cron : Croniter} {lunar : LunarCalendar}.
Variable now_for : string -> datetime.

(** What one recalculation leaves under the task's identifier. *)
Lemma recalculate_task_outcome (task : tasks.ReminderTaskDB) (w : World) :
  tasks.status task = PENDING_CALCULATION ->
  exists row,
    rows (recalculate_task now_for task w) !! tasks.id task = Some row
    /\ ((tasks.status row = PENDING
         /\ exists t, tasks.next_trigger_time row = Some t
                      /\ jobs (recalculate_task now_for task w) !! tasks.id task
                         = Some (job_of task t))
        \/ (tasks.status row = PENDING_CALCULATION
            /\ (exists t, tasks.next_trigger_time row = Some t)
            /\ jobs (recalculate_task now_for task w) !! tasks.id task
               = jobs w !! tasks.id task)
        \/ ((tasks.status row = FAILED \/ tasks.status row = COMPLETED)
            /\ jobs (recalculate_task now_for task w) !! tasks.id task = None)).
Proof.
  intros Hpc. unfold recalculate_task, recalc_failed.
  destruct (tasks.task_info task) as [info|].
  - destruct (schemas.is_recurring info).
    + destruct (cron_config info) as [cfg|].
      * destruct (datetime.sub _ _) as [base|e].
        -- destruct (get_next_cron_run_time cfg base _ _) as [ [trigger st]|e] eqn:Hnext.
           ++ apply get_next_status in Hnext.
              destruct Hnext as [ [-> [-> | ->] ]|(t & -> & [-> | ->])]; world_simpl;
                eexists; (split; [apply lookup_insert_eq|]); world_simpl;
                rewrite ?remove_job_gone.
              ** right. right. auto.
              ** right. right. auto.
              ** left. split; [reflexivity|]. exists t. split; [reflexivity|].
                 unfold add_or_update_job_in_scheduler, job_of. world_simpl.
                 apply lookup_insert_eq.
              ** right. left. rewrite Hpc. eauto.
           ++ world_simpl. eexists. split; [apply lookup_insert_eq|]. world_simpl.
              rewrite remove_job_gone. right. right. auto.
        -- world_simpl. eexists. split; [apply lookup_insert_eq|]. world_simpl.
           rewrite remove_job_gone. right. right. auto.
      * world_simpl. eexists. split; [apply lookup_insert_eq|]. world_simpl.
        rewrite remove_job_gone. right. right. auto.
    + world_simpl. eexists. split; [apply lookup_insert_eq|]. world_simpl.
      rewrite remove_job_gone. right. right. auto.
  - world_simpl. eexists. split; [apply lookup_insert_eq|]. world_simpl.
    rewrite remove_job_gone. right. right. auto.
Qed.

Lemma maintenance_own (calendar : Z -> list HolidayDateDB) (w : World)
    (k : string) (task : tasks.ReminderTaskDB) :
  rows_keyed_by_id w ->
  rows w !! k = Some task ->
  tasks.status task = PENDING_CALCULATION ->
  tasks.id task = k
  /\ rows (daily_maintenance_job now_for calendar w) !! k
     = rows (recalculate_task now_for task (with_calendar calendar w)) !! k
  /\ jobs (daily_maintenance_job now_for calendar w) !! k
     = jobs (recalculate_task now_for task (with_calendar calendar w)) !! k.
Proof.
  intros Hkeyed Hrow Hpc. pose proof (Hkeyed k task Hrow) as Hid.
  split; [exact Hid|]. unfold daily_maintenance_job. rewrite <- Hid.
  apply fold_recalculate_own.
  - apply tasks_for_recalculation_nodup. exact Hkeyed.
  - apply tasks_for_recalculation_spec. split; [exact Hpc|]. exists k. exact Hrow.
Qed.

(** X21.  The maintenance job leaves alone every task that is not waiting
    for calculation: its row and its timer are as they were. *)
Theorem X21_maintenance_leaves_others (calendar : Z -> list HolidayDateDB) (w : World)
    (k : string) :
  rows_keyed_by_id w ->
  (forall row, rows w !! k = Some row -> tasks.status row <> PENDING_CALCULATION) ->
  rows (daily_maintenance_job now_for calendar w) !! k = rows w !! k
  /\ jobs (daily_maintenance_job now_for calendar w) !! k = jobs w !! k.
Proof.
  intros Hkeyed Hnot. unfold daily_maintenance_job.
  refine (fold_recalculate_untouched now_for
            (get_tasks_for_recalculation (with_calendar calendar w)) k _
            (with_calendar calendar w)).
  intros task Hin Hid.
  apply tasks_for_recalculation_spec in Hin as [Hpc [k' Hrow] ].
  cbn [rows with_calendar] in Hrow.
  rewrite (Hkeyed k' task Hrow) in Hid. subst k'.
  exact (Hnot task Hrow Hpc).
Qed.

(** X22.  The tasks waiting for calculation do not interfere: whatever the
    order in which the table yields them, what the maintenance job leaves
    for one of them - row and timer - is what recalculating that task alone,
    against the refreshed calendar, leaves. *)
Theorem X22_maintenance_recalculates_each (calendar : Z -> list HolidayDateDB)
    (w : World) (k : string) (task : tasks.ReminderTaskDB) :
  rows_keyed_by_id w ->
  rows w !! k = Some task ->
  tasks.status task = PENDING_CALCULATION ->
  rows (daily_maintenance_job now_for calendar w) !! k
  = rows (recalculate_task now_for task (with_calendar calendar w)) !! k
  /\ jobs (daily_maintenance_job now_for calendar w) !! k
     = jobs (recalculate_task now_for task (with_calendar calendar w)) !! k.
Proof.
  intros Hkeyed Hrow Hpc.
  exact (proj2 (maintenance_own calendar w k task Hkeyed Hrow Hpc)).
Qed.

(** X23.  After the maintenance job, a task that was waiting for
    calculation is in one of three states: PENDING with a trigger time and
    a timer armed at it; still PENDING_CALCULATION, with a trigger time and
    the timer (if any) it had; or FAILED or COMPLETED with no timer. *)
Theorem X23_maintenance_outcome (calendar : Z -> list HolidayDateDB) (w : World)
    (k : string) (task : tasks.ReminderTaskDB) :
  rows_keyed_by_id w ->
  rows w !! k = Some task ->
  tasks.status task = PENDING_CALCULATION ->
  exists row,
    rows (daily_maintenance_job now_for calendar w) !! k = Some row
    /\ ((tasks.status row = PENDING
         /\ exists t, tasks.next_trigger_time row = Some t
                      /\ jobs (daily_maintenance_job now_for calendar w) !! k
                         = Some (job_of task t))
        \/ (tasks.status row = PENDING_CALCULATION
            /\ (exists t, tasks.next_trigger_time row = Some t)
            /\ jobs (daily_maintenance_job now_for calendar w) !! k = jobs w !! k)
        \/ ((tasks.status row = FAILED \/ tasks.status row = COMPLETED)
            /\ jobs (daily_maintenance_job now_for calendar w) !! k = None)).
Proof.
  intros Hkeyed Hrow Hpc.
  destruct (maintenance_own calendar w k task Hkeyed Hrow Hpc) as (Hid & Hr & Hj).
  destruct (recalculate_task_outcome task (with_calendar calendar w) Hpc)
    as (row & Hlook & Hcases).
  rewrite Hid in Hlook, Hcases. rewrite <- Hr in Hlook. rewrite <- Hj in Hcases.
  exists row. split; [exact Hlook|exact Hcases].
Qed.

(** X24.  A recurring task waiting for calculation whose next occurrence can
    now be computed - from one minute before its estimated trigger, against
    the refreshed calendar - comes out of the maintenance job PENDING at
    that occurrence, with a timer armed at it. *)
Theorem X24_maintenance_arms_resolved (calendar : Z -> list HolidayDateDB) (w : World)
    (k : string) (task : tasks.ReminderTaskDB) (info : schemas.TaskInfo)
    (cfg : CronConfig) (estimate base t : datetime) :
  rows_keyed_by_id w ->
  rows w !! k = Some task ->
  tasks.status task = PENDING_CALCULATION ->
  tasks.task_info task = Some info ->
  schemas.is_recurring info = true ->
  cron_config info = Some cfg ->
  tasks.next_trigger_time task = Some estimate ->
  datetime.sub estimate (datetime.seconds 60) = Returned base ->
  get_next_cron_run_time cfg base calendar max_attempts_default
  = Returned (Some t, PENDING) ->
  jobs (daily_maintenance_job now_for calendar w) !! k = Some (job_of task t)
  /\ exists row,
      rows (daily_maintenance_job now_for calendar w) !! k = Some row
      /\ tasks.status row = PENDING
      /\ tasks.next_trigger_time row = Some t.
Proof.
  intros Hkeyed Hrow Hpc Hinfo Hrec Hcfg Hest Hbase Hnext.
  destruct (maintenance_own calendar w k task Hkeyed Hrow Hpc) as (Hid & -> & ->).
  unfold recalculate_task. rewrite Hinfo, Hrec, Hcfg, Hest, Hbase.
  cbn [holiday_dates_for_year with_calendar]. rewrite Hnext. world_simpl.
  unfold add_or_update_job_in_scheduler, job_of. world_simpl. rewrite Hid.
  split; [apply lookup_insert_eq|].
  eexists. split; [apply lookup_insert_eq|]. auto.
Qed.

End MaintenanceResults.

Lemma X21_maintenance_leaves_others_witness :
  rows (daily_maintenance_job (cron := Samples.daily_noon)
          (lunar := Samples.lunar_new_year_2025)
          (Scenes.clock (datetime.make 2025 1 1 1 10 0)) Samples.usual_week
          Scenes.three_tasks) !! "task-1"%string
  = rows Scenes.three_tasks !! "task-1"%string
  /\ jobs (daily_maintenance_job (cron := Samples.daily_noon)
             (lunar := Samples.lunar_new_year_2025)
             (Scenes.clock (datetime.make 2025 1 1 1 10 0)) Samples.usual_week
             Scenes.three_tasks) !! "task-1"%string
     = jobs Scenes.three_tasks !! "task-1"%string.
Proof.
  apply (X21_maintenance_leaves_others (cron := Samples.daily_noon)
           (lunar := Samples.lunar_new_year_2025)
           (Scenes.clock (datetime.make 2025 1 1 1 10 0)) Samples.usual_week
           Scenes.three_tasks "task-1").
  - exact three_tasks_keyed.
  - intros row Hrow. vm_compute in Hrow. injection Hrow as <-. discriminate.
Defined.

Lemma X22_maintenance_recalculates_each_witness :
  rows (daily_maintenance_job (cron := Samples.daily_noon)
          (lunar := Samples.lunar_new_year_2025)
          (Scenes.clock (datetime.make 2025 1 1 1 10 0)) Samples.usual_week
          Scenes.three_tasks) !! "task-3"%string
  = rows (recalculate_task (cron := Samples.daily_noon)
            (lunar := Samples.lunar_new_year_2025)
            (Scenes.clock (datetime.make 2025 1 1 1 10 0))
            (Scenes.workday_row PENDING_CALCULATION (Some (datetime.make 2025 1 1 12 0 0)))
            (with_calendar Samples.usual_week Scenes.three_tasks)) !! "task-3"%string
  /\ jobs (daily_maintenance_job (cron := Samples.daily_noon)
             (lunar := Samples.lunar_new_year_2025)
             (Scenes.clock (datetime.make 2025 1 1 1 10 0)) Samples.usual_week
             Scenes.three_tasks) !! "task-3"%string
     = jobs (recalculate_task (cron := Samples.daily_noon)
               (lunar := Samples.lunar_new_year_2025)
               (Scenes.clock (datetime.make 2025 1 1 1 10 0))
               (Scenes.workday_row PENDING_CALCULATION
                  (Some (datetime.make 2025 1 1 12 0 0)))
               (with_calendar Samples.usual_week Scenes.three_tasks)) !! "task-3"%string.
Proof.
  apply (X22_maintenance_recalculates_each (cron := Samples.daily_noon)
           (lunar := Samples.lunar_new_year_2025)
           (Scenes.clock (datetime.make 2025 1 1 1 10 0)) Samples.usual_week
           Scenes.three_tasks "task-3").
  - exact three_tasks_keyed.
  - vm_compute. reflexivity.
  - reflexivity.
Defined.

Lemma X24_maintenance_arms_resolved_witness :
  jobs (daily_maintenance_job (cron := Samples.daily_noon)
          (lunar := Samples.lunar_new_year_2025)
          (Scenes.clock (datetime.make 2025 1 1 1 10 0)) Samples.usual_week
          Scenes.three_tasks) !! "task-3"%string
  = Some {| run_date := datetime.make 2025 1 2 12 0 0;
            job_task_id := "task-3";
            job_name := "water the plants";
            misfire_grace_time := 3600 |}
  /\ exists row,
      rows (daily_maintenance_job (cron := Samples.daily_noon)
              (lunar := Samples.lunar_new_year_2025)
              (Scenes.clock (datetime.make 2025 1 1 1 10 0)) Samples.usual_week
              Scenes.three_tasks) !! "task-3"%string = Some row
      /\ tasks.status row = PENDING
      /\ tasks.next_trigger_time row = Some (datetime.make 2025 1 2 12 0 0).
Proof.
  apply (X24_maintenance_arms_resolved (cron := Samples.daily_noon)
           (lunar := Samples.lunar_new_year_2025)
           (Scenes.clock (datetime.make 2025 1 1 1 10 0)) Samples.usual_week
           Scenes.three_tasks "task-3"
           (Scenes.workday_row PENDING_CALCULATION (Some (datetime.make 2025 1 1 12 0 0)))
           (Samples.recurring_with Samples.workday_rule) Samples.workday_rule
           (datetime.make 2025 1 1 12 0 0) (datetime.make 2025 1 1 11 59 0)).
  - exact three_tasks_keyed.
  - vm_compute. reflexivity.
  - reflexivity.
  - reflexivity.
  - reflexivity.
  - reflexivity.
  - reflexivity.
  - reflexivity.
  - vm_compute. reflexivity.
Defined.

Lemma X23_maintenance_outcome_witness :
  exists row,
    rows (daily_maintenance_job (cron := Samples.daily_noon)
            (lunar := Samples.lunar_new_year_2025)
            (Scenes.clock (datetime.make 2025 1 1 1 10 0)) Samples.no_calendar
            Scenes.three_tasks) !! "task-3"%string = Some row
    /\ ((tasks.status row = PENDING
         /\ exists t, tasks.next_trigger_time row = Some t
                      /\ jobs (daily_maintenance_job (cron := Samples.daily_noon)
                                 (lunar := Samples.lunar_new_year_2025)
                                 (Scenes.clock (datetime.make 2025 1 1 1 10 0))
                                 Samples.no_calendar Scenes.three_tasks) !! "task-3"%string
                         = Some (job_of (Scenes.workday_row PENDING_CALCULATION
                                           (Some (datetime.make 2025 1 1 12 0 0))) t))
        \/ (tasks.status row = PENDING_CALCULATION
            /\ (exists t, tasks.next_trigger_time row = Some t)
            /\ jobs (daily_maintenance_job (cron := Samples.daily_noon)
                       (lunar := Samples.lunar_new_year_2025)
                       (Scenes.clock (datetime.make 2025 1 1 1 10 0))
                       Samples.no_calendar Scenes.three_tasks) !! "task-3"%string
               = jobs Scenes.three_tasks !! "task-3"%string)
        \/ ((tasks.status row = FAILED \/ tasks.status row = COMPLETED)
            /\ jobs (daily_maintenance_job (cron := Samples.daily_noon)
                       (lunar := Samples.lunar_new_year_2025)
                       (Scenes.clock (datetime.make 2025 1 1 1 10 0))
                       Samples.no_calendar Scenes.three_tasks) !! "task-3"%string
               = None)).
Proof.
  apply (X23_maintenance_outcome (cron := Samples.daily_noon)
           (lunar := Samples.lunar_new_year_2025)
           (Scenes.clock (datetime.make 2025 1 1 1 10 0)) Samples.no_calendar
           Scenes.three_tasks "task-3"
           (Scenes.workday_row PENDING_CALCULATION (Some (datetime.make 2025 1 1 12 0 0)))).
  - exact three_tasks_keyed.
  - vm_compute. reflexivity.
  - reflexivity.
Defined.

(** ** Creating and deleting a task *)

Lemma calculate_initial_status {cron : Croniter} {lunar : LunarCalendar}
    (task_info : TaskInfoCreate) (getter : Z -> list HolidayDateDB) (now : datetime)
    (trigger : option datetime) (st : TaskStatusEnum) :
  calculate_initial_trigger_time task_info getter now = Returned (trigger, st) ->
  (trigger = None /\ (st = FAILED \/ st = COMPLETED))
  \/ (exists t, trigger = Some t /\ (st = PENDING \/ st = PENDING_CALCULATION)).
Proof.
  unfold calculate_initial_trigger_time.
  destruct (schemas.is_recurring task_info).
  - destruct (cron_config task_info) as [cfg|]; [|discriminate].
    apply get_next_status.
  - destruct (one_time_specific_config task_info) as [one_time|].
    + destruct (trigger_at one_time <=? now).
      * unfold mbind, outcome_bind, datetime.add.
        destruct (datetime.in_range _); [|discriminate]. intros [= <- <-]. eauto.
      * intros [= <- <-]. eauto.
    + destruct (countdown_config task_info) as [cd|]; [|discriminate].
      unfold try_except_ValueError, mbind, outcome_bind, datetime.add.
      destruct (parse_countdown_duration _) as [delta|[|] ].
      * destruct (datetime.in_range _); [|discriminate]. intros [= <- <-]. eauto.
      * intros [= <- <-]. auto.
      * discriminate.
Qed.

(** X25.  A task that [create_new_task_structured] answers with was stored
    under the new identifier with the trigger time and status
    [calculate_initial_trigger_time] computed; that status is PENDING,
    PENDING_CALCULATION or COMPLETED, never FAILED; and a timer is armed for
    it, at its trigger time, exactly when it is PENDING - otherwise the
    timers are as they were. *)
Theorem X25_create_stores_and_arms {cron : Croniter} {lunar : LunarCalendar}
    (new_id : string) (task_info : schemas.TaskInfoCreate) (now : datetime)
    (w w' : World) (row : tasks.ReminderTaskDB) :
  create_new_task_structured new_id task_info now w = Responded (row, w') ->
  calculate_initial_trigger_time task_info (holiday_dates_for_year w) now
  = Returned (tasks.next_trigger_time row, tasks.status row)
  /\ tasks.id row = new_id
  /\ tasks.task_info row = Some task_info
  /\ rows w' = <[ new_id := row ]> (rows w)
  /\ (tasks.status row = PENDING \/ tasks.status row = PENDING_CALCULATION
      \/ tasks.status row = COMPLETED)
  /\ (tasks.status row = PENDING ->
      exists t, tasks.next_trigger_time row = Some t
                /\ jobs w' = <[ new_id := job_of row t ]> (jobs w))
  /\ (tasks.status row <> PENDING -> jobs w' = jobs w).
Proof.
  unfold create_new_task_structured.
  destruct (calculate_initial_trigger_time _ _ _) as [ [trigger st]|e] eqn:Hcalc;
    [|destruct e; discriminate].
  pose proof (calculate_initial_status _ _ _ _ _ Hcalc) as Hst.
  destruct Hst as [ [-> [-> | ->] ]|(t & -> & [-> | ->])];
    try discriminate; unfold create_task; world_simpl;
    intros [= <- <-]; world_simpl;
    (split; [reflexivity|]); (split; [reflexivity|]); (split; [reflexivity|]);
    (split; [reflexivity|]).
  - split; [auto|]. split; [discriminate|reflexivity].
  - split; [auto|]. split; [|intros H; contradiction H; reflexivity].
    intros _. exists t. split; [reflexivity|].
    unfold add_or_update_job_in_scheduler, job_of. world_simpl. reflexivity.
  - split; [auto|]. split; [discriminate|reflexivity].
Qed.

Lemma X25_create_stores_and_arms_witness :
  exists row w',
    create_new_task_structured (cron := Samples.daily_noon)
      (lunar := Samples.lunar_new_year_2025)
      "task-4" (Samples.countdown_of "30m") Samples.new_year_morning Scenes.three_tasks
    = Responded (row, w')
    /\ tasks.status row = PENDING
    /\ tasks.next_trigger_time row = Some (datetime.make 2025 1 1 10 0 0)
    /\ exists t, tasks.next_trigger_time row = Some t
                 /\ jobs w' = <[ "task-4"%string := job_of row t ]> (jobs Scenes.three_tasks).
Proof.
  destruct (create_new_task_structured (cron := Samples.daily_noon)
              (lunar := Samples.lunar_new_year_2025)
              "task-4" (Samples.countdown_of "30m") Samples.new_year_morning
              Scenes.three_tasks) as [ [row w']| |] eqn:Hcreate;
    [|vm_compute in Hcreate; discriminate|vm_compute in Hcreate; discriminate].
  exists row, w'. split; [reflexivity|].
  destruct (X25_create_stores_and_arms (cron := Samples.daily_noon)
              (lunar := Samples.lunar_new_year_2025)
              "task-4" (Samples.countdown_of "30m") Samples.new_year_morning
              Scenes.three_tasks w' row Hcreate)
    as (Hcalc & _ & _ & _ & _ & Harm & _).
  vm_compute in Hcalc. injection Hcalc as Hnext Hstatus.
  split; [symmetry; exact Hstatus|]. split; [symmetry; exact Hnext|].
  apply Harm. symmetry. exact Hstatus.
Defined.

(** X26.  [create_new_task_structured] refuses with HTTP 400, storing and
    arming nothing, exactly when the computation of the trigger time raises
    ValueError or returns no trigger with status FAILED; it raises no other
    HTTP error. *)
Theorem X26_create_refuses_unschedulable {cron : Croniter} {lunar : LunarCalendar}
    (new_id : string) (task_info : schemas.TaskInfoCreate) (now : datetime) (w : World) :
  (create_new_task_structured new_id task_info now w = HTTPException 400
   <-> (calculate_initial_trigger_time task_info (holiday_dates_for_year w) now
        = Raised ValueError
        \/ calculate_initial_trigger_time task_info (holiday_dates_for_year w) now
           = Returned (None, FAILED)))
  /\ (forall code, create_new_task_structured new_id task_info now w = HTTPException code ->
                   code = 400).
Proof.
  unfold create_new_task_structured.
  destruct (calculate_initial_trigger_time _ _ _) as [ [trigger st]|e].
  - destruct trigger as [t|], st; unfold create_task; world_simpl;
      (split; [split; [try discriminate; auto|intros [H|H]; try discriminate; auto]
              |intros code H; try discriminate; injection H as <-; reflexivity]).
  - destruct e.
    + split; [split; auto|]. intros code [= <-]. reflexivity.
    + split; [split; [discriminate|intros [H|H]; discriminate]|discriminate].
Qed.

(** X27.  Deleting undoes creating: a task created under a fresh identifier
    and then deleted leaves the table and the timers as they were before it
    was created. *)
Theorem X27_delete_undoes_create {cron : Croniter} {lunar : LunarCalendar}
    (new_id : string) (task_info : schemas.TaskInfoCreate) (now : datetime)
    (w w' : World) (row : tasks.ReminderTaskDB) :
  rows w !! new_id = None ->
  jobs w !! new_id = None ->
  create_new_task_structured new_id task_info now w = Responded (row, w') ->
  exists w'',
    delete_existing_task new_id w' = Responded w''
    /\ rows w'' = rows w
    /\ jobs w'' = jobs w.
Proof.
  intros Hfresh Hnojob Hcreate.
  assert (Hrows : rows w' = <[ new_id := row ]> (rows w)
                  /\ (jobs w' = jobs w
                      \/ exists job, jobs w' = <[ new_id := job ]> (jobs w))).
  { revert Hcreate. unfold create_new_task_structured.
    destruct (calculate_initial_trigger_time _ _ _) as [ [trigger st]|e];
      [|destruct e; discriminate].
    destruct trigger as [t|], st; unfold create_task; world_simpl;
      try discriminate; intros [= <- <-]; world_simpl;
      (split; [reflexivity|]); auto.
    right. unfold add_or_update_job_in_scheduler. world_simpl. eauto. }
  destruct Hrows as [Hrows Hjobs].
  unfold delete_existing_task. rewrite Hrows, lookup_insert_eq.
  eexists. split; [reflexivity|]. unfold delete_task. world_simpl.
  rewrite Hrows, delete_insert_eq, remove_job_is_delete.
  split; [apply delete_id, Hfresh|].
  destruct Hjobs as [-> |[job ->] ].
  - apply delete_id, Hnojob.
  - rewrite delete_insert_eq. apply delete_id, Hnojob.
Qed.

Lemma X27_delete_undoes_create_witness :
  exists row w' w'',
    create_new_task_structured (cron := Samples.daily_noon)
      (lunar := Samples.lunar_new_year_2025)
      "task-4" (Samples.countdown_of "30m") Samples.new_year_morning Scenes.three_tasks
    = Responded (row, w')
    /\ delete_existing_task "task-4" w' = Responded w''
    /\ rows w'' = rows Scenes.three_tasks
    /\ jobs w'' = jobs Scenes.three_tasks.
Proof.
  destruct (create_new_task_structured (cron := Samples.daily_noon)
              (lunar := Samples.lunar_new_year_2025)
              "task-4" (Samples.countdown_of "30m") Samples.new_year_morning
              Scenes.three_tasks) as [ [row w']| |] eqn:Hcreate;
    [|vm_compute in Hcreate; discriminate|vm_compute in Hcreate; discriminate].
  destruct (X27_delete_undoes_create (cron := Samples.daily_noon)
              (lunar := Samples.lunar_new_year_2025)
              "task-4" (Samples.countdown_of "30m") Samples.new_year_morning
              Scenes.three_tasks w' row) as (w'' & Hdelete & Hrows & Hjobs).
  - vm_compute. reflexivity.
  - vm_compute. reflexivity.
  - exact Hcreate.
  - exists row, w', w''. auto.
Defined.

(** ** The deep merge *)

Section DeepUpdate.
Context {A : Type}.
Implicit Types (target updates : list (string * pyvalue A)) (key : string).

Lemma merged_value_dicts target updates :
  merged_value (Some (Dict target)) (Dict updates)
  = Dict (deep_update_internal target updates).
Proof.
  simpl. f_equal. revert target.
  induction updates as [ | [key v] rest IH]; intros target; simpl; [reflexivity | ].
  apply IH.
Qed.

Lemma merged_value_other (current : option (pyvalue A)) (a : A) :
  merged_value current (Other a) = Other a.
Proof. reflexivity. Qed.

Lemma merged_value_fresh (current : option (pyvalue A)) updates :
  (forall target, current <> Some (Dict target)) ->
  merged_value current (Dict updates) = Dict updates.
Proof.
  intros Hnot. destruct current as [ [a | target] | ]; try reflexivity.
  exfalso. exact (Hnot target eq_refl).
Qed.

Lemma dict_get_set_same {V : Type} key (value : V) (d : list (string * V)) :
  dict_get key (dict_set key value d) = Some value.
Proof.
  induction d as [ | [k v] rest IH]; simpl.
  - rewrite String.eqb_refl. reflexivity.
  - destruct (String.eqb k key) eqn:E; simpl; rewrite E; [reflexivity | exact IH].
Qed.

Lemma dict_get_set_other {V : Type} key key' (value : V) (d : list (string * V)) :
  key <> key' ->
  dict_get key (dict_set key' value d) = dict_get key d.
Proof.
  intros Hne. induction d as [ | [k v] rest IH]; simpl.
  - destruct (String.eqb key' key) eqn:E; [ | reflexivity].
    apply String.eqb_eq in E. congruence.
  - destruct (String.eqb k key') eqn:E; simpl.
    + apply String.eqb_eq in E. subst k.
      destruct (String.eqb key' key) eqn:E'; [ | reflexivity].
      apply String.eqb_eq in E'. congruence.
    + rewrite IH. reflexivity.
Qed.

Lemma dict_set_unchanged {V : Type} key (value : V) (d : list (string * V)) :
  dict_get key d = Some value -> dict_set key value d = d.
Proof.
  induction d as [ | [k v] rest IH]; simpl; [discriminate | ].
  destruct (String.eqb k key) eqn:E.
  - intros [= ->]. reflexivity.
  - intros H. rewrite (IH H). reflexivity.
Qed.

Lemma dict_get_none {V : Type} key (d : list (string * V)) :
  dict_get key d = None <-> ~ In key (List.map fst d).
Proof.
  induction d as [ | [k v] rest IH]; simpl.
  - split; [intros _ [] | reflexivity].
  - destruct (String.eqb k key) eqn:E.
    + apply String.eqb_eq in E. split; [discriminate | intros H; exfalso; apply H; left; exact E].
    + apply String.eqb_neq in E. rewrite IH. split.
      * intros H [He | Hin]; [exact (E He) | exact (H Hin)].
      * intros H Hin. apply H. right. exact Hin.
Qed.

Lemma dict_get_in {V : Type} key (value : V) (d : list (string * V)) :
  List.NoDup (List.map fst d) -> In (key, value) d -> dict_get key d = Some value.
Proof.
  induction d as [ | [k v] rest IH]; simpl; [intros _ [] | ].
  intros Hnd [He | Hin].
  - injection He as -> ->. rewrite String.eqb_refl. reflexivity.
  - inversion Hnd as [ | ? ? Hk Hrest]; subst.
    destruct (String.eqb k key) eqn:E.
    + apply String.eqb_eq in E. subst k. exfalso. apply Hk.
      apply (List.in_map fst) in Hin. exact Hin.
    + exact (IH Hrest Hin).
Qed.

Lemma dict_get_some_in {V : Type} key (value : V) (d : list (string * V)) :
  dict_get key d = Some value -> In (key, value) d.
Proof.
  induction d as [ | [k v] rest IH]; simpl; [discriminate | ].
  destruct (String.eqb k key) eqn:E.
  - apply String.eqb_eq in E. intros [= ->]. left. congruence.
  - intros H. right. exact (IH H).
Qed.

Lemma dict_set_keys {V : Type} key (value : V) (d : list (string * V)) :
  List.map fst (dict_set key value d)
  = List.map fst d ++ (if dict_has key d then [] else [key]).
Proof.
  unfold dict_has. induction d as [ | [k v] rest IH]; simpl; [reflexivity | ].
  destruct (String.eqb k key) eqn:E; simpl.
  - rewrite List.app_nil_r. reflexivity.
  - rewrite IH. reflexivity.
Qed.

Lemma deep_update_untouched target updates key :
  dict_get key updates = None ->
  dict_get key (deep_update_internal target updates) = dict_get key target.
Proof.
  revert target. induction updates as [ | [k v] rest IH]; intros target; simpl;
    [reflexivity | ].
  destruct (String.eqb k key) eqn:E; [discriminate | ].
  intros Hrest. rewrite (IH _ Hrest).
  apply dict_get_set_other. apply String.eqb_neq in E. congruence.
Qed.

Lemma deep_update_updated target updates key value :
  List.NoDup (List.map fst updates) ->
  dict_get key updates = Some value ->
  dict_get key (deep_update_internal target updates)
  = Some (merged_value (dict_get key target) value).
Proof.
  revert target. induction updates as [ | [k v] rest IH]; intros target; simpl;
    [discriminate | ].
  intros Hnd. inversion Hnd as [ | ? ? Hk Hrest]; subst.
  destruct (String.eqb k key) eqn:E.
  - apply String.eqb_eq in E. subst k. intros [= ->].
    rewrite deep_update_untouched by (apply dict_get_none; exact Hk).
    apply dict_get_set_same.
  - intros Hget. rewrite (IH _ Hrest Hget).
    rewrite dict_get_set_other; [reflexivity | ].
    apply String.eqb_neq in E. congruence.
Qed.

Lemma deep_update_settled target updates :
  (forall key value, In (key, value) updates ->
     exists held, dict_get key target = Some held
                  /\ merged_value (Some held) value = held) ->
  deep_update_internal target updates = target.
Proof.
  induction updates as [ | [k v] rest IH]; simpl; [reflexivity | ].
  intros H. destruct (H k v (or_introl eq_refl)) as (held & Hget & Hm).
  rewrite Hget, Hm, (dict_set_unchanged _ _ _ Hget).
  apply IH. intros key value Hin. apply H. right. exact Hin.
Qed.

Lemma unique_keys_settled (value : pyvalue A) :
  unique_keys value ->
  merged_value (Some value) value = value
  /\ (forall current,
        merged_value (Some (merged_value current value)) value
        = merged_value current value).
Proof.
  revert value.
  fix IH 2. intros value Hu. destruct Hu as [a | items Hnd Hall].
  - split; reflexivity.
  - assert (Hitems : Forall (fun kv =>
                        merged_value (Some (snd kv)) (snd kv) = snd kv
                        /\ (forall current,
                              merged_value (Some (merged_value current (snd kv))) (snd kv)
                              = merged_value current (snd kv))) items).
    { clear Hnd. induction Hall as [ | kv rest Hkv Hrest IHrest]; constructor.
      - exact (IH _ Hkv).
      - exact IHrest. }
    clear IH.
    assert (Hself : deep_update_internal items items = items).
    { apply deep_update_settled. intros key v Hin. exists v. split.
      - exact (dict_get_in _ _ _ Hnd Hin).
      - rewrite List.Forall_forall in Hitems. exact (proj1 (Hitems _ Hin)). }
    assert (Hagain : forall target,
               deep_update_internal (deep_update_internal target items) items
               = deep_update_internal target items).
    { intros target. apply deep_update_settled. intros key v Hin.
      exists (merged_value (dict_get key target) v). split.
      - apply deep_update_updated; [exact Hnd | exact (dict_get_in _ _ _ Hnd Hin)].
      - rewrite List.Forall_forall in Hitems. exact (proj2 (Hitems _ Hin) _). }
    split.
    + rewrite merged_value_dicts, Hself. reflexivity.
    + intros [ [a | target] | ].
      * change (merged_value (Some (Other a)) (Dict items)) with (Dict items).
        rewrite merged_value_dicts, Hself. reflexivity.
      * rewrite !merged_value_dicts, Hagain. reflexivity.
      * change (merged_value None (Dict items)) with (Dict items).
        rewrite merged_value_dicts, Hself. reflexivity.
Qed.

Lemma dict_has_set {V : Type} key key' (value : V) (d : list (string * V)) :
  key <> key' -> dict_has key (dict_set key' value d) = dict_has key d.
Proof. intros Hne. unfold dict_has. rewrite dict_get_set_other by exact Hne. reflexivity. Qed.

Lemma deep_update_keys target updates :
  List.NoDup (List.map fst updates) ->
  List.map fst (deep_update_internal target updates)
  = List.map fst target
    ++ List.filter (fun key => negb (dict_has key target)) (List.map fst updates).
Proof.
  revert target. induction updates as [ | [k v] rest IH]; intros target Hnd; simpl.
  - rewrite List.app_nil_r. reflexivity.
  - inversion Hnd as [ | ? ? Hk Hrest]; subst.
    rewrite (IH _ Hrest), dict_set_keys.
    assert (Hsame : List.filter
                      (fun key => negb (dict_has key
                         (dict_set k (merged_value (dict_get k target) v) target)))
                      (List.map fst rest)
                    = List.filter (fun key => negb (dict_has key target))
                        (List.map fst rest)).
    { apply List.filter_ext_in. intros key Hin. rewrite dict_has_set; [reflexivity | ].
      intros ->. exact (Hk Hin). }
    rewrite Hsame. destruct (dict_has k target); simpl.
    + rewrite List.app_nil_r. reflexivity.
    + rewrite <- List.app_assoc. reflexivity.
Qed.

Lemma deep_update_not_mentioned (path : list string) :
  forall target updates (held : pyvalue A),
    unique_keys (Dict updates) ->
    not_mentioned path updates = true ->
    value_at path (Dict target) = Some held ->
    value_at path (Dict (deep_update_internal target updates)) = Some held.
Proof.
  induction path as [ | key rest IH]; intros target updates held Hu; simpl;
    [discriminate | ].
  destruct (dict_get key updates) as [ [a | inner] | ] eqn:Hget; try discriminate.
  - intros Hrest Hheld.
    inversion Hu as [ | ? Hnd Hall]; subst.
    rewrite (deep_update_updated _ _ _ _ Hnd Hget).
    destruct (dict_get key target) as [ [b | t'] | ] eqn:Ht; try discriminate.
    + destruct rest; discriminate.
    + rewrite merged_value_dicts. apply IH; [ | exact Hrest | exact Hheld].
      rewrite List.Forall_forall in Hall.
      exact (Hall _ (dict_get_some_in _ _ _ Hget)).
  - intros _ Hheld. rewrite (deep_update_untouched _ _ _ Hget). exact Hheld.
Qed.

Lemma deep_update_leaf (path : list string) :
  forall target updates (a : A),
    unique_keys (Dict updates) ->
    value_at path (Dict updates) = Some (Other a) ->
    value_at path (Dict (deep_update_internal target updates)) = Some (Other a).
Proof.
  induction path as [ | key rest IH]; intros target updates a Hu; simpl;
    [discriminate | ].
  destruct (dict_get key updates) as [ inner | ] eqn:Hget; [ | discriminate].
  inversion Hu as [ | ? Hnd Hall]; subst.
  rewrite (deep_update_updated _ _ _ _ Hnd Hget).
  intros Hleaf. destruct inner as [b | inner].
  - rewrite merged_value_other. exact Hleaf.
  - assert (Hinner : unique_keys (Dict inner)).
    { rewrite List.Forall_forall in Hall.
      exact (Hall _ (dict_get_some_in _ _ _ Hget)). }
    destruct (dict_get key target) as [ [c | t'] | ].
    + exact Hleaf.
    + rewrite merged_value_dicts. exact (IH _ _ _ Hinner Hleaf).
    + exact Hleaf.
Qed.

Lemma deep_update_twice target updates :
  unique_keys (Dict updates) ->
  deep_update_internal (deep_update_internal target updates) updates
  = deep_update_internal target updates.
Proof.
  intros Hu.
  pose proof (proj2 (unique_keys_settled _ Hu) (Some (Dict target))) as H.
  rewrite !merged_value_dicts in H. injection H as H. exact H.
Qed.

Lemma deep_update_unique target updates :
  List.NoDup (List.map fst target) ->
  List.NoDup (List.map fst updates) ->
  List.NoDup (List.map fst (deep_update_internal target updates)).
Proof.
  intros Ht Hu. rewrite (deep_update_keys _ _ Hu).
  apply List.NoDup_app.
  - exact Ht.
  - apply List.NoDup_filter. exact Hu.
  - intros key Hin Hin'. apply List.filter_In in Hin' as [_ Hno].
    unfold dict_has in Hno.
    destruct (dict_get key target) eqn:Hget; [discriminate | ].
    apply dict_get_none in Hget. exact (Hget Hin).
Qed.

End DeepUpdate.

(** X28.  The deep merge is a partial update.  A value of the target on a
    path the update does not mention is still there; a value of the update
    that is not a dict is afterwards found on the same path; and a dict of
    the update put over a key that held no dict is stored as it is. *)
Theorem X28_merge_keeps_and_overrides {A : Type}
    (target updates : list (string * pyvalue A)) (path : list string) :
  unique_keys (Dict updates) ->
  (forall held,
     not_mentioned path updates = true ->
     value_at path (Dict target) = Some held ->
     value_at path (Dict (deep_update_internal target updates)) = Some held)
  /\ (forall a,
        value_at path (Dict updates) = Some (Other a) ->
        value_at path (Dict (deep_update_internal target updates)) = Some (Other a))
  /\ (forall key inner,
        dict_get key updates = Some (Dict inner) ->
        (forall held, dict_get key target <> Some (Dict held)) ->
        dict_get key (deep_update_internal target updates) = Some (Dict inner)).
Proof.
  intros Hu. split; [ | split].
  - intros held Hnot Hheld. exact (deep_update_not_mentioned _ _ _ _ Hu Hnot Hheld).
  - intros a Hleaf. exact (deep_update_leaf _ _ _ _ Hu Hleaf).
  - intros key inner Hget Hnone.
    inversion Hu as [ | ? Hnd _]; subst.
    rewrite (deep_update_updated _ _ _ _ Hnd Hget).
    rewrite (merged_value_fresh _ _ Hnone). reflexivity.
Qed.

Ltac distinct_keys :=
  simpl; repeat (apply List.NoDup_cons; [simpl; intuition discriminate | ]);
  apply List.NoDup_nil.

Lemma partial_update_unique_keys : unique_keys (Dict Scenes.partial_update).
Proof.
  apply unique_keys_dict; [distinct_keys | ].
  apply List.Forall_cons;
    [ | apply List.Forall_cons; [apply unique_keys_other | apply List.Forall_nil] ].
  apply unique_keys_dict; [distinct_keys | ].
  repeat (apply List.Forall_cons; [apply unique_keys_other | ]). apply List.Forall_nil.
Qed.

Lemma X28_merge_keeps_and_overrides_witness :
  value_at ["cron_config"%string; "is_lunar"%string]
    (Dict (deep_update_internal Scenes.stored_info Scenes.partial_update))
  = Some (Other "false"%string)
  /\ value_at ["cron_config"%string; "cron_expression"%string]
       (Dict (deep_update_internal Scenes.stored_info Scenes.partial_update))
     = Some (Other "0 8 * * *"%string).
Proof.
  split.
  - refine (proj1 (X28_merge_keeps_and_overrides Scenes.stored_info Scenes.partial_update
                     ["cron_config"%string; "is_lunar"%string]
                     partial_update_unique_keys) _ _ _); reflexivity.
  - refine (proj1 (proj2 (X28_merge_keeps_and_overrides Scenes.stored_info
                            Scenes.partial_update
                            ["cron_config"%string; "cron_expression"%string]
                            partial_update_unique_keys)) _ _); reflexivity.
Defined.

(** X29.  Merging the same update a second time changes nothing; the merge
    drops no key and moves none: the keys of the result are those of the
    target in their order, followed by the new keys in the order of the
    update, and each key is there once if it was so in the target. *)
Theorem X29_merge_idempotent {A : Type} (target updates : list (string * pyvalue A)) :
  unique_keys (Dict updates) ->
  deep_update_internal (deep_update_internal target updates) updates
  = deep_update_internal target updates
  /\ List.map fst (deep_update_internal target updates)
     = List.map fst target
       ++ List.filter (fun key => negb (dict_has key target)) (List.map fst updates)
  /\ (List.NoDup (List.map fst target) ->
      List.NoDup (List.map fst (deep_update_internal target updates))).
Proof.
  intros Hu. inversion Hu as [ | ? Hnd _]; subst. split; [ | split].
  - exact (deep_update_twice _ _ Hu).
  - exact (deep_update_keys _ _ Hnd).
  - intros Ht. exact (deep_update_unique _ _ Ht Hnd).
Qed.

Lemma X29_merge_idempotent_witness :
  deep_update_internal (deep_update_internal Scenes.stored_info Scenes.partial_update)
    Scenes.partial_update
  = deep_update_internal Scenes.stored_info Scenes.partial_update
  /\ List.map fst (deep_update_internal Scenes.stored_info Scenes.partial_update)
     = ["reminder_content"%string; "cron_config"%string; "task_name"%string].
Proof.
  split.
  - exact (proj1 (X29_merge_idempotent Scenes.stored_info Scenes.partial_update
                    partial_update_unique_keys)).
  - rewrite (proj1 (proj2 (X29_merge_idempotent Scenes.stored_info Scenes.partial_update
                             partial_update_unique_keys))).
    reflexivity.
Defined.

(** ** Placeholders *)

Lemma prefix_cons (a b : ascii) (s1 s2 : string) :
  String.prefix (String a s1) (String b s2)
  = if ascii_dec a b then String.prefix s1 s2 else false.
Proof. reflexivity. Qed.

Lemma replace_scan_brace_free (old' new s : string) :
  brace_free s = true -> replace_scan (String "{" old') new O s = s.
Proof.
  induction s as [ | c rest IH]; cbn [replace_scan brace_free]; [reflexivity | ].
  intros H. apply andb_prop in H as [Hc Hrest].
  rewrite prefix_cons.
  destruct (ascii_dec "{" c) as [<- | _]; [discriminate | ].
  rewrite (IH Hrest). reflexivity.
Qed.

Lemma replace_placeholders_in_str_brace_free replacements (s : string) :
  brace_free s = true -> replace_placeholders_in_str replacements s = s.
Proof.
  unfold replace_placeholders_in_str.
  induction replacements as [ | [key value] rest IH]; simpl; [reflexivity | ].
  intros H. rewrite !append_cons. unfold str_replace.
  rewrite !(replace_scan_brace_free _ _ _ H). exact (IH H).
Qed.

Lemma replace_placeholders_outline {A : Type} replacements :
  forall v : json A,
    outline (replace_placeholders_in_data v replacements) = outline v.
Proof.
  fix IH 1. intros [items | items | s | a]; simpl; try reflexivity.
  - f_equal. induction items as [ | [key value] rest IHrest]; simpl; [reflexivity | ].
    rewrite IH, IHrest. reflexivity.
  - f_equal. induction items as [ | item rest IHrest]; simpl; [reflexivity | ].
    rewrite IH, IHrest. reflexivity.
Qed.

Lemma replace_placeholders_nothing_to_do {A : Type} replacements :
  forall v : json A,
    without_placeholders v = true ->
    replace_placeholders_in_data v replacements = v.
Proof.
  fix IH 1. intros [items | items | s | a]; simpl; try reflexivity.
  - intros H. f_equal.
    induction items as [ | [key value] rest IHrest]; simpl in *; [reflexivity | ].
    apply andb_prop in H as [Hv Hrest].
    rewrite (IH _ Hv), (IHrest Hrest). reflexivity.
  - intros H. f_equal.
    induction items as [ | item rest IHrest]; simpl in *; [reflexivity | ].
    apply andb_prop in H as [Hv Hrest].
    rewrite (IH _ Hv), (IHrest Hrest). reflexivity.
  - intros H. rewrite (replace_placeholders_in_str_brace_free _ _ H). reflexivity.
Qed.

Lemma replace_placeholders_no_replacements {A : Type} :
  forall v : json A, replace_placeholders_in_data v [] = v.
Proof.
  fix IH 1. intros [items | items | s | a]; simpl; try reflexivity.
  - f_equal. induction items as [ | [key value] rest IHrest]; simpl; [reflexivity | ].
    rewrite IH, IHrest. reflexivity.
  - f_equal. induction items as [ | item rest IHrest]; simpl; [reflexivity | ].
    rewrite IH, IHrest. reflexivity.
Qed.

Lemma ascii_dec_same (c : ascii) (T : Type) (x y : T) :
  (if ascii_dec c c then x else y) = x.
Proof. destruct (ascii_dec c c); [reflexivity | congruence]. Qed.

Lemma prefix_append (x s : string) : String.prefix x (append x s) = true.
Proof.
  induction x as [ | c x IH]; [destruct s; reflexivity | ].
  rewrite append_cons, prefix_cons, ascii_dec_same. exact IH.
Qed.

Lemma brace_free_append (a b : string) :
  brace_free (append a b) = brace_free a && brace_free b.
Proof.
  induction a as [ | c a IH]; [reflexivity | ].
  rewrite append_cons. cbn [brace_free]. rewrite IH, andb_assoc. reflexivity.
Qed.

Lemma plain_key_brace_free (key : string) : plain_key key = true -> brace_free key = true.
Proof.
  induction key as [ | c key IH]; [reflexivity | ]. cbn [plain_key brace_free].
  intros H. apply andb_prop in H as [H Hrest]. apply andb_prop in H as [Hopen _].
  rewrite Hopen, (IH Hrest). reflexivity.
Qed.

Lemma replace_scan_plain_prefix (old' new a s : string) :
  brace_free a = true ->
  replace_scan (String "{" old') new O (append a s)
  = append a (replace_scan (String "{" old') new O s).
Proof.
  induction a as [ | c a IH]; [reflexivity | ]. cbn [brace_free].
  intros H. apply andb_prop in H as [Hc Ha].
  rewrite !append_cons. cbn [replace_scan]. rewrite prefix_cons.
  destruct (ascii_dec "{" c) as [<- | _]; [discriminate | ].
  rewrite (IH Ha). reflexivity.
Qed.

Lemma replace_scan_skip (old new x s : string) :
  replace_scan old new (String.length x) (append x s) = replace_scan old new O s.
Proof.
  induction x as [ | c x IH]; [destruct s; reflexivity | ].
  rewrite append_cons. cbn [String.length replace_scan]. exact IH.
Qed.

Lemma replace_scan_found (old' new a b : string) :
  brace_free a = true -> brace_free b = true ->
  replace_scan (String "{" old') new O (append a (append (String "{" old') b))
  = append a (append new b).
Proof.
  intros Ha Hb. rewrite (replace_scan_plain_prefix _ _ _ _ Ha). f_equal.
  rewrite append_cons. cbn [replace_scan].
  rewrite <- (append_cons "{" old' b), prefix_append.
  cbn [String.length Nat.pred]. rewrite replace_scan_skip.
  rewrite (replace_scan_brace_free _ _ _ Hb). reflexivity.
Qed.

(** two different keys without braces, each followed by a closing brace:
    neither text begins with the other *)
Lemma prefix_other_key (k' key x y : string) :
  plain_key k' = true -> plain_key key = true -> k' <> key ->
  String.prefix (append k' (String "}" x)) (append key (String "}" y)) = false.
Proof.
  revert key. induction k' as [ | c' k' IH]; intros [ | c key]; cbn [plain_key].
  - congruence.
  - intros _ H _. apply andb_prop in H as [H _]. apply andb_prop in H as [_ Hclose].
    rewrite append_nil_l, append_cons, prefix_cons.
    destruct (ascii_dec "}" c) as [<- | _]; [discriminate | reflexivity].
  - intros H _ _. apply andb_prop in H as [H _]. apply andb_prop in H as [_ Hclose].
    rewrite append_nil_l, append_cons, prefix_cons.
    destruct (ascii_dec c' "}") as [-> | _]; [discriminate | reflexivity].
  - intros H' H Hne. apply andb_prop in H' as [_ Hk']. apply andb_prop in H as [_ Hk].
    rewrite !append_cons, prefix_cons.
    destruct (ascii_dec c' c) as [-> | _]; [ | reflexivity].
    apply IH; [exact Hk' | exact Hk | congruence].
Qed.

Lemma prefix_brace_key (old' key y : string) :
  plain_key key = true ->
  String.prefix (String "{" old') (append key (String "}" y)) = false.
Proof.
  destruct key as [ | c key]; cbn [plain_key].
  - reflexivity.
  - intros H. apply andb_prop in H as [H _]. apply andb_prop in H as [Hopen _].
    rewrite append_cons, prefix_cons.
    destruct (ascii_dec "{" c) as [<- | _]; [discriminate | reflexivity].
Qed.

Lemma prefix_key_brace (k' x y : string) :
  plain_key k' = true ->
  String.prefix (append k' (String "}" x)) (String "{" y) = false.
Proof.
  destruct k' as [ | c k']; cbn [plain_key].
  - reflexivity.
  - intros H. apply andb_prop in H as [H _]. apply andb_prop in H as [Hopen _].
    rewrite append_cons, prefix_cons.
    destruct (ascii_dec c "{") as [-> | _]; [discriminate | reflexivity].
Qed.

Lemma double_form (key : string) :
  append "{{" (append key "}}") = String "{" (String "{" (append key (String "}" "}"))).
Proof. reflexivity. Qed.

Lemma single_form (key : string) :
  append "{" (append key "}") = String "{" (append key (String "}" "")).
Proof. reflexivity. Qed.

Lemma double_text (key b : string) :
  append (append "{{" (append key "}}")) b
  = String "{" (String "{" (append key (String "}" (String "}" b)))).
Proof. rewrite double_form, !append_cons, append_associative. reflexivity. Qed.

Lemma single_text (key b : string) :
  append (append "{" (append key "}")) b = String "{" (append key (String "}" b)).
Proof. rewrite single_form, !append_cons, append_associative. reflexivity. Qed.

Lemma key_tail_brace_free (key tail : string) :
  plain_key key = true -> brace_free tail = true ->
  brace_free (append key (String "}" tail)) = true.
Proof.
  intros Hk Ht. rewrite brace_free_append, (plain_key_brace_free _ Hk).
  cbn [brace_free]. rewrite Ht. reflexivity.
Qed.

(** another key's placeholders are not found in a text whose only opening
    braces are those of this key's placeholder *)
Lemma other_key_double (k' key new a b : string) :
  plain_key k' = true -> plain_key key = true -> k' <> key ->
  brace_free a = true -> brace_free b = true ->
  str_replace (append "{{" (append k' "}}")) new
    (append a (append (append "{{" (append key "}}")) b))
  = append a (append (append "{{" (append key "}}")) b)
  /\ str_replace (append "{" (append k' "}")) new
       (append a (append (append "{{" (append key "}}")) b))
     = append a (append (append "{{" (append key "}}")) b).
Proof.
  intros Hk' Hk Hne Ha Hb.
  rewrite double_text, (double_form k'), (single_form k'). unfold str_replace.
  rewrite !(replace_scan_plain_prefix _ _ _ _ Ha).
  assert (Htail : brace_free (append key (String "}" (String "}" b))) = true).
  { apply key_tail_brace_free; [exact Hk | cbn [brace_free]; rewrite Hb; reflexivity]. }
  split; f_equal.
  - cbn [replace_scan]. rewrite !prefix_cons, !ascii_dec_same.
    rewrite (prefix_other_key _ _ _ _ Hk' Hk Hne).
    rewrite (prefix_brace_key _ _ _ Hk).
    rewrite (replace_scan_brace_free _ _ _ Htail). reflexivity.
  - cbn [replace_scan]. rewrite !prefix_cons, !ascii_dec_same.
    rewrite (prefix_key_brace _ _ _ Hk').
    rewrite (prefix_other_key _ _ _ _ Hk' Hk Hne).
    rewrite (replace_scan_brace_free _ _ _ Htail). reflexivity.
Qed.

Lemma other_key_single (k' key new a b : string) :
  plain_key k' = true -> plain_key key = true -> k' <> key ->
  brace_free a = true -> brace_free b = true ->
  str_replace (append "{{" (append k' "}}")) new
    (append a (append (append "{" (append key "}")) b))
  = append a (append (append "{" (append key "}")) b)
  /\ str_replace (append "{" (append k' "}")) new
       (append a (append (append "{" (append key "}")) b))
     = append a (append (append "{" (append key "}")) b).
Proof.
  intros Hk' Hk Hne Ha Hb.
  rewrite single_text, (double_form k'), (single_form k'). unfold str_replace.
  rewrite !(replace_scan_plain_prefix _ _ _ _ Ha).
  assert (Htail : brace_free (append key (String "}" b)) = true).
  { apply key_tail_brace_free; [exact Hk | exact Hb]. }
  split; f_equal.
  - cbn [replace_scan]. rewrite !prefix_cons, !ascii_dec_same.
    rewrite (prefix_brace_key _ _ _ Hk).
    rewrite (replace_scan_brace_free _ _ _ Htail). reflexivity.
  - cbn [replace_scan]. rewrite !prefix_cons, !ascii_dec_same.
    rewrite (prefix_other_key _ _ _ _ Hk' Hk Hne).
    rewrite (replace_scan_brace_free _ _ _ Htail). reflexivity.
Qed.

Lemma own_key_double (key new a b : string) :
  brace_free a = true -> brace_free b = true -> brace_free new = true ->
  str_replace (append "{" (append key "}")) new
    (str_replace (append "{{" (append key "}}")) new
       (append a (append (append "{{" (append key "}}")) b)))
  = append a (append new b).
Proof.
  intros Ha Hb Hnew. rewrite !double_form, single_form. unfold str_replace.
  rewrite (replace_scan_found _ _ _ _ Ha Hb).
  apply replace_scan_brace_free.
  rewrite !brace_free_append, Ha, Hb, Hnew. reflexivity.
Qed.

Lemma own_key_single (key new a b : string) :
  plain_key key = true ->
  brace_free a = true -> brace_free b = true ->
  str_replace (append "{" (append key "}")) new
    (str_replace (append "{{" (append key "}}")) new
       (append a (append (append "{" (append key "}")) b)))
  = append a (append new b).
Proof.
  intros Hk Ha Hb.
  assert (Hnot : str_replace (append "{{" (append key "}}")) new
                   (append a (append (append "{" (append key "}")) b))
                 = append a (append (append "{" (append key "}")) b)).
  { rewrite single_text, double_form. unfold str_replace.
    rewrite (replace_scan_plain_prefix _ _ _ _ Ha). f_equal.
    cbn [replace_scan]. rewrite !prefix_cons, !ascii_dec_same.
    rewrite (prefix_brace_key _ _ _ Hk).
    rewrite (replace_scan_brace_free _ _ _ (key_tail_brace_free _ _ Hk Hb)).
    reflexivity. }
  rewrite Hnot, single_form. unfold str_replace.
  exact (replace_scan_found _ _ _ _ Ha Hb).
Qed.

Lemma replace_placeholders_in_str_app before after (s : string) :
  replace_placeholders_in_str (before ++ after) s
  = replace_placeholders_in_str after (replace_placeholders_in_str before s).
Proof. unfold replace_placeholders_in_str. apply List.fold_left_app. Qed.

Lemma replace_placeholders_in_str_others before (key text : string) :
  (forall new,
     Forall (fun '(k', _) =>
               str_replace (append "{{" (append k' "}}")) new text = text
               /\ str_replace (append "{" (append k' "}")) new text = text)
       before) ->
  replace_placeholders_in_str before text = text.
Proof.
  unfold replace_placeholders_in_str.
  induction before as [ | [k' v'] rest IH]; simpl; [reflexivity | ].
  intros H. pose proof (H (value_to_replace_with v')) as Hhere.
  apply List.Forall_cons_iff in Hhere as [ [H2 H1] _ ].
  rewrite H2, H1. apply IH. intros new.
  exact (proj2 (proj1 (List.Forall_cons_iff _ _ _) (H new))).
Qed.

Lemma placeholder_substituted before after (key : string) (value : option string)
    (a b : string) :
  Forall (fun '(k', _) => plain_key k' = true /\ k' <> key) before ->
  plain_key key = true ->
  brace_free a = true -> brace_free b = true ->
  brace_free (value_to_replace_with value) = true ->
  replace_placeholders_in_str (before ++ (key, value) :: after)
    (append a (append (append "{{" (append key "}}")) b))
  = append a (append (value_to_replace_with value) b)
  /\ replace_placeholders_in_str (before ++ (key, value) :: after)
       (append a (append (append "{" (append key "}")) b))
     = append a (append (value_to_replace_with value) b).
Proof.
  intros Hbefore Hk Ha Hb Hv.
  assert (Hres : brace_free (append a (append (value_to_replace_with value) b)) = true).
  { rewrite !brace_free_append, Ha, Hb, Hv. reflexivity. }
  rewrite !replace_placeholders_in_str_app. split.
  - rewrite (replace_placeholders_in_str_others before key).
    + change (replace_placeholders_in_str ((key, value) :: after) ?t)
        with (replace_placeholders_in_str after
                (str_replace (append "{" (append key "}")) (value_to_replace_with value)
                   (str_replace (append "{{" (append key "}}"))
                      (value_to_replace_with value) t))).
      rewrite (own_key_double _ _ _ _ Ha Hb Hv).
      exact (replace_placeholders_in_str_brace_free _ _ Hres).
    + intros new. eapply List.Forall_impl; [ | exact Hbefore].
      intros [k' v'] [Hk' Hne]. exact (other_key_double _ _ _ _ _ Hk' Hk Hne Ha Hb).
  - rewrite (replace_placeholders_in_str_others before key).
    + change (replace_placeholders_in_str ((key, value) :: after) ?t)
        with (replace_placeholders_in_str after
                (str_replace (append "{" (append key "}")) (value_to_replace_with value)
                   (str_replace (append "{{" (append key "}}"))
                      (value_to_replace_with value) t))).
      rewrite (own_key_single _ _ _ _ Hk Ha Hb).
      exact (replace_placeholders_in_str_brace_free _ _ Hres).
    + intros new. eapply List.Forall_impl; [ | exact Hbefore].
      intros [k' v'] [Hk' Hne]. exact (other_key_single _ _ _ _ _ Hk' Hk Hne Ha Hb).
Qed.

(** X30.  A placeholder is replaced by its value, in both spellings: in a
    string whose only opening braces are those of one placeholder
    [{{key}}] or [{key}], with the keys of the table free of braces and the
    entries before this key's other keys, the placeholder is replaced by the
    key's value (by nothing when the value is None) and the text around it
    is kept - provided the value itself has no opening brace. *)
Theorem X30_placeholder_substituted {A : Type}
    (before after : list (string * option string)) (key : string) (value : option string)
    (a b : string) :
  Forall (fun entry => plain_key (fst entry) = true /\ fst entry <> key) before ->
  plain_key key = true ->
  brace_free a = true -> brace_free b = true ->
  brace_free (value_to_replace_with value) = true ->
  replace_placeholders_in_data
    (JStr (append a (append (append "{{" (append key "}}")) b)))
    (before ++ (key, value) :: after)
  = JStr (A := A) (append a (append (value_to_replace_with value) b))
  /\ replace_placeholders_in_data
       (JStr (append a (append (append "{" (append key "}")) b)))
       (before ++ (key, value) :: after)
     = JStr (A := A) (append a (append (value_to_replace_with value) b)).
Proof.
  intros Hbefore Hk Ha Hb Hv.
  assert (Hbefore' : Forall (fun '(k', _) => plain_key k' = true /\ k' <> key) before).
  { eapply List.Forall_impl; [ | exact Hbefore]. intros [k' v'] H. exact H. }
  destruct (placeholder_substituted before after key value a b Hbefore' Hk Ha Hb Hv)
    as [H2 H1].
  cbn [replace_placeholders_in_data]. rewrite H2, H1. split; reflexivity.
Qed.

Lemma X30_placeholder_substituted_witness :
  replace_placeholders_in_data (A := Z) (JStr "to {{user_id}}!"%string)
    Scenes.payload_replacements
  = JStr "to wxid_1!"%string
  /\ replace_placeholders_in_data (A := Z) (JStr "to {user_id}!"%string)
       Scenes.payload_replacements
     = JStr "to wxid_1!"%string.
Proof.
  assert (Hbefore : Forall (fun entry : string * option string =>
                              plain_key (fst entry) = true /\ fst entry <> "user_id"%string)
                      [("content"%string, Some "water the plants"%string)]).
  { constructor; [ | constructor]. split; [reflexivity | discriminate]. }
  exact (X30_placeholder_substituted (A := Z)
           [("content"%string, Some "water the plants"%string)]
           [("task_name"%string, None)]
           "user_id"%string (Some "wxid_1"%string) "to "%string "!"%string
           Hbefore eq_refl eq_refl eq_refl eq_refl).
Defined.
